(** * school-dash: the sheets service, embedded and verified

    A shallow embedding of [backend/sheetsService.js]: the header
    classifier, the identity resolver, the student matcher, the attendance
    aggregator and the school aggregator, followed by the properties that
    the design document states about them.

    Conventions of the embedding.
    - A JavaScript string is a [string] (a sequence of 8-bit characters);
      [toLowerCase], [toUpperCase] and [trim] act on the ASCII letters and
      the ASCII white space.
    - A sheet is a [grid]: a list of rows, a row a list of text cells.
      [row[i]] is [row !! i]; [None] stands for [undefined].
    - [findIndex] and [indexOf] return [option nat]; [None] stands for -1.
    - A JavaScript number is a [num]: NaN, the two infinities, or a finite
      value kept as an exact rational. The rounding of IEEE doubles, their
      overflow and their underflow are not modelled, so a computed value
      may differ from the one of the code in its last digits (23 students
      out of 160 are 14.38 percent here and 14.37 in doubles). What is
      stated of numbers is what rounding to nearest preserves: signs,
      comparisons of values that are read or counted, bounds by whole
      numbers, and values up to a stated tolerance.
    - [Map] and [Set] objects that are only probed by key are [gmap] and
      [gset]; a [Set] that is listed keeps its insertion order in a list.
    - The spreadsheet accessor is a record of what the two remote calls
      answer; a thrown [Error] is the left injection of a sum. *)

From Stdlib Require Import QArith Qround ZArith Ascii String List Bool Lia Lqa Sorted.
From stdpp Require Import gmap strings list fin_maps.

Open Scope string_scope.

(** ** JavaScript strings *)

Module JsString.

Definition is_upper (c : ascii) : bool :=
  let n := nat_of_ascii c in Nat.leb 65 n && Nat.leb n 90.

Definition is_lower (c : ascii) : bool :=
  let n := nat_of_ascii c in Nat.leb 97 n && Nat.leb n 122.

Definition lower_char (c : ascii) : ascii :=
  if is_upper c then ascii_of_nat (nat_of_ascii c + 32) else c.

Definition upper_char (c : ascii) : ascii :=
  if is_lower c then ascii_of_nat (nat_of_ascii c - 32) else c.

Fixpoint toLowerCase (s : string) : string :=
  match s with
  | EmptyString => EmptyString
  | String c s' => String (lower_char c) (toLowerCase s')
  end.

Fixpoint toUpperCase (s : string) : string :=
  match s with
  | EmptyString => EmptyString
  | String c s' => String (upper_char c) (toUpperCase s')
  end.

(** The ASCII white space of [String.prototype.trim]: TAB, LF, VT, FF, CR,
    SPACE. The white space outside ASCII that it also strips (U+00A0,
    U+FEFF, the Unicode space separators) is kept here. *)
Definition is_space (c : ascii) : bool :=
  let n := nat_of_ascii c in (Nat.leb 9 n && Nat.leb n 13) || Nat.eqb n 32.

Fixpoint trimStart (s : string) : string :=
  match s with
  | EmptyString => EmptyString
  | String c s' => if is_space c then trimStart s' else s
  end.

Fixpoint trimEnd (s : string) : string :=
  match s with
  | EmptyString => EmptyString
  | String c s' =>
      match trimEnd s' with
      | EmptyString => if is_space c then EmptyString else String c EmptyString
      | t => String c t
      end
  end.

Definition trim (s : string) : string := trimEnd (trimStart s).

Fixpoint startsWith (p s : string) : bool :=
  match p, s with
  | EmptyString, _ => true
  | String _ _, EmptyString => false
  | String a p', String b s' => Ascii.eqb a b && startsWith p' s'
  end.

(** [s.includes(sub)] *)
Fixpoint includes (s sub : string) : bool :=
  startsWith sub s ||
  match s with
  | EmptyString => false
  | String _ s' => includes s' sub
  end.

(** [s.indexOf(c)] for a one-character needle. *)
Fixpoint indexOf (c : ascii) (s : string) : option nat :=
  match s with
  | EmptyString => None
  | String a s' =>
      if Ascii.eqb a c then Some 0
      else match indexOf c s' with
           | Some i => Some (S i)
           | None => None
           end
  end.

(** [s.substring(0, n)] *)
Fixpoint substring0 (n : nat) (s : string) : string :=
  match n, s with
  | S n', String a s' => String a (substring0 n' s')
  | _, _ => EmptyString
  end.

(** Truthiness of a string: the empty string is falsy. *)
Definition truthy (s : string) : bool := negb (String.eqb s "").

(** Truthiness of a value that is a string or [undefined]/[null]. *)
Definition truthy_opt (o : option string) : bool :=
  match o with
  | Some s => truthy s
  | None => false
  end.

(** [o || d] for such a value. *)
Definition or_default (o : option string) (d : string) : string :=
  match o with
  | Some s => if truthy s then s else d
  | None => d
  end.

(** [parts.join(sep)] *)
Fixpoint join (sep : string) (parts : list string) : string :=
  match parts with
  | [] => ""
  | [p] => p
  | p :: rest => p ++ sep ++ join sep rest
  end.

(** Code-unit order of the default [Array.prototype.sort]. *)
Fixpoint ltb (a b : string) : bool :=
  match a, b with
  | _, EmptyString => false
  | EmptyString, String _ _ => true
  | String x a', String y b' =>
      if Nat.ltb (nat_of_ascii x) (nat_of_ascii y) then true
      else if Nat.ltb (nat_of_ascii y) (nat_of_ascii x) then false
      else ltb a' b'
  end.

End JsString.

(** ** Arrays *)

Module JsArray.

(** [arr.findIndex(p)] *)
Fixpoint findIndex {A : Type} (p : A -> bool) (l : list A) : option nat :=
  match l with
  | [] => None
  | x :: l' =>
      if p x then Some 0
      else match findIndex p l' with
           | Some i => Some (S i)
           | None => None
           end
  end.

(** [arr.includes(x)] on an array of strings. *)
Definition includes (l : list string) (x : string) : bool :=
  existsb (String.eqb x) l.

(** [arr.slice(0, n)] *)
Definition slice0 {A : Type} (n : nat) (l : list A) : list A := firstn n l.

(** A stable insertion sort driven by a comparator in the manner of
    [Array.prototype.sort]: [gt a b] says that the comparator is positive
    on [(a, b)], that is, [a] must come after [b]. *)
Fixpoint insert_by {A : Type} (gt : A -> A -> bool) (x : A) (l : list A) : list A :=
  match l with
  | [] => [x]
  | y :: l' => if gt x y then y :: insert_by gt x l' else x :: l
  end.

Fixpoint sort_by {A : Type} (gt : A -> A -> bool) (l : list A) : list A :=
  match l with
  | [] => []
  | x :: l' => insert_by gt x (sort_by gt l')
  end.

(** [Array.from(set)] for a set kept in insertion order: [add]. *)
Definition set_add (x : string) (l : list string) : list string :=
  if includes l x then l else (l ++ [x])%list.

End JsArray.

(** ** JavaScript numbers *)

Module JsNum.

(** A number is NaN, an infinity or a finite value. Finite values are exact
    rationals: the arithmetic below does not round, overflow or underflow
    as IEEE doubles do. The sign of zero is not tracked. *)
Inductive num : Type :=
  | NaN
  | PInf
  | NInf
  | Fin (q : Q).

Definition zero : num := Fin 0.
Definition of_nat (n : nat) : num := Fin (inject_Z (Z.of_nat n)).

Definition sgn (a : num) : comparison :=
  match a with
  | NaN => Eq
  | PInf => Gt
  | NInf => Lt
  | Fin q => (Qnum q ?= 0)%Z
  end.

Definition sgn_mul (s t : comparison) : comparison :=
  match s, t with
  | Eq, _ | _, Eq => Eq
  | Gt, Gt | Lt, Lt => Gt
  | _, _ => Lt
  end.

(** The infinity of a sign; 0 * Infinity is NaN. *)
Definition inf_of_sgn (s : comparison) : num :=
  match s with
  | Gt => PInf
  | Lt => NInf
  | Eq => NaN
  end.

Definition neg (a : num) : num :=
  match a with
  | NaN => NaN
  | PInf => NInf
  | NInf => PInf
  | Fin q => Fin (- q)
  end.

Definition add (a b : num) : num :=
  match a, b with
  | NaN, _ | _, NaN => NaN
  | PInf, NInf | NInf, PInf => NaN
  | PInf, _ | _, PInf => PInf
  | NInf, _ | _, NInf => NInf
  | Fin x, Fin y => Fin (x + y)
  end.

Definition sub (a b : num) : num := add a (neg b).

Definition mul (a b : num) : num :=
  match a, b with
  | NaN, _ | _, NaN => NaN
  | Fin x, Fin y => Fin (x * y)
  | _, _ => inf_of_sgn (sgn_mul (sgn a) (sgn b))
  end.

Definition div (a b : num) : num :=
  match a, b with
  | NaN, _ | _, NaN => NaN
  | Fin x, Fin y =>
      if Qeq_bool y 0 then inf_of_sgn (sgn a) else Fin (x / y)
  | Fin _, _ => Fin 0
  | _, Fin y => if Qeq_bool y 0 then a else inf_of_sgn (sgn_mul (sgn a) (sgn b))
  | _, _ => NaN
  end.

(** [a > b]; false as soon as one side is NaN. *)
Definition gtb (a b : num) : bool :=
  match a, b with
  | NaN, _ | _, NaN => false
  | PInf, PInf => false
  | PInf, _ => true
  | _, PInf => false
  | NInf, _ => false
  | Fin _, NInf => true
  | Fin x, Fin y => negb (Qle_bool x y)
  end.

(** [a >= b] *)
Definition geb (a b : num) : bool :=
  match a, b with
  | NaN, _ | _, NaN => false
  | PInf, _ => true
  | _, NInf => true
  | NInf, _ => false
  | Fin _, PInf => false
  | Fin x, Fin y => Qle_bool y x
  end.

(** Truthiness: 0 and NaN are falsy. *)
Definition truthy_num (a : num) : bool :=
  match a with
  | NaN => false
  | Fin q => negb (Qeq_bool q 0)
  | _ => true
  end.

(** [a || b] *)
Definition or_else (a b : num) : num := if truthy_num a then a else b.

(** [Math.round]: the nearest integer, halves rounded up. *)
Definition round (a : num) : num :=
  match a with
  | Fin q => Fin (inject_Z (Qfloor (q + (1 # 2))))
  | _ => a
  end.

(** [Math.round(x * 100) / 100], on exact values: the result is the
    nearest whole number of hundredths, where the code may be one hundredth
    off when [x * 100] is rounded across a half. *)
Definition round2 (x : num) : num := div (round (mul x (of_nat 100))) (of_nat 100).

(** *** [parseFloat] *)

Definition is_digit (c : ascii) : bool :=
  let n := nat_of_ascii c in Nat.leb 48 n && Nat.leb n 57.

Definition digit_val (c : ascii) : Z := Z.of_nat (nat_of_ascii c - 48).

(** The longest run of decimal digits at the head of [s], and what follows. *)
Fixpoint digits (s : string) : list Z * string :=
  match s with
  | EmptyString => ([], EmptyString)
  | String c s' =>
      if is_digit c then
        let '(ds, r) := digits s' in (digit_val c :: ds, r)
      else ([], s)
  end.

Definition digits_val (ds : list Z) : Z :=
  fold_left (fun acc d => 10 * acc + d)%Z ds 0%Z.

Definition pow10 (e : Z) : Q :=
  match e with
  | Z0 => 1
  | Zpos p => inject_Z (10 ^ Zpos p)
  | Zneg p => 1 # (10 ^ p)
  end.

(** The exponent part: [e] or [E], an optional sign, at least one digit;
    anything else is not an exponent and is left unread. *)
Definition parse_exponent (s : string) : Z :=
  match s with
  | String c s' =>
      if Ascii.eqb c "e" || Ascii.eqb c "E" then
        let '(sg, t) :=
          match s' with
          | String "+" t => (1%Z, t)
          | String "-" t => ((-1)%Z, t)
          | _ => (1%Z, s')
          end in
        match digits t with
        | ([], _) => 0%Z
        | (ds, _) => (sg * digits_val ds)%Z
        end
      else 0%Z
  | EmptyString => 0%Z
  end.

Definition parse_unsigned (s : string) : num :=
  if JsString.startsWith "Infinity" s then PInf
  else
    let '(ip, r1) := digits s in
    let '(fp, r2) :=
      match r1 with
      | String "." t => digits t
      | _ => ([], r1)
      end in
    match ip, fp with
    | [], [] => NaN
    | _, _ =>
        Fin (inject_Z (digits_val (ip ++ fp))
             * pow10 (parse_exponent r2 - Z.of_nat (length fp)))
    end.

(** [parseFloat(v)] for [v] a string or [undefined]: leading white space is
    skipped, the longest prefix that reads as a decimal literal is taken,
    and NaN is returned when there is none. *)
Definition parseFloat (v : option string) : num :=
  match v with
  | None => NaN
  | Some s =>
      match JsString.trimStart s with
      | String "-" t => neg (parse_unsigned t)
      | String "+" t => parse_unsigned t
      | t => parse_unsigned t
      end
  end.

End JsNum.

(** ** The sheets service *)

Module Sheets.

Import JsString.

Definition row : Type := list string.
Definition grid : Type := list row.

(** [row[i]?.toString().trim()] *)
Definition cell_trim (r : row) (i : nat) : option string := trim <$> (r !! i).

(** What the Google Sheets client answers. [acc_ready] is false when the
    client or the spreadsheet id is missing. [acc_sheets] is the outcome of
    [getSheetNames] on a ready client: the sheet titles, or the message of
    the [Error] it throws. [acc_values] is what [spreadsheets.values.get]
    holds for a sheet name; [None] when the call fails or has no values. *)
Record Accessor : Type := {
  acc_ready : bool;
  acc_sheets : string + list string;
  acc_values : string -> option grid
}.

Definition getSheetNames (acc : Accessor) : string + list string :=
  if acc_ready acc then acc_sheets acc
  else inl ("Failed to fetch sheet names: Google Sheets API not initialized. "
            ++ "Missing sheets client or spreadsheet ID.").

(** [readSheet]: every failure is caught and answered with the empty grid. *)
Definition readSheet (acc : Accessor) (sheetName : string) : grid :=
  if acc_ready acc then default [] (acc_values acc sheetName) else [].

(** *** Header classifier *)

Definition isUserName (h : string) : bool := String.eqb (toLowerCase h) "username".

Definition isSchoolName (h : string) : bool :=
  let lower := toLowerCase h in includes lower "school" && includes lower "name".

Definition isOpengradSchoolCode (h : string) : bool :=
  let lower := toLowerCase h in
  includes lower "opengrad" && includes lower "school" && includes lower "code".

Definition isUdsieCode (h : string) : bool :=
  let lower := toLowerCase h in
  includes lower "udsie"
  || (includes lower "school" && includes lower "code" && negb (includes lower "opengrad")).

Definition isEmisId (h : string) : bool :=
  String.eqb (toLowerCase h) "emis_id" || includes (toLowerCase h) "emis".

Definition isSchool (h : string) : bool := includes (toLowerCase h) "school".

Definition isStudentIdColumn (h : string) : bool :=
  let lower := toLowerCase h in
  String.eqb lower "username" || String.eqb lower "emis_id" || includes lower "student id".

Definition isStudentNotSchool (h : string) : bool :=
  includes (toLowerCase h) "student" && negb (includes (toLowerCase h) "school").

Definition isLearnerDetails (h : string) : bool :=
  let lower := toLowerCase h in includes lower "learner" && includes lower "details".

Definition isStudent (h : string) : bool := includes (toLowerCase h) "student".

Definition isStudentName (h : string) : bool :=
  let lower := toLowerCase h in
  includes lower "student" && includes lower "name" && negb (includes lower "school").

Definition isScoreBearing (col : string) : bool :=
  let lower := toLowerCase col in
  includes lower "score" || includes lower "mark" || includes lower "total".

(** The school column of the mapping sheet: the OpenGrad school code, else
    the first column that mentions a school. *)
Definition schoolIdIndexOf (header : row) : option nat :=
  match JsArray.findIndex isOpengradSchoolCode header with
  | Some i => Some i
  | None => JsArray.findIndex isSchool header
  end.

(** The student column of the mapping sheet. *)
Definition studentIdIndexOf (header : row) : option nat :=
  match JsArray.findIndex isStudentIdColumn header with
  | Some i => Some i
  | None => JsArray.findIndex isStudentNotSchool header
  end.

(** The identifier column of a test sheet: [inl] the learner-details
    column, [inr] the fall-back student column. *)
Definition testIdColumn (header : row) : option (nat + nat) :=
  match JsArray.findIndex isLearnerDetails header with
  | Some li => Some (inl li)
  | None =>
      match JsArray.findIndex isStudent header with
      | Some si => Some (inr si)
      | None => None
      end
  end.

(** *** Identity resolver *)

Record Identity : Type := {
  userName : string;
  schoolName : string;
  schoolCode : string;
  udsieCode : string;
  emisId : string
}.

(** [idx !== -1 ? (row[idx]?.toString().trim() || '') : ''] *)
Definition cell_or_empty (r : row) (idx : option nat) : string :=
  match idx with
  | Some i => or_default (cell_trim r i) ""
  | None => ""
  end.

Definition buildStudentLookupMap (acc : Accessor) : gmap string Identity :=
  match readSheet acc "Mapping" with
  | [] => ∅
  | header :: data =>
      let schoolNameIndex := JsArray.findIndex isSchoolName header in
      let schoolCodeIndex := JsArray.findIndex isOpengradSchoolCode header in
      let udsieCodeIndex := JsArray.findIndex isUdsieCode header in
      let emisIdIndex := JsArray.findIndex isEmisId header in
      match JsArray.findIndex isUserName header with
      | None => ∅
      | Some userNameIndex =>
          fold_left
            (fun (lookupMap : gmap string Identity) (r : row) =>
               match r with
               | [] => lookupMap
               | _ =>
                   match cell_trim r userNameIndex with
                   | Some u =>
                       if truthy u then
                         <[u := {| userName := u;
                                   schoolName := cell_or_empty r schoolNameIndex;
                                   schoolCode := cell_or_empty r schoolCodeIndex;
                                   udsieCode := cell_or_empty r udsieCodeIndex;
                                   emisId := cell_or_empty r emisIdIndex |}]> lookupMap
                       else lookupMap
                   | None => lookupMap
                   end
               end)
            data ∅
      end
  end.

(** [null] for an absent or empty cell; otherwise the trimmed text up to
    its first at-sign, or the whole trimmed text when it has none. *)
Definition extractUsernameFromLearnerDetails (learnerDetails : option string)
  : option string :=
  match learnerDetails with
  | None => None
  | Some ld =>
      if negb (truthy ld) then None
      else
        let str := trim ld in
        match indexOf "@" str with
        | Some atIndex => Some (substring0 atIndex str)
        | None => Some str
        end
  end.

(** *** Student matcher: the mapping sheet *)

Record Student : Type := {
  studentId : string;
  schoolId : option string
}.

(** The student column and the school column, when both are found. *)
Definition masterColumns (header : row) : option (nat * nat) :=
  match schoolIdIndexOf header, studentIdIndexOf header with
  | Some schoolIdIndex, Some studentIdIndex => Some (schoolIdIndex, studentIdIndex)
  | _, _ => None
  end.

(** The record returned for a matched row. The student cell of a matched
    row is present: its trimmed text was compared equal to a string. *)
Definition studentOfRow (schoolIdIndex studentIdIndex : nat) (r : row) : option Student :=
  match r !! studentIdIndex with
  | Some sid => Some {| studentId := sid; schoolId := r !! schoolIdIndex |}
  | None => None
  end.

Definition opt_eqb (o : option string) (s : string) : bool :=
  match o with
  | Some t => String.eqb t s
  | None => false
  end.

Definition findStudentById (acc : Accessor) (student_id : string) : option Student :=
  match readSheet acc "Mapping" with
  | [] => None
  | header :: data =>
      match masterColumns header with
      | None => None
      | Some (schoolIdIndex, studentIdIndex) =>
          match List.find (fun r => opt_eqb (cell_trim r studentIdIndex) student_id) data with
          | Some r => studentOfRow schoolIdIndex studentIdIndex r
          | None => None
          end
      end
  end.

Definition findStudentInMaster (acc : Accessor) (student_id school_id : string)
  : option Student :=
  match readSheet acc "Mapping" with
  | [] => None
  | header :: data =>
      match masterColumns header with
      | None => None
      | Some (schoolIdIndex, studentIdIndex) =>
          match List.find
                  (fun r => opt_eqb (cell_trim r studentIdIndex) student_id
                            && opt_eqb (cell_trim r schoolIdIndex) school_id) data with
          | Some r => studentOfRow schoolIdIndex studentIdIndex r
          | None => None
          end
      end
  end.

(** One pass over the mapping sheet: the students of a school, in row
    order, duplicates kept. *)
Definition getStudentsBySchool (acc : Accessor) (school_id : string) : list Student :=
  match readSheet acc "Mapping" with
  | [] => []
  | header :: data =>
      match masterColumns header with
      | None => []
      | Some (schoolIdIndex, studentIdIndex) =>
          let searchSchoolId := toUpperCase (trim school_id) in
          fold_left
            (fun (students : list Student) (r : row) =>
               match r with
               | [] => students
               | _ =>
                   let rowSchoolId :=
                     or_default (toUpperCase <$> cell_trim r schoolIdIndex) "" in
                   let rowStudentId := or_default (cell_trim r studentIdIndex) "" in
                   if String.eqb rowSchoolId searchSchoolId && truthy rowStudentId then
                     match studentOfRow schoolIdIndex studentIdIndex r with
                     | Some st => (students ++ [st])%list
                     | None => students
                     end
                   else students
               end)
            data []
      end
  end.

(** *** Student matcher: a test sheet *)

Record Enriched : Type := {
  enrichedSchoolName : string;
  openGradSchoolCode : string;
  enrichedUdsieCode : string;
  enrichedEmisId : string
}.

(** A property value of the object returned for a matched row: the text of
    a cell, or the nested enrichment object. *)
Inductive jsval : Type :=
  | VStr (s : string)
  | VEnriched (e : Enriched).

(** [header.forEach((col, idx) => studentData[col] = row[idx] || '')] on
    the object literal [{}]. The map holds the own properties of the
    object. An assignment to the key [__proto__] reaches the setter that
    the object inherits, which ignores a text: it adds no property. *)
Definition rowObject (header r : row) : gmap string jsval :=
  fold_left
    (fun (studentData : gmap string jsval) (ic : nat * string) =>
       if String.eqb (snd ic) "__proto__" then studentData
       else <[snd ic := VStr (or_default (r !! fst ic) "")]> studentData)
    (combine (seq 0 (length header)) header) ∅.

(** [rowStudentId] and [userName] of a data row, by identifier column. *)
Definition testRowKeys (col : nat + nat) (r : row) : option string * option string :=
  match col with
  | inl learnerDetailsIndex =>
      let learnerDetails := cell_trim r learnerDetailsIndex in
      (learnerDetails, extractUsernameFromLearnerDetails learnerDetails)
  | inr studentIdIndex =>
      let rowStudentId := cell_trim r studentIdIndex in
      (rowStudentId, rowStudentId)
  end.

Definition rowMatches (col : nat + nat) (student_id : string) (r : row) : bool :=
  let '(rowStudentId, userName) := testRowKeys col r in
  match rowStudentId with
  | Some rid =>
      truthy rid
      && (String.eqb rid student_id
          || includes rid student_id
          || opt_eqb userName student_id)
  | None => false
  end.

Definition studentDataOf (header : row) (col : nat + nat)
    (studentLookupMap : gmap string Identity) (r : row) : gmap string jsval :=
  let studentData := rowObject header r in
  match snd (testRowKeys col r) with
  | Some u =>
      if truthy u then
        match studentLookupMap !! u with
        | Some mappingData =>
            <["_enriched" :=
                VEnriched {| enrichedSchoolName := schoolName mappingData;
                             openGradSchoolCode := schoolCode mappingData;
                             enrichedUdsieCode := udsieCode mappingData;
                             enrichedEmisId := emisId mappingData |}]> studentData
        | None => studentData
        end
      else studentData
  | None => studentData
  end.

Definition findStudentInTestSheet (acc : Accessor) (student_id testSheetName : string)
    (studentLookupMap : option (gmap string Identity)) : option (gmap string jsval) :=
  match readSheet acc testSheetName with
  | [] => None
  | header :: data =>
      match testIdColumn header with
      | None => None
      | Some col =>
          let lookup :=
            match studentLookupMap with
            | Some m => m
            | None => buildStudentLookupMap acc
            end in
          match List.find (rowMatches col student_id) data with
          | Some r => Some (studentDataOf header col lookup r)
          | None => None
          end
      end
  end.

(** *** Attendance aggregator *)

Record TestEntry : Type := {
  name : string;
  status : string;
  hasData : bool
}.

Record StudentTests : Type := {
  error : option string;
  student : option Student;
  tests : list TestEntry
}.

Definition isTestSheet (sheet : string) : bool :=
  negb (String.eqb (toLowerCase sheet) "mapping")
  && negb (String.eqb (toLowerCase sheet) "config").

Definition testEntryOf (acc : Accessor) (student_id testSheet : string) : TestEntry :=
  match findStudentInTestSheet acc student_id testSheet None with
  | Some _ => {| name := testSheet; status := "Attended"; hasData := true |}
  | None => {| name := testSheet; status := "Absent"; hasData := false |}
  end.

(** The first step of [getStudentTests]: the student of the mapping sheet,
    checked against the school when one is given, and the message that is
    answered when there is none. [school_id] is [None] for [null]; an
    empty school id is falsy and counts as not given. *)
Definition findInMaster (acc : Accessor) (student_id : string)
    (school_id : option string) : option Student * string :=
  match school_id with
  | Some sc =>
      if truthy sc then
        (findStudentInMaster acc student_id sc, "Student not found or school ID mismatch")
      else (findStudentById acc student_id, "Student not found")
  | None => (findStudentById acc student_id, "Student not found")
  end.

(** The left injection is the message of the error that escapes when the
    sheet names cannot be listed. *)
Definition getStudentTests (acc : Accessor) (student_id : string)
    (school_id : option string) : string + StudentTests :=
  let found := findInMaster acc student_id school_id in
  match fst found with
  | None => inr {| error := Some (snd found); student := None; tests := [] |}
  | Some st =>
      match getSheetNames acc with
      | inl msg => inl msg
      | inr allSheets =>
          let testSheets := List.filter isTestSheet allSheets in
          inr {| error := None;
                 student := Some {| studentId := studentId st; schoolId := schoolId st |};
                 tests := List.map (testEntryOf acc student_id) testSheets |}
      end
  end.

(** *** Sheet enrichment *)

(** [if (!h.includes(col)) h.push(col)] *)
Definition pushIfMissing (col : string) (h : row) : row :=
  if JsArray.includes h col then h else (h ++ [col])%list.

Definition enrichRow (learnerDetailsIndex : nat)
    (studentLookupMap : gmap string Identity) (r : row) : row :=
  let learnerDetails := or_default (cell_trim r learnerDetailsIndex) "" in
  let empty := (r ++ [""; ""; ""; ""])%list in
  match extractUsernameFromLearnerDetails (Some learnerDetails) with
  | Some u =>
      if truthy u then
        match studentLookupMap !! u with
        | Some mappingData =>
            (r ++ [or_default (Some (schoolName mappingData)) "";
                   or_default (Some (schoolCode mappingData)) "";
                   or_default (Some (udsieCode mappingData)) "";
                   or_default (Some (emisId mappingData)) ""])%list
        | None => empty
        end
      else empty
  | None => empty
  end.

Definition enrichTestSheet (acc : Accessor) (testSheetName : string) : grid :=
  let testData := readSheet acc testSheetName in
  match testData with
  | [] => testData
  | header :: data =>
      match JsArray.findIndex isLearnerDetails header with
      | None => testData
      | Some learnerDetailsIndex =>
          let studentLookupMap := buildStudentLookupMap acc in
          let enrichedHeader :=
            pushIfMissing "EMIS ID"
              (pushIfMissing "UDSIE Code"
                 (pushIfMissing "OpenGrad School Code"
                    (pushIfMissing "School Name" header))) in
          enrichedHeader :: List.map (enrichRow learnerDetailsIndex studentLookupMap) data
      end
  end.

(** *** School aggregator *)

Import JsNum.

(** The school identifiers listed with the "not found" answer: the trimmed,
    non-empty school cells, each once, sorted, the first ten. *)
Definition availableSchoolIds (acc : Accessor) : list string :=
  match readSheet acc "Mapping" with
  | [] => []
  | header :: data =>
      match schoolIdIndexOf header with
      | None => []
      | Some schoolIdIndex =>
          let schoolIdSet :=
            fold_left
              (fun (set : list string) (r : row) =>
                 match r !! schoolIdIndex with
                 | Some c =>
                     if truthy c then
                       let id := trim c in
                       if truthy id then JsArray.set_add id set else set
                     else set
                 | None => set
                 end)
              data [] in
          JsArray.slice0 10 (JsArray.sort_by (fun a b => ltb b a) schoolIdSet)
      end
  end.

(** The double quote character. *)
Definition dquote : ascii := "034"%char.

(** The message for a school without students: the school id in double
    quotes between two fixed texts. *)
Definition notFoundMessage (school_id : string) : string :=
  "School " ++ String dquote (school_id ++ String dquote
    " not found or has no students in the Mapping sheet").

Definition notFoundDetails (ids : list string) : string :=
  "Verify the School ID is correct and exists in the Mapping sheet of your Google Spreadsheet."
  ++ match ids with
     | [] => ""
     | _ => " Available school IDs (first 10): " ++ join ", " ids
     end.

(** The user names of a school and the side table from student name to
    user name; both stay empty unless the mapping sheet has a user-name, a
    student-name and an OpenGrad school-code column. *)
Record Roster : Type := {
  studentUserNames : gset string;
  studentNameToUserName : gmap string string
}.

Definition emptyRoster : Roster :=
  {| studentUserNames := ∅; studentNameToUserName := ∅ |}.

Definition rosterOf (acc : Accessor) (school_id : string) : Roster :=
  match readSheet acc "Mapping" with
  | [] => emptyRoster
  | header :: data =>
      match JsArray.findIndex isUserName header,
            JsArray.findIndex isStudentName header,
            JsArray.findIndex isOpengradSchoolCode header with
      | Some userNameIndex, Some studentNameIndex, Some schoolCodeIndex =>
          let searchSchoolId := toUpperCase (trim school_id) in
          fold_left
            (fun (ro : Roster) (r : row) =>
               match r with
               | [] => ro
               | _ =>
                   let rowSchoolId :=
                     or_default (toUpperCase <$> cell_trim r schoolCodeIndex) "" in
                   let rowUserName := or_default (cell_trim r userNameIndex) "" in
                   let rowStudentName := or_default (cell_trim r studentNameIndex) "" in
                   if String.eqb rowSchoolId searchSchoolId && truthy rowUserName then
                     {| studentUserNames := {[rowUserName]} ∪ studentUserNames ro;
                        studentNameToUserName :=
                          if truthy rowStudentName then
                            <[rowStudentName := rowUserName]> (studentNameToUserName ro)
                          else studentNameToUserName ro |}
                   else ro
               end)
            data emptyRoster
      | _, _, _ => emptyRoster
      end
  end.

Definition hasUserName (ro : Roster) (u : string) : bool :=
  bool_decide (u ∈ studentUserNames ro).

(** The indices of the score-bearing columns, in header order. *)
Definition scoreIndices (header : row) : list nat :=
  List.map snd
    (List.filter (fun ci : string * nat => isScoreBearing (fst ci))
       (combine header (seq 0 (length header)))).

(** The score of a row: the sum of [parseFloat(row[idx]) || 0] over the
    score-bearing columns. *)
Definition rowScore (indices : list nat) (r : row) : num :=
  match indices with
  | [] => zero
  | _ => fold_left (fun sum idx => add sum (or_else (parseFloat (r !! idx)) zero))
           indices zero
  end.

(** [matched], [rowUserName] and [rowStudentId] of a data row. *)
Definition rowMembership (ro : Roster) (studentIds : list string) (col : nat + nat)
    (r : row) : bool * option string * option string :=
  match col with
  | inl learnerDetailsIndex =>
      let learnerDetails := or_default (cell_trim r learnerDetailsIndex) "" in
      let rowUserName := extractUsernameFromLearnerDetails (Some learnerDetails) in
      (truthy_opt rowUserName && hasUserName ro (default "" rowUserName),
       rowUserName, Some learnerDetails)
  | inr studentIdIndex =>
      let rowStudentId := cell_trim r studentIdIndex in
      let matched :=
        match rowStudentId with
        | Some rid => JsArray.includes studentIds rid
        | None => false
        end in
      if negb matched && truthy_opt rowStudentId then
        match studentNameToUserName ro !! default "" rowStudentId with
        | Some u =>
            if truthy u && hasUserName ro u then (true, Some u, rowStudentId)
            else (matched, None, rowStudentId)
        | None => (matched, None, rowStudentId)
        end
      else (matched, None, rowStudentId)
  end.

Record ScoreEntry : Type := {
  scoreStudentId : option string;
  score : num
}.

(** The four accumulators of the loop over the rows of a test sheet. *)
Record Tally : Type := {
  tallyAttended : nat;
  totalScore : num;
  scoreCount : nat;
  studentScores : list ScoreEntry
}.

Definition emptyTally : Tally :=
  {| tallyAttended := 0; totalScore := zero; scoreCount := 0; studentScores := [] |}.

(** [a || b] for values that are a string or [undefined]/[null]. *)
Definition or_opt (a b : option string) : option string :=
  if truthy_opt a then a else b.

Definition tallyRow (ro : Roster) (studentIds : list string) (col : nat + nat)
    (indices : list nat) (t : Tally) (r : row) : Tally :=
  let '(matched, rowUserName, rowStudentId) := rowMembership ro studentIds col r in
  if matched then
    let sc := rowScore indices r in
    if gtb sc zero then
      {| tallyAttended := S (tallyAttended t);
         totalScore := add (totalScore t) sc;
         scoreCount := S (scoreCount t);
         studentScores :=
           (studentScores t
            ++ [{| scoreStudentId := or_opt rowUserName rowStudentId; score := sc |}])%list |}
    else
      {| tallyAttended := S (tallyAttended t);
         totalScore := totalScore t;
         scoreCount := scoreCount t;
         studentScores := studentScores t |}
  else t.

Definition tallySheet (ro : Roster) (studentIds : list string) (col : nat + nat)
    (header : row) (data : list row) : Tally :=
  fold_left (tallyRow ro studentIds col (scoreIndices header)) data emptyTally.

Record TestStat : Type := {
  testName : string;
  totalStudents : nat;
  attendedCount : nat;
  attendancePercent : num;
  avgScore : num;
  topPerformers : list ScoreEntry
}.

(** The comparator [(a, b) => b.score - a.score] is positive. *)
Definition byScoreDesc (a b : ScoreEntry) : bool := gtb (sub (score b) (score a)) zero.

(** The roster id of a leaderboard entry, when the roster has one. The id
    of an entry is never [undefined] (see [tallyRow_ids]), so
    [s.studentId.toString()] does not throw. *)
Definition resolveEntry (students : list Student) (s : ScoreEntry) : ScoreEntry :=
  let found :=
    List.find
      (fun st => match scoreStudentId s with
                 | Some sid => String.eqb (trim (studentId st)) (trim sid)
                 | None => false
                 end)
      students in
  {| scoreStudentId :=
       match found with
       | Some st => if truthy (studentId st) then Some (studentId st) else scoreStudentId s
       | None => scoreStudentId s
       end;
     score := score s |}.

Definition testStatOfTally (students : list Student) (testSheet : string) (t : Tally)
  : TestStat :=
  let avg :=
    if Nat.ltb 0 (scoreCount t) then div (totalScore t) (of_nat (scoreCount t)) else zero in
  let percent :=
    mul (div (of_nat (tallyAttended t)) (of_nat (length students))) (of_nat 100) in
  {| testName := testSheet;
     totalStudents := length students;
     attendedCount := tallyAttended t;
     attendancePercent := round2 percent;
     avgScore := round2 avg;
     topPerformers :=
       List.map (resolveEntry students)
         (JsArray.slice0 5 (JsArray.sort_by byScoreDesc (studentScores t))) |}.

(** The tally of one test sheet; [None] when the sheet is skipped. *)
Definition tallyOf (acc : Accessor) (students : list Student) (ro : Roster)
    (testSheet : string) : option Tally :=
  match readSheet acc testSheet with
  | [] => None
  | header :: data =>
      match testIdColumn header with
      | None => None
      | Some col =>
          let studentIds := List.map (fun s => trim (studentId s)) students in
          Some (tallySheet ro studentIds col header data)
      end
  end.

Definition testStatOf (acc : Accessor) (students : list Student) (ro : Roster)
    (testSheet : string) : option TestStat :=
  testStatOfTally students testSheet <$> tallyOf acc students ro testSheet.

Inductive SchoolStats : Type :=
  | StatsError (message : string) (details : option string)
  | Stats (school : string) (total : nat) (avgAttendance avgOfScores : num)
      (testStats : list TestStat).

(** [testStats.reduce((sum, t) => sum + f(t), 0) / testStats.length || 0] *)
Definition meanOf (f : TestStat -> num) (testStats : list TestStat) : num :=
  or_else
    (div (fold_left (fun sum t => add sum (f t)) testStats zero)
         (of_nat (length testStats)))
    zero.

Definition getSchoolStats (acc : Accessor) (school_id : string) : SchoolStats :=
  if negb (acc_ready acc) then
    StatsError "Google Sheets API not initialized"
      (Some "The server may not be properly configured with Google Sheets credentials.")
  else if negb (truthy school_id) then
    StatsError "School ID is required" None
  else
    let students := getStudentsBySchool acc school_id in
    match students with
    | [] =>
        StatsError
          (notFoundMessage school_id)
          (Some (notFoundDetails (availableSchoolIds acc)))
    | _ =>
        match getSheetNames acc with
        | inl msg =>
            StatsError ("Failed to fetch sheet names: " ++ msg)
              (Some "This could be due to permission issues or the spreadsheet not being accessible.")
        | inr allSheets =>
            let testSheets := List.filter isTestSheet allSheets in
            let ro := rosterOf acc school_id in
            let testStats := omap (testStatOf acc students ro) testSheets in
            Stats school_id (length students)
              (round2 (meanOf attendancePercent testStats))
              (round2 (meanOf avgScore testStats))
              testStats
        end
    end.

(** *** Test details *)

(** A property value of the object returned by [getTestDetails]: [None]
    stands for a property that is set to [undefined]. *)
Definition detailval : Type := option jsval.

(** Truthiness of a property read from the row object: an absent
    property, [undefined] and the empty text are falsy; a non-empty text
    and an object are truthy. *)
Definition truthy_val (v : option jsval) : bool :=
  match v with
  | Some (VStr s) => truthy s
  | Some (VEnriched _) => true
  | None => false
  end.

(** [studentData._enriched.f]: the field of the nested object; [undefined]
    when [_enriched] is a text. *)
Definition enrichedField (f : Enriched -> string) (v : option jsval) : detailval :=
  match v with
  | Some (VEnriched e) => Some (VStr (f e))
  | _ => None
  end.

Record TestDetails : Type := {
  detailsError : option string;
  detailsTestName : option string;
  detailsData : option (gmap string detailval)
}.

Definition getTestDetails (acc : Accessor) (student_id test_name : string) : TestDetails :=
  match findStudentInTestSheet acc student_id test_name None with
  | None =>
      {| detailsError := Some "Student not found in this test";
         detailsTestName := None;
         detailsData := None |}
  | Some studentData =>
      let enrichedData : gmap string detailval := Some <$> studentData in
      let nested := studentData !! "_enriched" in
      {| detailsError := None;
         detailsTestName := Some test_name;
         detailsData :=
           Some
             (if truthy_val nested then
                delete "_enriched"
                  (<["EMIS ID" := enrichedField enrichedEmisId nested]>
                     (<["UDSIE Code" := enrichedField enrichedUdsieCode nested]>
                        (<["OpenGrad School Code" := enrichedField openGradSchoolCode nested]>
                           (<["School Name" := enrichedField enrichedSchoolName nested]>
                              enrichedData))))
              else enrichedData) |}
  end.

(** *** A spreadsheet given by its sheets *)

Fixpoint sheetNamed (sheets : list (string * grid)) (sheetName : string) : option grid :=
  match sheets with
  | [] => None
  | (n, g) :: rest => if String.eqb n sheetName then Some g else sheetNamed rest sheetName
  end.

(** A ready accessor over a spreadsheet whose sheets are listed by name. *)
Definition workbook (sheets : list (string * grid)) : Accessor :=
  {| acc_ready := true;
     acc_sheets := inr (List.map fst sheets);
     acc_values := sheetNamed sheets |}.

End Sheets.

(** ** The HTTP endpoints *)

Module Server.

Import JsString Sheets.

(** The JSON body of a refusal, with the status it is sent with; the
    [echo] field is the query parameter that the body repeats, if any. *)
Record Failure : Type := {
  httpStatus : nat;
  failError : string;
  failDetails : option string;
  echo : option string
}.

(** What an endpoint sends: a refusal, or a result sent by [res.json],
    that is, with status 200. *)
Inductive Reply (A : Type) : Type :=
  | Refused (f : Failure)
  | Sent (result : A).

Arguments Refused {A} f.
Arguments Sent {A} result.

Definition statusOf {A : Type} (r : Reply A) : nat :=
  match r with
  | Refused f => httpStatus f
  | Sent _ => 200
  end.

(** [GET /api/student/tests]: [studentId] and [schoolId] are the query
    parameters, [None] when absent; each is taken to be given at most once
    in the query string, so that Express hands it over as a text. *)
Definition studentTestsEndpoint (acc : Accessor) (studentId schoolId : option string)
  : Reply StudentTests :=
  if negb (acc_ready acc) then
    Refused
      {| httpStatus := 500;
         failError :=
           "Google Sheets API not initialized. Check server logs for authentication errors.";
         failDetails :=
           Some "The server may not be properly configured with Google Sheets credentials.";
         echo := None |}
  else
    match studentId with
    | Some sid =>
        if truthy sid then
          match getStudentTests acc sid
                  (if truthy_opt schoolId then schoolId else None) with
          | inr result => Sent result
          | inl msg =>
              Refused
                {| httpStatus := 500;
                   failError :=
                     "Failed to fetch student tests: "
                     ++ or_default (Some msg) "Unknown error occurred";
                   failDetails := Some "Check server logs for more details";
                   echo := studentId |}
          end
        else
          Refused {| httpStatus := 400; failError := "Student ID is required";
                     failDetails := None; echo := None |}
    | None =>
        Refused {| httpStatus := 400; failError := "Student ID is required";
                   failDetails := None; echo := None |}
    end.

(** The body of [GET /api/test/enriched]. *)
Record EnrichedBody : Type := {
  enrichedTestName : string;
  enrichedData : grid;
  rowCount : Z
}.

(** [GET /api/test/enriched]: [enrichTestSheet] catches every error, so
    the handler's own [catch] is never entered. *)
Definition enrichedEndpoint (acc : Accessor) (test_name : option string)
  : Reply EnrichedBody :=
  if negb (acc_ready acc) then
    Refused
      {| httpStatus := 500;
         failError :=
           "Google Sheets API not initialized. Check server logs for authentication errors.";
         failDetails :=
           Some "The server may not be properly configured with Google Sheets credentials.";
         echo := None |}
  else
    match test_name with
    | Some tn =>
        if truthy tn then
          let data := enrichTestSheet acc tn in
          Sent {| enrichedTestName := tn;
                  enrichedData := data;
                  rowCount := (Z.of_nat (length data) - 1)%Z |}
        else
          Refused {| httpStatus := 400; failError := "Test name is required";
                     failDetails := None; echo := None |}
    | None =>
        Refused {| httpStatus := 400; failError := "Test name is required";
                   failDetails := None; echo := None |}
    end.

(** The sheet that [GET /api/debug/master] reads as the mapping sheet,
    chosen among the sheet names: a sheet named "mapping", else one named
    "master", else one whose name contains "mapping", else one whose name
    contains "master", in any letter case; "Mapping" when there is none. *)
Definition debugMasterSheetName (allSheets : list string) : string :=
  match List.find (fun n => String.eqb (toLowerCase n) "mapping") allSheets with
  | Some mappingSheet => mappingSheet
  | None =>
      match List.find (fun n => String.eqb (toLowerCase n) "master") allSheets with
      | Some masterSheet => masterSheet
      | None =>
          if Nat.ltb 0 (length allSheets) then
            match List.find (fun n => includes (toLowerCase n) "mapping") allSheets with
            | Some mappingLike => mappingLike
            | None =>
                match List.find (fun n => includes (toLowerCase n) "master") allSheets with
                | Some masterLike => masterLike
                | None => "Mapping"
                end
            end
          else "Mapping"
      end
  end.

End Server.

(** * The vocabulary of the properties *)

Module Vocabulary.

Import JsString JsNum Sheets.

(** [c] occurs in [s]. *)
Fixpoint occurs (c : ascii) (s : string) : Prop :=
  match s with
  | EmptyString => False
  | String a s' => a = c \/ occurs c s'
  end.

(** [sub] is a contiguous part of [s]. *)
Definition is_substring (sub s : string) : Prop :=
  exists pre post, s = pre ++ sub ++ post.

(** Every character of [s] is white space. *)
Fixpoint all_space (s : string) : Prop :=
  match s with
  | EmptyString => True
  | String a s' => is_space a = true /\ all_space s'
  end.

(** The cell of row [r] in column [i] is present and trims to [v]. *)
Definition cellIs (r : row) (i : nat) (v : string) : Prop :=
  exists c, r !! i = Some c /\ trim c = v.

(** What [findInMaster] answers on a mapping sheet whose school column is
    [si] and whose student column is [ti]: with a school given, the first
    row whose two trimmed cells are the student and the school; without,
    the first row whose trimmed student cell is the student. *)
Definition firstMatch (data : list row) (si ti : nat) (sid : string)
    (sch : option string) (answer : option Student) : Prop :=
  let hit (r : row) :=
    cellIs r ti sid /\ match sch with Some sc => cellIs r si sc | None => True end in
  (exists pre r post c,
      data = (pre ++ r :: post)%list
      /\ Forall (fun r' => ~ hit r') pre
      /\ hit r
      /\ r !! ti = Some c
      /\ answer = Some {| studentId := c; schoolId := r !! si |})
  \/ (Forall (fun r' => ~ hit r') data /\ answer = None).

(** The three comparisons of a cell text with a student id. *)
Definition threeWay (sid cell : string) : Prop :=
  cell = sid
  \/ is_substring sid cell
  \/ extractUsernameFromLearnerDetails (Some cell) = Some sid.

(** The index of the identifier column, whichever it is. *)
Definition idColumn (col : nat + nat) : nat :=
  match col with
  | inl i => i
  | inr i => i
  end.

(** The identifier cell of the row is present, its trimmed text is not
    empty and passes one of the three comparisons. *)
Definition rowHit (col : nat + nat) (sid : string) (r : row) : Prop :=
  exists c, r !! idColumn col = Some c /\ trim c <> "" /\ threeWay sid (trim c).

(** The same on the cell as it stands in the sheet. *)
Definition rawHit (col : nat + nat) (sid : string) (r : row) : Prop :=
  exists c, r !! idColumn col = Some c /\ threeWay sid c.

(** The header mentions learner details, in any letter case. *)
Definition namesLearnerDetails (h : string) : Prop :=
  is_substring "learner" (toLowerCase h) /\ is_substring "details" (toLowerCase h).

(** The header mentions a student, in any letter case. *)
Definition namesStudent (h : string) : Prop := is_substring "student" (toLowerCase h).

(** [i] is the position of the first header that satisfies [P]. *)
Definition firstHeader (P : string -> Prop) (header : row) (i : nat) : Prop :=
  (exists h, header !! i = Some h /\ P h)
  /\ forall j h, j < i -> header !! j = Some h -> ~ P h.

(** What is answered when the identifier column is [col]: the object of the
    first row that passes, or nothing when no row does. The object has a
    property for every header, holding the text of the cell below the last
    header of that name, and no property under any other name, "_enriched"
    apart. *)
Definition rowAnswer (header : row) (data : list row) (col : nat + nat) (sid : string)
    (lookup : gmap string Identity) (answer : option (gmap string jsval)) : Prop :=
  (exists pre r post obj,
      data = (pre ++ r :: post)%list
      /\ Forall (fun r' => ~ rowHit col sid r') pre
      /\ rowHit col sid r
      /\ answer = Some obj
      /\ obj = studentDataOf header col lookup r
      /\ (forall idx h, header !! idx = Some h ->
            (forall j, idx < j -> header !! j <> Some h) ->
            h <> "_enriched" -> h <> "__proto__" ->
            obj !! h = Some (VStr (or_default (r !! idx) "")))
      /\ (forall k, ~ In k header -> k <> "_enriched" -> obj !! k = None))
  \/ (Forall (fun r' => ~ rowHit col sid r') data /\ answer = None).

(** What is answered for a test sheet with header [header] and data rows
    [data]: the answer for the first column that mentions learner details;
    when there is none, the answer for the first column that mentions a
    student; when there is none either, nothing. *)
Definition firstHit (header : row) (data : list row) (sid : string)
    (lookup : gmap string Identity) (answer : option (gmap string jsval)) : Prop :=
  (exists li,
      firstHeader namesLearnerDetails header li
      /\ rowAnswer header data (inl li) sid lookup answer)
  \/ (Forall (fun h => ~ namesLearnerDetails h) header
      /\ exists si,
           firstHeader namesStudent header si
           /\ rowAnswer header data (inr si) sid lookup answer)
  \/ (Forall (fun h => ~ namesLearnerDetails h) header
      /\ Forall (fun h => ~ namesStudent h) header
      /\ answer = None).

(** An entry says "Attended" exactly when the student has a row in the sheet
    of its name. *)
Definition entryAgrees (acc : Accessor) (sid : string) (e : TestEntry) : Prop :=
  match findStudentInTestSheet acc sid (name e) None with
  | Some _ => status e = "Attended" /\ hasData e = true
  | None => status e = "Absent" /\ hasData e = false
  end.

(** The four columns that [enrichTestSheet] adds, in the order it adds them. *)
Definition enrichmentColumns : list string :=
  ["School Name"; "OpenGrad School Code"; "UDSIE Code"; "EMIS ID"].

(** A score that passes the test [score > 0]. *)
Definition positive_num (a : num) : Prop := gtb a zero = true.

(** A number that is not below zero: a finite one, or plus infinity. *)
Definition nonneg_num (x : num) : Prop :=
  x = PInf \/ exists q, x = Fin q /\ (0 <= q)%Q.

(** The row is counted as attended. *)
Definition rowMatched (ro : Roster) (studentIds : list string) (col : nat + nat)
    (r : row) : bool :=
  fst (fst (rowMembership ro studentIds col r)).

(** The row is counted as attended and its score passes [score > 0]. *)
Definition rowScores (ro : Roster) (studentIds : list string) (col : nat + nat)
    (indices : list nat) (r : row) : bool :=
  rowMatched ro studentIds col r && gtb (rowScore indices r) zero.

(** The leaderboard entry pushed for a row that scores. *)
Definition rowEntry (ro : Roster) (studentIds : list string) (col : nat + nat)
    (indices : list nat) (r : row) : ScoreEntry :=
  {| scoreStudentId :=
       or_opt (snd (fst (rowMembership ro studentIds col r)))
              (snd (rowMembership ro studentIds col r));
     score := rowScore indices r |}.

(** The rows that are left when every attended row whose score fails
    [score > 0] (a zero, a negative score, NaN) is taken out of the sheet. *)
Definition withoutUnscored (ro : Roster) (studentIds : list string) (col : nat + nat)
    (indices : list nat) (data : list row) : list row :=
  List.filter
    (fun r => negb (rowMatched ro studentIds col r && negb (gtb (rowScore indices r) zero)))
    data.

(** The trimmed roster ids that test-sheet rows are compared with. *)
Definition rosterIds (acc : Accessor) (sch : string) : list string :=
  List.map (fun s => trim (studentId s)) (getStudentsBySchool acc sch).

(** [t] is the statistic of a test sheet that has rows and an identifier
    column, computed for the students of school [sch]. *)
Definition sheetStat (acc : Accessor) (sch : string) (t : TestStat) : Prop :=
  exists sheet header data col,
    readSheet acc sheet = header :: data
    /\ testIdColumn header = Some col
    /\ t = testStatOfTally (getStudentsBySchool acc sch) sheet
             (tallySheet (rosterOf acc sch) (rosterIds acc sch) col header data).

(** Each entry scores strictly more than the entries after it. *)
Definition strictlyDescending (l : list ScoreEntry) : Prop :=
  StronglySorted (fun x y => gtb (score x) (score y) = true) l.

(** Each entry scores at least as much as the entries after it. *)
Definition descending (l : list ScoreEntry) : Prop :=
  StronglySorted (fun x y => geb (score x) (score y) = true) l.

(** The rows of a sheet that feed the average and the leaderboard. *)
Definition scoringRows (acc : Accessor) (sch : string) (col : nat + nat)
    (header : row) (data : list row) : list row :=
  List.filter (rowScores (rosterOf acc sch) (rosterIds acc sch) col (scoreIndices header)) data.

(** Neither score is above the other. *)
Definition tiedb (a b : num) : bool := negb (gtb a b) && negb (gtb b a).

(** The leaderboard entries of a sheet in row order, one for each row that
    feeds the leaderboard. *)
Definition scoringEntries (acc : Accessor) (sch : string) (col : nat + nat)
    (header : row) (data : list row) : list ScoreEntry :=
  List.map (rowEntry (rosterOf acc sch) (rosterIds acc sch) col (scoreIndices header))
    (scoringRows acc sch col header data).

(** [ranked] is [entries] put in descending order of score, the entries of
    one score being left in the order that they have in [entries]. *)
Definition stablyRanked (entries ranked : list ScoreEntry) : Prop :=
  Permutation ranked entries
  /\ descending ranked
  /\ forall v, positive_num v ->
       List.filter (fun e => tiedb (score e) v) ranked
       = List.filter (fun e => tiedb (score e) v) entries.






(** The header names a score: it contains "score", "mark" or "total", in
    any letter case. *)
Definition hasScoreKeyword (colName : string) : Prop :=
  is_substring "score" (toLowerCase colName)
  \/ is_substring "mark" (toLowerCase colName)
  \/ is_substring "total" (toLowerCase colName).



(** The school of a mapping row as [getStudentsBySchool] reads it: the
    trimmed school cell in upper case, the empty text for an absent cell. *)
Definition schoolOfRow (si : nat) (r : row) : string :=
  or_default (toUpperCase <$> cell_trim r si) "".

(** No row of the mapping sheet is a row of school [sch]. *)
Definition noRowOfSchool (acc : Accessor) (sch : string) : Prop :=
  forall header data si,
    readSheet acc "Mapping" = header :: data ->
    schoolIdIndexOf header = Some si ->
    Forall (fun r => schoolOfRow si r <> toUpperCase (trim sch)) data.

(** [id] is the trimmed, non-empty school cell of a row of the mapping sheet. *)
Definition knownSchool (acc : Accessor) (id : string) : Prop :=
  exists header data si r c,
    readSheet acc "Mapping" = header :: data
    /\ schoolIdIndexOf header = Some si
    /\ In r data
    /\ r !! si = Some c
    /\ id = trim c
    /\ id <> "".

(** The identity record that [buildStudentLookupMap] stores for user name
    [u] read from row [r] of a mapping sheet with header [header]. *)
Definition identityOfRow (header r : row) (u : string) : Identity :=
  {| userName := u;
     schoolName := cell_or_empty r (JsArray.findIndex isSchoolName header);
     schoolCode := cell_or_empty r (JsArray.findIndex isOpengradSchoolCode header);
     udsieCode := cell_or_empty r (JsArray.findIndex isUdsieCode header);
     emisId := cell_or_empty r (JsArray.findIndex isEmisId header) |}.

(** The row is a row of the school whose normalised id is [search], with a
    student id that is not empty. *)
Definition rowOfSchool (si ti : nat) (search : string) (r : row) : bool :=
  String.eqb (schoolOfRow si r) search && truthy (or_default (cell_trim r ti) "").

(** The test sheet has rows and an identifier column. *)
Definition processable (acc : Accessor) (sheet : string) : bool :=
  match readSheet acc sheet with
  | [] => false
  | header :: _ =>
      match testIdColumn header with
      | Some _ => true
      | None => false
      end
  end.

(** An accessor without a client. *)
Definition offline (sheets : list (string * grid)) : Accessor :=
  {| acc_ready := false;
     acc_sheets := inr (List.map fst sheets);
     acc_values := sheetNamed sheets |}.

(** The text is empty or starts with a character that is not white space. *)
Definition headed (s : string) : Prop :=
  match s with
  | EmptyString => True
  | String c _ => is_space c = false
  end.

End Vocabulary.

(** * Example spreadsheets *)

Module Workbooks.

Import Sheets.

(** The mapping sheet of the README. *)
Definition readmeMapping : grid :=
  [ ["School ID"; "Student ID"];
    ["SCHOOL001"; "STU001"];
    ["SCHOOL001"; "STU002"];
    ["SCHOOL002"; "STU003"] ].

Definition readmeBook : Accessor := workbook [("Mapping", readmeMapping)].

(** The aptitude test of the README. *)
Definition aptitudeTest : grid :=
  [ ["Student ID"; "Score"; "Total Marks"; "Percentage"; "Grade"];
    ["STU001"; "85"; "100"; "85%"; "A"];
    ["STU002"; "72"; "100"; "72%"; "B"] ].

Definition aptitudeBook : Accessor :=
  workbook [("Mapping", readmeMapping); ("Aptitude Test", aptitudeTest)].

(** A sheet whose only learner-details cell starts with a blank. *)
Definition paddedBook : Accessor :=
  workbook [("T1", [ ["Learner Details"]; [" A1"] ])].

(** A sheet without a learner-details column. *)
Definition plainBook : Accessor :=
  workbook [("T1", [ ["Student ID"; "Score"]; ["STU001"; "85"] ])].


(** A sheet in which two students of the school have the same score. *)
Definition tiedBook : Accessor :=
  workbook
    [ ("Mapping", [ ["OpenGrad School Code"; "UserName"; "Student Name"];
                    ["S1"; "u1"; "Alice"];
                    ["S1"; "u2"; "Bob"] ]);
      ("T1", [ ["Learner Details"; "Score"];
               ["u1@x.com"; "50"];
               ["u2@x.com"; "50"] ]) ].

(** A sheet with a negative and a zero score beside a positive one. *)
Definition negativeBook : Accessor :=
  workbook
    [ ("Mapping", [ ["OpenGrad School Code"; "UserName"; "Student Name"];
                    ["S1"; "u1"; "Alice"];
                    ["S1"; "u2"; "Bob"];
                    ["S1"; "u3"; "Carol"] ]);
      ("T1", [ ["Learner Details"; "Score"];
               ["u1@x.com"; "10"];
               ["u2@x.com"; "-5"];
               ["u3@x.com"; "0"] ]) ].

(** A request for a school that the README mapping sheet does not have. *)
Definition unknownSchool : string := "SCHOOL009".

(** A mapping sheet in which the user name u1 occurs in two rows. *)
Definition twiceBook : Accessor :=
  workbook
    [ ("Mapping", [ ["UserName"; "School Name"];
                    ["u1"; "First School"];
                    [" u1 "; "Second School"] ]) ].

(** The README mapping sheet beside a test sheet that identifies students
    by learner details. *)
Definition learnerBook : Accessor :=
  workbook
    [ ("Mapping", readmeMapping);
      ("T1", [ ["Learner Details"; "Score"]; ["STU001@x.com"; "85"] ]) ].

(** A test sheet without any score column. *)
Definition scorelessBook : Accessor :=
  workbook
    [ ("Mapping", readmeMapping);
      ("T1", [ ["Student ID"; "Grade"]; ["STU001"; "85"] ]) ].

(** A test sheet that has a school-name column of its own, beside a mapping
    sheet that names another school for the same user. *)
Definition ownSchoolNameBook : Accessor :=
  workbook
    [ ("Mapping", [ ["UserName"; "School Name"; "OpenGrad School Code"];
                    ["u1"; "Mapped School"; "S1"] ]);
      ("T1", [ ["Learner Details"; "School Name"; "Score"];
               ["u1@x.com"; "Typed School"; "10"] ]) ].

(** A mapping sheet none of whose columns mentions a school. *)
Definition noSchoolColumnBook : Accessor :=
  workbook
    [ ("Mapping", [ ["UserName"; "Student Name"]; ["u1"; "Alice"] ]);
      ("T1", [ ["Learner Details"; "Score"]; ["u1@x.com"; "10"] ]) ].

End Workbooks.

(** * Properties *)

(** ** Strings *)

Module StringFacts.

Import JsString Vocabulary Workbooks.

#[local] Arguments String.append : simpl nomatch.

Lemma append_empty_r (s : string) : s ++ "" = s.
Proof. induction s as [|a s IH]; simpl; [reflexivity | now rewrite IH]. Qed.

Lemma append_assoc (a b c : string) : (a ++ b) ++ c = a ++ b ++ c.
Proof. induction a as [|x a IH]; simpl; [reflexivity | now rewrite IH]. Qed.

Lemma is_substring_refl (s : string) : is_substring s s.
Proof. exists "", "". simpl. now rewrite append_empty_r. Qed.

Lemma is_substring_trans (a b c : string) :
  is_substring a b -> is_substring b c -> is_substring a c.
Proof.
  intros (p1 & q1 & ->) (p2 & q2 & ->).
  exists (p2 ++ p1), (q1 ++ q2).
  now rewrite !append_assoc.
Qed.

Lemma startsWith_spec (p s : string) :
  startsWith p s = true <-> exists post, s = p ++ post.
Proof.
  revert s. induction p as [|a p IH]; intros s; simpl.
  - split; [intros _; now exists s | reflexivity].
  - destruct s as [|b s].
    + split; [discriminate | intros (post & H); discriminate].
    + rewrite andb_true_iff, Ascii.eqb_eq, IH. split.
      * intros (-> & post & ->). now exists post.
      * intros (post & H). injection H as -> ->. split; [reflexivity | now exists post].
Qed.

Lemma includes_spec (s sub : string) :
  includes s sub = true <-> is_substring sub s.
Proof.
  induction s as [|a s IH]; simpl; rewrite orb_true_iff, startsWith_spec.
  - split.
    + intros [(post & H) | H]; [| discriminate]. exists "", post. exact H.
    + intros (pre & post & H). left. destruct pre; [now exists post | discriminate].
  - rewrite IH. split.
    + intros [(post & H) | (pre & post & ->)].
      * exists "", post. exact H.
      * exists (String a pre), post. reflexivity.
    + intros (pre & post & H). destruct pre as [|b pre].
      * left. now exists post.
      * right. injection H as -> ->. now exists pre, post.
Qed.

Lemma indexOf_None (c : ascii) (s : string) :
  indexOf c s = None <-> ~ occurs c s.
Proof.
  induction s as [|a s IH]; simpl.
  - split; [intros _ [] | reflexivity].
  - destruct (Ascii.eqb a c) eqn:E.
    + apply Ascii.eqb_eq in E. split; [discriminate | intros H; exfalso; apply H; now left].
    + apply Ascii.eqb_neq in E. destruct (indexOf c s).
      * split; [discriminate |]. intros H.
        assert (Hn : ~ occurs c s) by tauto.
        apply IH in Hn. discriminate.
      * split; [| reflexivity]. intros _ [H | H]; [contradiction |].
        now apply (proj1 IH).
Qed.

Lemma indexOf_Some (c : ascii) (s : string) (i : nat) :
  indexOf c s = Some i ->
  exists post, s = substring0 i s ++ String c post /\ ~ occurs c (substring0 i s).
Proof.
  revert i. induction s as [|a s IH]; intros i; simpl; [discriminate |].
  destruct (Ascii.eqb a c) eqn:E.
  - apply Ascii.eqb_eq in E. subst a. intros [= <-]. exists s. simpl. split; [reflexivity | tauto].
  - apply Ascii.eqb_neq in E. destruct (indexOf c s) as [j|]; [| discriminate].
    intros [= <-]. destruct (IH j eq_refl) as (post & H1 & H2).
    exists post. simpl. split; [now rewrite <- H1 | tauto].
Qed.

Lemma occurs_append (c : ascii) (a b : string) :
  occurs c (a ++ b) <-> occurs c a \/ occurs c b.
Proof. induction a as [|x a IH]; simpl; [tauto | rewrite IH; tauto]. Qed.

Lemma trimStart_split (s : string) :
  exists ws, s = ws ++ trimStart s /\ all_space ws.
Proof.
  induction s as [|a s (ws & H1 & H2)]; simpl.
  - now exists "".
  - destruct (is_space a) eqn:E.
    + exists (String a ws). simpl. split; [now rewrite <- H1 | tauto].
    + now exists "".
Qed.

Lemma trimEnd_split (s : string) :
  exists ws, s = trimEnd s ++ ws /\ all_space ws.
Proof.
  induction s as [|a s (ws & H1 & H2)]; simpl.
  - now exists "".
  - destruct (trimEnd s) as [|b t] eqn:Et.
    + destruct (is_space a) eqn:E.
      * exists (String a ws). simpl in *. split; [now rewrite <- H1 | tauto].
      * exists ws. simpl in *. split; [now rewrite <- H1 | assumption].
    + exists ws. split; [| assumption]. simpl. f_equal. exact H1.
Qed.

Lemma trim_split (s : string) :
  exists l r, s = l ++ trim s ++ r /\ all_space l /\ all_space r.
Proof.
  destruct (trimStart_split s) as (l & Hl & Hls).
  destruct (trimEnd_split (trimStart s)) as (r & Hr & Hrs).
  exists l, r. unfold trim. split; [| tauto]. now rewrite <- Hr.
Qed.

Lemma trim_is_substring (s : string) : is_substring (trim s) s.
Proof. destruct (trim_split s) as (l & r & H & _). now exists l, r. Qed.

Lemma all_space_occurs (c : ascii) (ws : string) :
  all_space ws -> occurs c ws -> is_space c = true.
Proof.
  induction ws as [|a ws IH]; simpl; [tauto |].
  intros (Ha & Hws) [-> | H]; [assumption | now apply IH].
Qed.

Lemma occurs_trim (c : ascii) (s : string) :
  is_space c = false -> (occurs c (trim s) <-> occurs c s).
Proof.
  intros Hc. destruct (trim_split s) as (l & r & H & Hl & Hr).
  rewrite H at 2. rewrite !occurs_append. split; [tauto |].
  intros [Ho | [Ho | Ho]]; [| assumption |];
    apply (all_space_occurs c) in Ho; congruence.
Qed.

Lemma substring0_prefix (n : nat) (s : string) :
  exists post, s = substring0 n s ++ post.
Proof.
  revert s. induction n as [|n IH]; intros s; simpl.
  - now exists s.
  - destruct s as [|a s]; [now exists "" |].
    destruct (IH s) as (post & H). exists post. simpl. now rewrite <- H.
Qed.

Lemma truthy_true (s : string) : truthy s = true <-> s <> "".
Proof. unfold truthy. rewrite negb_true_iff. apply String.eqb_neq. Qed.

Lemma truthy_false (s : string) : truthy s = false <-> s = "".
Proof. unfold truthy. rewrite negb_false_iff. apply String.eqb_eq. Qed.

End StringFacts.

(** ** The identity resolver: key extraction *)

Module ExtractKey.

Import JsString Sheets StringFacts Vocabulary Workbooks.

#[local] Arguments String.append : simpl nomatch.

Lemma at_not_space : is_space "@" = false.
Proof. reflexivity. Qed.

(** C2, as stated, fails on the empty cell: the answer there is [null], not
    the empty string. *)
Lemma extractKey_empty_is_null :
  extractUsernameFromLearnerDetails (Some "") = None
  /\ extractUsernameFromLearnerDetails (Some "") <> Some "".
Proof. split; [reflexivity | discriminate]. Qed.

(** C2 (amended): an absent or empty cell gives [null]. A non-empty cell
    gives a string: when an at-sign occurs in it, the part of the trimmed
    cell before the first at-sign; otherwise the trimmed cell. So
    ["TN1015257176@username.com"] gives ["TN1015257176"] and ["PLAINID"]
    gives ["PLAINID"]. *)
Theorem extractKey_spec :
  extractUsernameFromLearnerDetails None = None
  /\ extractUsernameFromLearnerDetails (Some "") = None
  /\ (forall s, s <> "" -> ~ occurs "@" s ->
        extractUsernameFromLearnerDetails (Some s) = Some (trim s))
  /\ (forall s, s <> "" -> occurs "@" s ->
        exists pre post,
          trim s = pre ++ String "@" post
          /\ ~ occurs "@" pre
          /\ extractUsernameFromLearnerDetails (Some s) = Some pre)
  /\ extractUsernameFromLearnerDetails (Some "TN1015257176@username.com")
     = Some "TN1015257176"
  /\ extractUsernameFromLearnerDetails (Some "PLAINID") = Some "PLAINID".
Proof.
  split; [reflexivity |]. split; [reflexivity |].
  split; [| split; [| split; reflexivity]].
  - intros s Hs Hno. unfold extractUsernameFromLearnerDetails.
    apply truthy_true in Hs. rewrite Hs. simpl.
    assert (Hn : indexOf "@" (trim s) = None).
    { apply indexOf_None. now rewrite (occurs_trim _ _ at_not_space). }
    now rewrite Hn.
  - intros s Hs Hat. unfold extractUsernameFromLearnerDetails.
    apply truthy_true in Hs. rewrite Hs. simpl.
    destruct (indexOf "@" (trim s)) as [i|] eqn:Hi.
    + destruct (indexOf_Some _ _ _ Hi) as (post & H1 & H2).
      exists (substring0 i (trim s)), post. now split.
    + apply indexOf_None in Hi. exfalso. apply Hi.
      now rewrite (occurs_trim _ _ at_not_space).
Qed.

(** The key is a part of the cell it is extracted from. *)
Lemma extractKey_is_substring (cell key : string) :
  extractUsernameFromLearnerDetails (Some cell) = Some key -> is_substring key cell.
Proof.
  unfold extractUsernameFromLearnerDetails.
  destruct (negb (truthy cell)); [discriminate |].
  destruct (indexOf "@" (trim cell)) as [i|]; intros [= <-].
  - apply is_substring_trans with (trim cell); [| apply trim_is_substring].
    destruct (substring0_prefix i (trim cell)) as (post & H).
    exists "", post. exact H.
  - apply trim_is_substring.
Qed.

End ExtractKey.

(** ** Lists *)

Module ListFacts.

(** [List.find] stops at the first element that passes the test. *)
Lemma find_first {A : Type} (p : A -> bool) (l : list A) :
  match List.find p l with
  | Some x =>
      exists pre post,
        l = (pre ++ x :: post)%list /\ Forall (fun y => p y = false) pre /\ p x = true
  | None => Forall (fun y => p y = false) l
  end.
Proof.
  induction l as [|a l IH]; simpl.
  - constructor.
  - destruct (p a) eqn:Ea.
    + exists [], l. repeat split; [constructor | assumption].
    + destruct (List.find p l) as [x|].
      * destruct IH as (pre & post & -> & Hpre & Hx).
        exists (a :: pre), post. repeat split; [now constructor | assumption].
      * now constructor.
Qed.

Lemma findIndex_Some {A : Type} (p : A -> bool) (l : list A) (i : nat) :
  JsArray.findIndex p l = Some i ->
  exists x, l !! i = Some x /\ p x = true
            /\ forall j y, j < i -> l !! j = Some y -> p y = false.
Proof.
  revert i. induction l as [|a l IH]; intros i; simpl; [discriminate |].
  destruct (p a) eqn:Ea.
  - intros [= <-]. exists a. repeat split; [assumption | lia].
  - destruct (JsArray.findIndex p l) as [k|]; [| discriminate].
    intros [= <-]. destruct (IH k eq_refl) as (x & Hx & Hp & Hlt).
    exists x. repeat split; try assumption.
    intros [|j] y Hj; simpl; [now intros [= <-] |].
    apply Hlt. lia.
Qed.

Lemma findIndex_None {A : Type} (p : A -> bool) (l : list A) :
  JsArray.findIndex p l = None <-> Forall (fun x => p x = false) l.
Proof.
  induction l as [|a l IH]; simpl.
  - split; [constructor | reflexivity].
  - destruct (p a) eqn:Ea.
    + split; [discriminate |]. intros H. inversion H; congruence.
    + destruct (JsArray.findIndex p l).
      * split; [discriminate |]. intros H. inversion H as [|? ? _ Hl]; subst.
        apply IH in Hl. discriminate.
      * split; [| reflexivity]. intros _. constructor; [assumption | now apply IH].
Qed.

End ListFacts.

(** ** The student matcher *)

Module Matcher.

Import JsString Sheets StringFacts ListFacts Vocabulary Workbooks.

Lemma opt_eqb_cell (r : row) (i : nat) (v : string) :
  opt_eqb (cell_trim r i) v = true <-> cellIs r i v.
Proof.
  unfold cell_trim, cellIs. destruct (r !! i) as [c|]; simpl.
  - rewrite String.eqb_eq. split.
    + intros H. now exists c.
    + now intros (c' & [= <-] & H).
  - split; [discriminate | now intros (c' & H & _)].
Qed.

Lemma opt_eqb_cell_false (r : row) (i : nat) (v : string) :
  opt_eqb (cell_trim r i) v = false <-> ~ cellIs r i v.
Proof.
  rewrite <- opt_eqb_cell. destruct (opt_eqb (cell_trim r i) v); split; congruence.
Qed.

(** C6: with a school given, [findInMaster] answers a student record only
    for a row whose trimmed student cell is the student id and whose trimmed
    school cell is the school id, the first such row, and nothing when there
    is none; with the school omitted it answers the first row whose trimmed
    student cell is the student id. On the sheet (SCHOOL001, STU001),
    (SCHOOL001, STU002), (SCHOOL002, STU003): STU001 of SCHOOL001 is found,
    STU001 of SCHOOL002 is not, STU001 alone is found in the first row, and
    stu001 in small letters is not found. *)
Theorem findInMaster_spec :
  (forall acc sid header data si ti,
      readSheet acc "Mapping" = header :: data ->
      masterColumns header = Some (si, ti) ->
      (forall sc, sc <> "" ->
         firstMatch data si ti sid (Some sc) (fst (findInMaster acc sid (Some sc))))
      /\ firstMatch data si ti sid None (fst (findInMaster acc sid None)))
  /\ fst (findInMaster readmeBook "STU001" (Some "SCHOOL001"))
     = Some {| studentId := "STU001"; schoolId := Some "SCHOOL001" |}
  /\ fst (findInMaster readmeBook "STU001" (Some "SCHOOL002")) = None
  /\ fst (findInMaster readmeBook "STU001" None)
     = Some {| studentId := "STU001"; schoolId := Some "SCHOOL001" |}
  /\ fst (findInMaster readmeBook "stu001" (Some "SCHOOL001")) = None.
Proof.
  split; [| repeat split; reflexivity].
  intros acc sid header data si ti Hread Hcols. split.
  - intros sc Hsc. unfold findInMaster. apply truthy_true in Hsc. rewrite Hsc. simpl.
    unfold findStudentInMaster. rewrite Hread, Hcols.
    pose proof (find_first
      (fun r => opt_eqb (cell_trim r ti) sid && opt_eqb (cell_trim r si) sc) data) as Hf.
    destruct (List.find _ data) as [r|].
    + destruct Hf as (pre & post & -> & Hpre & Hr). left.
      apply andb_true_iff in Hr as [H1 H2].
      apply opt_eqb_cell in H1, H2.
      destruct H1 as (c & Hc & Htrim).
      exists pre, r, post, c. repeat split.
      * eapply List.Forall_impl; [| exact Hpre]. intros r' Hr' [Ha Hb].
        apply opt_eqb_cell in Ha, Hb. simpl in Hr'. rewrite Ha, Hb in Hr'. discriminate.
      * now exists c.
      * exact H2.
      * exact Hc.
      * unfold studentOfRow. now rewrite Hc.
    + right. split; [| reflexivity].
      eapply List.Forall_impl; [| exact Hf]. intros r' Hr' [Ha Hb].
      apply opt_eqb_cell in Ha, Hb. simpl in Hr'. rewrite Ha, Hb in Hr'. discriminate.
  - unfold findInMaster. simpl. unfold findStudentById. rewrite Hread, Hcols.
    pose proof (find_first (fun r => opt_eqb (cell_trim r ti) sid) data) as Hf.
    destruct (List.find _ data) as [r|].
    + destruct Hf as (pre & post & -> & Hpre & Hr). left.
      apply opt_eqb_cell in Hr. destruct Hr as (c & Hc & Htrim).
      exists pre, r, post, c. repeat split.
      * eapply List.Forall_impl; [| exact Hpre]. intros r' Hr' [Ha _].
        apply opt_eqb_cell in Ha. simpl in Hr'. congruence.
      * now exists c.
      * exact Hc.
      * unfold studentOfRow. now rewrite Hc.
    + right. split; [| reflexivity].
      eapply List.Forall_impl; [| exact Hf]. intros r' Hr' [Ha _].
      apply opt_eqb_cell in Ha. simpl in Hr'. congruence.
Qed.

(** The general part of [findInMaster_spec] on the README sheet. *)
Lemma findInMaster_readme :
  firstMatch (tail readmeMapping) 0 1 "STU001" (Some "SCHOOL001")
    (fst (findInMaster readmeBook "STU001" (Some "SCHOOL001"))).
Proof.
  refine (proj1 (proj1 findInMaster_spec readmeBook "STU001"
                   ["School ID"; "Student ID"] (tail readmeMapping) 0 1 _ _)
            "SCHOOL001" _).
  - reflexivity.
  - reflexivity.
  - discriminate.
Defined.

End Matcher.

(** ** The student matcher on a test sheet *)

Module TestSheetMatcher.

Import JsString Sheets StringFacts ListFacts Vocabulary Workbooks.

Lemma opt_eqb_Some (o : option string) (s : string) :
  opt_eqb o s = true <-> o = Some s.
Proof.
  destruct o as [t|]; simpl; [| split; discriminate].
  rewrite String.eqb_eq. split; [now intros -> | now intros [= ->]].
Qed.

Lemma rowMatches_spec (col : nat + nat) (sid : string) (r : row) :
  rowMatches col sid r = true <-> rowHit col sid r.
Proof.
  unfold rowMatches, rowHit, threeWay, testRowKeys, cell_trim.
  destruct col as [i|i]; simpl; destruct (r !! i) as [c|]; simpl;
    try (split; [discriminate | now intros (c' & H & _)]).
  - rewrite andb_true_iff, !orb_true_iff, truthy_true, String.eqb_eq,
      includes_spec, opt_eqb_Some.
    split.
    + intros (Hne & H). exists c. tauto.
    + intros (c' & [= <-] & Hne & H). tauto.
  - rewrite andb_true_iff, !orb_true_iff, truthy_true, String.eqb_eq, includes_spec.
    split.
    + intros (Hne & H). exists c. tauto.
    + intros (c' & [= <-] & Hne & H). split; [assumption |].
      destruct H as [H | [H | H]]; [tauto | tauto |].
      left. right. now apply ExtractKey.extractKey_is_substring.
Qed.

Lemma rowMatches_false (col : nat + nat) (sid : string) (r : row) :
  rowMatches col sid r = false <-> ~ rowHit col sid r.
Proof.
  rewrite <- rowMatches_spec. destruct (rowMatches col sid r); split; congruence.
Qed.

(** The property of the object built from a row: each header names the
    text of its cell, the empty text when the cell is absent or empty. *)
Lemma rowObject_other (r : row) (hs : row) (k : nat) (m : gmap string jsval) (h : string) :
  ~ In h hs ->
  fold_left
    (fun (studentData : gmap string jsval) (ic : nat * string) =>
       if String.eqb (snd ic) "__proto__" then studentData
       else <[snd ic := VStr (or_default (r !! fst ic) "")]> studentData)
    (combine (seq k (length hs)) hs) m !! h = m !! h.
Proof.
  revert k m. induction hs as [|c hs IH]; intros k m Hin; simpl; [reflexivity |].
  rewrite IH by (intros H; apply Hin; now right).
  destruct (String.eqb c "__proto__"); [reflexivity |].
  apply lookup_insert_ne. intros ->. apply Hin. now left.
Qed.

Lemma rowObject_lookup_from (r hs : row) (k : nat) (m : gmap string jsval)
    (idx : nat) (h : string) :
  hs !! idx = Some h ->
  (forall j, idx < j -> hs !! j <> Some h) ->
  h <> "__proto__" ->
  fold_left
    (fun (studentData : gmap string jsval) (ic : nat * string) =>
       if String.eqb (snd ic) "__proto__" then studentData
       else <[snd ic := VStr (or_default (r !! fst ic) "")]> studentData)
    (combine (seq k (length hs)) hs) m !! h
  = Some (VStr (or_default (r !! (k + idx)) "")).
Proof.
  intros Hh Hlast Hproto.
  revert idx k m Hh Hlast. induction hs as [|c hs IH]; intros idx k m Hh Hlast;
    [discriminate |].
  destruct idx as [|j]; simpl in *.
  - injection Hh as ->. rewrite rowObject_other.
    + apply String.eqb_neq in Hproto. rewrite Hproto.
      rewrite Nat.add_0_r. apply lookup_insert_eq.
    + intros Hin. apply list_elem_of_In, list_elem_of_lookup_1 in Hin as (j & Hj).
      apply (Hlast (S j)); [lia | exact Hj].
  - rewrite (IH j); [now replace (S k + j) with (k + S j) by lia | exact Hh |].
    intros j' Hj'. apply (Hlast (S j')). lia.
Qed.

(** The property that a header names holds the text of the cell below the
    last header of that name. *)
Lemma rowObject_lookup (header r : row) (idx : nat) (h : string) :
  header !! idx = Some h ->
  (forall j, idx < j -> header !! j <> Some h) ->
  h <> "__proto__" ->
  rowObject header r !! h = Some (VStr (or_default (r !! idx) "")).
Proof.
  intros Hh Hlast Hproto. unfold rowObject.
  now rewrite (rowObject_lookup_from r header 0 ∅ idx h).
Qed.

(** A name that is no header names no property. *)
Lemma rowObject_absent (header r : row) (h : string) :
  ~ In h header -> rowObject header r !! h = None.
Proof.
  intros Hin. unfold rowObject. rewrite rowObject_other by assumption.
  apply lookup_empty.
Qed.

(** C3, as stated, fails on a student id with a leading blank: the cell of
    the only data row equals the id as it stands, yet no row is returned,
    because the cell is trimmed before it is compared. *)
Lemma raw_equal_cell_not_found :
  readSheet paddedBook "T1" = [ ["Learner Details"]; [" A1"] ]
  /\ testIdColumn ["Learner Details"] = Some (inl 0)
  /\ rawHit (inl 0) " A1" [" A1"]
  /\ findStudentInTestSheet paddedBook " A1" "T1" None = None.
Proof.
  repeat split. exists " A1". split; [reflexivity | now left].
Qed.

Lemma isLearnerDetails_spec (h : string) :
  isLearnerDetails h = true <-> namesLearnerDetails h.
Proof.
  unfold isLearnerDetails, namesLearnerDetails. cbv zeta.
  now rewrite andb_true_iff, !includes_spec.
Qed.

Lemma isStudent_spec (h : string) : isStudent h = true <-> namesStudent h.
Proof. unfold isStudent, namesStudent. apply includes_spec. Qed.

Lemma findIndex_firstHeader (p : string -> bool) (P : string -> Prop) (header : row) :
  (forall h, p h = true <-> P h) ->
  match JsArray.findIndex p header with
  | Some i => firstHeader P header i
  | None => Forall (fun h => ~ P h) header
  end.
Proof.
  intros Hp. destruct (JsArray.findIndex p header) as [i|] eqn:E.
  - apply findIndex_Some in E as (h & Hh & Hph & Hbefore). split.
    + exists h. split; [exact Hh | now apply Hp].
    + intros j y Hj Hy HP. apply Hp in HP. rewrite (Hbefore j y Hj Hy) in HP.
      discriminate HP.
  - apply findIndex_None in E. eapply List.Forall_impl; [| exact E].
    intros h Hh HP. apply Hp in HP. cbv beta in Hh. congruence.
Qed.

Lemma studentDataOf_lookup (header : row) (col : nat + nat)
    (lookup : gmap string Identity) (r : row) (k : string) :
  k <> "_enriched" ->
  studentDataOf header col lookup r !! k = rowObject header r !! k.
Proof.
  intros Hk. unfold studentDataOf.
  destruct (snd (testRowKeys col r)) as [u|];
    [destruct (truthy u); [destruct (lookup !! u) |] |]; try reflexivity.
  apply lookup_insert_ne. congruence.
Qed.

Lemma find_rowAnswer (header : row) (data : list row) (col : nat + nat) (sid : string)
    (lookup : gmap string Identity) :
  rowAnswer header data col sid lookup
    (match List.find (rowMatches col sid) data with
     | Some r => Some (studentDataOf header col lookup r)
     | None => None
     end).
Proof.
  unfold rowAnswer. pose proof (find_first (rowMatches col sid) data) as Hf.
  destruct (List.find _ data) as [r|].
  - destruct Hf as (pre & post & -> & Hpre & Hr). left.
    exists pre, r, post, (studentDataOf header col lookup r).
    split; [reflexivity |]. split.
    { eapply List.Forall_impl; [| exact Hpre]. intros r'. apply rowMatches_false. }
    split; [now apply rowMatches_spec |]. split; [reflexivity |].
    split; [reflexivity |]. split.
    + intros idx h Hh Hlast Hne Hproto. rewrite studentDataOf_lookup by exact Hne.
      now apply rowObject_lookup.
    + intros k Hin Hne. rewrite studentDataOf_lookup by exact Hne.
      now apply rowObject_absent.
  - right. split; [| reflexivity].
    eapply List.Forall_impl; [| exact Hf]. intros r'. apply rowMatches_false.
Qed.

(** C3 (amended): [findStudentInTestSheet] answers nothing for a sheet that
    is empty or cannot be read. Otherwise it takes as identifier column the
    first column whose header mentions learner details or, when there is
    none, the first column whose header mentions a student, and answers
    with the object of the first row, in row order, whose trimmed
    identifier cell is not empty and equals the student id, or contains it,
    or has it as extracted key; it answers nothing when no row is such, and
    when the sheet has neither column. The object holds, under every
    header, the text of the cell below the last header of that name. *)
Theorem findInTestSheet_spec (acc : Accessor) (sid sheet : string)
    (lk : option (gmap string Identity)) :
  (readSheet acc sheet = [] -> findStudentInTestSheet acc sid sheet lk = None)
  /\ (forall header data,
        readSheet acc sheet = header :: data ->
        firstHit header data sid
          (match lk with Some m => m | None => buildStudentLookupMap acc end)
          (findStudentInTestSheet acc sid sheet lk)).
Proof.
  unfold findStudentInTestSheet. split; [now intros -> |].
  intros header data ->. unfold firstHit, testIdColumn.
  pose proof (findIndex_firstHeader isLearnerDetails namesLearnerDetails header
                isLearnerDetails_spec) as HL.
  pose proof (findIndex_firstHeader isStudent namesStudent header isStudent_spec) as HS.
  destruct (JsArray.findIndex isLearnerDetails header) as [li|].
  - left. exists li. split; [exact HL | apply find_rowAnswer].
  - right. destruct (JsArray.findIndex isStudent header) as [si|].
    + left. split; [exact HL |]. exists si. split; [exact HS | apply find_rowAnswer].
    + right. now repeat split.
Qed.

(** [findInTestSheet_spec] on the README sheets: the aptitude test has no
    learner-details column, its first column names the student, and the row
    of STU002 is its second data row. *)
Lemma findInTestSheet_readme :
  firstHit ["Student ID"; "Score"; "Total Marks"; "Percentage"; "Grade"]
    (tail aptitudeTest) "STU002" (buildStudentLookupMap aptitudeBook)
    (findStudentInTestSheet aptitudeBook "STU002" "Aptitude Test" None)
  /\ match findStudentInTestSheet aptitudeBook "STU002" "Aptitude Test" None with
     | Some obj =>
         obj !! "Student ID" = Some (VStr "STU002") /\ obj !! "Score" = Some (VStr "72")
     | None => False
     end.
Proof.
  split.
  - apply (findInTestSheet_spec aptitudeBook "STU002" "Aptitude Test" None).
    reflexivity.
  - vm_compute. split; reflexivity.
Defined.

End TestSheetMatcher.

(** ** The attendance aggregator *)

Module Attendance.

Import JsString Sheets StringFacts ListFacts Vocabulary Workbooks.

Lemma isTestSheet_spec (n : string) :
  isTestSheet n = true <-> toLowerCase n <> "mapping" /\ toLowerCase n <> "config".
Proof.
  unfold isTestSheet. now rewrite andb_true_iff, !negb_true_iff, !String.eqb_neq.
Qed.

Lemma testEntryOf_name (acc : Accessor) (sid n : string) :
  name (testEntryOf acc sid n) = n.
Proof. unfold testEntryOf. now destruct (findStudentInTestSheet acc sid n None). Qed.

Lemma testEntryOf_agrees (acc : Accessor) (sid n : string) :
  entryAgrees acc sid (testEntryOf acc sid n).
Proof.
  unfold entryAgrees. rewrite testEntryOf_name. unfold testEntryOf.
  now destruct (findStudentInTestSheet acc sid n None).
Qed.

(** C7: once the student is resolved and the sheet names are listed,
    [getStudentTests] answers one entry per sheet that is not named
    "mapping" or "config" in any letter case, in the order of the sheet
    list, every sheet being looked at; a student who has no row in any test
    sheet gets as many entries as there are test sheets, all "Absent"
    without data. *)
Theorem getStudentTests_spec (acc : Accessor) (sid : string) (sch : option string)
    (st : Student) (allSheets : list string) :
  fst (findInMaster acc sid sch) = Some st ->
  getSheetNames acc = inr allSheets ->
  exists res,
    getStudentTests acc sid sch = inr res
    /\ error res = None
    /\ student res = Some st
    /\ List.map name (tests res) = List.filter isTestSheet allSheets
    /\ (forall n, In n (List.map name (tests res)) <->
                  In n allSheets
                  /\ toLowerCase n <> "mapping" /\ toLowerCase n <> "config")
    /\ Forall (entryAgrees acc sid) (tests res)
    /\ ((forall n, In n allSheets -> isTestSheet n = true ->
                   findStudentInTestSheet acc sid n None = None) ->
        length (tests res) = length (List.filter isTestSheet allSheets)
        /\ Forall (fun e => status e = "Absent" /\ hasData e = false) (tests res)).
Proof.
  intros Hst Hnames. unfold getStudentTests. rewrite Hst, Hnames.
  eexists. split; [reflexivity |]. simpl.
  assert (Hmap : List.map name (List.map (testEntryOf acc sid)
                                  (List.filter isTestSheet allSheets))
                 = List.filter isTestSheet allSheets).
  { rewrite List.map_map. erewrite List.map_ext; [apply List.map_id |].
    intros n. apply testEntryOf_name. }
  split; [reflexivity |]. split; [now destruct st |]. split; [exact Hmap |].
  split; [| split].
  - intros n. rewrite Hmap, List.filter_In, isTestSheet_spec. reflexivity.
  - apply List.Forall_forall. intros e He. apply List.in_map_iff in He as (n & <- & _).
    apply testEntryOf_agrees.
  - intros Habsent. split; [now rewrite List.length_map |].
    apply List.Forall_forall. intros e He.
    apply List.in_map_iff in He as (n & <- & Hn).
    apply List.filter_In in Hn as (Hin & Ht).
    unfold testEntryOf. now rewrite (Habsent n Hin Ht).
Qed.

(** [getStudentTests_spec] for STU003 of the README, who sat no test. *)
Lemma getStudentTests_readme :
  exists res,
    getStudentTests aptitudeBook "STU003" None = inr res
    /\ error res = None
    /\ student res = Some {| studentId := "STU003"; schoolId := Some "SCHOOL002" |}
    /\ List.map name (tests res) = ["Aptitude Test"]
    /\ Forall (fun e => status e = "Absent" /\ hasData e = false) (tests res).
Proof.
  destruct (getStudentTests_spec aptitudeBook "STU003" None
              {| studentId := "STU003"; schoolId := Some "SCHOOL002" |}
              ["Mapping"; "Aptitude Test"] eq_refl eq_refl)
    as (res & H1 & H2 & H3 & H4 & _ & _ & H7).
  exists res. repeat split; try assumption.
  apply H7. intros n [<- | [<- | []]]; [discriminate | reflexivity].
Defined.

End Attendance.

(** ** Sheet enrichment *)

Module Enrichment.

Import JsString Sheets StringFacts ListFacts Vocabulary Workbooks.

Lemma includes_app (h l : list string) (c : string) :
  JsArray.includes (h ++ l)%list c = JsArray.includes h c || JsArray.includes l c.
Proof. unfold JsArray.includes. apply List.existsb_app. Qed.

Lemma pushIfMissing_app (c : string) (h : row) :
  pushIfMissing c h = (h ++ (if JsArray.includes h c then [] else [c]))%list.
Proof.
  unfold pushIfMissing. destruct (JsArray.includes h c); [| reflexivity].
  now rewrite List.app_nil_r.
Qed.

Lemma enrichedHeader_spec (header : row) :
  pushIfMissing "EMIS ID"
    (pushIfMissing "UDSIE Code"
       (pushIfMissing "OpenGrad School Code" (pushIfMissing "School Name" header)))
  = (header ++ List.filter (fun c => negb (JsArray.includes header c)) enrichmentColumns)%list.
Proof.
  rewrite !pushIfMissing_app, !includes_app. unfold enrichmentColumns. simpl.
  destruct (JsArray.includes header "School Name"),
           (JsArray.includes header "OpenGrad School Code"),
           (JsArray.includes header "UDSIE Code"),
           (JsArray.includes header "EMIS ID"); simpl;
    rewrite ?List.app_nil_r, <- ?List.app_assoc; reflexivity.
Qed.

Lemma enrichRow_spec (li : nat) (lookup : gmap string Identity) (r : row) :
  exists a b c d, enrichRow li lookup r = (r ++ [a; b; c; d])%list.
Proof.
  unfold enrichRow.
  destruct (extractUsernameFromLearnerDetails _) as [u|];
    [destruct (truthy u); [destruct (lookup !! u) |] |]; eauto.
Qed.

(** C9, as stated, fails on a sheet that has no learner-details column: the
    sheet comes back as it is, its header not extended. *)
Lemma enrichSheet_without_learner_details :
  enrichTestSheet plainBook "T1" = [ ["Student ID"; "Score"]; ["STU001"; "85"] ]
  /\ hd [] (enrichTestSheet plainBook "T1")
     <> (["Student ID"; "Score"] ++ enrichmentColumns)%list.
Proof. split; [reflexivity | discriminate]. Qed.

(** C9 (amended): the sheet returned by [enrichTestSheet] has as many rows
    as the sheet read. When the header has a learner-details column, the
    header returned is the header read followed by those of "School Name",
    "OpenGrad School Code", "UDSIE Code", "EMIS ID" that it does not hold
    already, in this order, and every data row gets four more cells; when it
    has none, the sheet is returned as read. *)
Theorem enrichSheet_spec (acc : Accessor) (sheet : string) :
  length (enrichTestSheet acc sheet) = length (readSheet acc sheet)
  /\ (forall header data, readSheet acc sheet = header :: data ->
        (Forall (fun h => isLearnerDetails h = false) header ->
           enrichTestSheet acc sheet = header :: data)
        /\ (Exists (fun h => isLearnerDetails h = true) header ->
              exists rows,
                enrichTestSheet acc sheet
                = (header ++ List.filter (fun c => negb (JsArray.includes header c))
                               enrichmentColumns)%list :: rows
                /\ Forall2 (fun r r' => exists a b c d, r' = (r ++ [a; b; c; d])%list)
                     data rows)).
Proof.
  unfold enrichTestSheet. split.
  - destruct (readSheet acc sheet) as [|header data]; [reflexivity |].
    destruct (JsArray.findIndex isLearnerDetails header); [| reflexivity].
    simpl. now rewrite List.length_map.
  - intros header data ->. split.
    + intros Hno. apply findIndex_None in Hno. now rewrite Hno.
    + intros Hex. destruct (JsArray.findIndex isLearnerDetails header) as [li|] eqn:Hli.
      * eexists. split; [now rewrite enrichedHeader_spec |].
        clear. induction data as [|r data IH]; simpl; constructor; [| exact IH].
        apply enrichRow_spec.
      * apply findIndex_None in Hli. apply List.Exists_exists in Hex as (h & Hin & Hh).
        rewrite List.Forall_forall in Hli. specialize (Hli h Hin). congruence.
Qed.

End Enrichment.

(** ** Numbers *)

Module NumFacts.

Import JsNum Vocabulary Workbooks.

Lemma positive_num_cases (a : num) :
  positive_num a <-> a = PInf \/ exists q, a = Fin q /\ (0 < q)%Q.
Proof.
  unfold positive_num. destruct a as [| | |q]; simpl.
  - split; [discriminate | intros [H | (q & H & _)]; discriminate].
  - split; [now left | reflexivity].
  - split; [discriminate | intros [H | (q & H & _)]; discriminate].
  - rewrite negb_true_iff. split.
    + intros H. right. exists q. split; [reflexivity |].
      apply Qnot_le_lt. intros Hle. apply Qle_bool_iff in Hle.
      unfold zero in H. congruence.
    + intros [H | (q' & [= <-] & Hq)]; [discriminate |].
      destruct (Qle_bool q 0) eqn:E; [| reflexivity].
      apply Qle_bool_iff in E. lra.
Qed.

Lemma geb_Fin (x y : Q) : geb (Fin x) (Fin y) = true <-> (y <= x)%Q.
Proof. simpl. apply Qle_bool_iff. Qed.

Lemma geb_trans (a b c : num) :
  geb a b = true -> geb b c = true -> geb a c = true.
Proof.
  destruct a as [| | |x], b as [| | |y], c as [| | |z]; simpl;
    try reflexivity; try discriminate.
  rewrite !Qle_bool_iff. lra.
Qed.

(** The comparator [b - a] of two positive scores is positive exactly when
    [b] is the greater. *)
Lemma comparator_positive (a b : num) :
  positive_num a -> positive_num b ->
  gtb (sub b a) zero = true -> geb b a = true /\ geb a b = false.
Proof.
  intros Ha Hb. apply positive_num_cases in Ha, Hb.
  destruct Ha as [-> | (x & -> & Hx)], Hb as [-> | (y & -> & Hy)]; simpl;
    try discriminate; try (intros _; split; reflexivity).
  rewrite negb_true_iff. intros H. split.
  - apply Qle_bool_iff. destruct (Qlt_le_dec y x) as [Hlt | Hle]; [| assumption].
    assert (Hc : Qle_bool (y + - x) 0 = true) by (apply Qle_bool_iff; lra).
    unfold zero in H. congruence.
  - destruct (Qle_bool y x) eqn:E; [| reflexivity].
    apply Qle_bool_iff in E.
    assert (Hc : Qle_bool (y + - x) 0 = true) by (apply Qle_bool_iff; lra).
    unfold zero in H. congruence.
Qed.

Lemma comparator_not_positive (a b : num) :
  positive_num a -> positive_num b ->
  gtb (sub b a) zero = false -> geb a b = true.
Proof.
  intros Ha Hb. apply positive_num_cases in Ha, Hb.
  destruct Ha as [-> | (x & -> & Hx)], Hb as [-> | (y & -> & Hy)]; simpl;
    try discriminate; try reflexivity.
  rewrite negb_false_iff. unfold zero. rewrite !Qle_bool_iff. lra.
Qed.

(** A score that the comparator puts above a score tied with [v] is not
    tied with [v]. *)
Lemma tied_above (v x y : num) :
  positive_num v -> positive_num x -> positive_num y ->
  tiedb x v = true -> gtb (sub y x) zero = true -> tiedb y v = false.
Proof.
  intros Hv Hx Hy. apply positive_num_cases in Hv, Hx, Hy.
  destruct Hv as [-> | (c & -> & Hc)], Hx as [-> | (a & -> & Ha)],
           Hy as [-> | (b & -> & Hb)];
    cbn; try discriminate; try reflexivity.
  unfold tiedb, gtb.
  destruct (Qle_bool a c) eqn:E1; [| discriminate].
  destruct (Qle_bool c a) eqn:E2; [| discriminate].
  destruct (Qle_bool (b + - a) 0) eqn:E3; [discriminate |].
  intros _ _. apply Qle_bool_iff in E1, E2.
  destruct (Qle_bool b c) eqn:E4; [| reflexivity].
  apply Qle_bool_iff in E4.
  assert (Hc3 : Qle_bool (b + - a) 0 = true) by (apply Qle_bool_iff; lra).
  congruence.
Qed.

Lemma of_nat_nonzero (n : nat) :
  0 < n -> Qeq_bool (inject_Z (Z.of_nat n)) 0 = false.
Proof.
  intros Hn. destruct (Qeq_bool _ 0) eqn:E; [| reflexivity].
  apply Qeq_bool_iff in E. unfold Qeq in E. simpl in E. lia.
Qed.

Lemma div_of_nat (x : Q) (n : nat) :
  0 < n -> div (Fin x) (of_nat n) = Fin (x / inject_Z (Z.of_nat n)).
Proof. intros Hn. unfold div, of_nat. now rewrite of_nat_nonzero. Qed.

Lemma round2_Fin_eq (x : Q) :
  round2 (Fin x) = Fin (inject_Z (Qfloor (x * inject_Z 100 + (1 # 2))) / inject_Z 100).
Proof.
  unfold round2. change (mul (Fin x) (of_nat 100)) with (Fin (x * inject_Z 100)).
  change (round (Fin (x * inject_Z 100)))
    with (Fin (inject_Z (Qfloor (x * inject_Z 100 + (1 # 2))))).
  apply (div_of_nat _ 100). lia.
Qed.

(** [round2] of a finite value is a finite value, a whole number of
    hundredths, within half a hundredth of it. *)
Lemma round2_Fin (x : Q) :
  exists q z,
    round2 (Fin x) = Fin q
    /\ (q == inject_Z z / 100)%Q
    /\ (x - (1 # 200) < q)%Q /\ (q <= x + (1 # 200))%Q
    /\ ((0 <= x)%Q -> (0 <= q)%Q)
    /\ forall k : Z, (x <= inject_Z k)%Q -> (q <= inject_Z k)%Q.
Proof.
  set (z := Qfloor (x * inject_Z 100 + (1 # 2))).
  exists (inject_Z z / inject_Z 100)%Q, z.
  assert (Hlo : (inject_Z z <= x * inject_Z 100 + (1 # 2))%Q) by apply Qfloor_le.
  assert (Hhi : (x * inject_Z 100 + (1 # 2) < inject_Z (z + 1))%Q) by apply Qlt_floor.
  rewrite inject_Z_plus in Hhi.
  change (inject_Z 100) with 100%Q in *. change (inject_Z 1) with 1%Q in *.
  split; [apply round2_Fin_eq |].
  split; [reflexivity |].
  split; [apply Qlt_shift_div_l; lra |].
  split; [apply Qle_shift_div_r; lra |].
  split.
  - intros Hx. apply Qle_shift_div_l; [lra |]. rewrite Qmult_0_l.
    assert (H0 : (0 <= z)%Z).
    { change 0%Z with (Qfloor 0). apply Qfloor_resp_le. lra. }
    change 0%Q with (inject_Z 0). now rewrite <- Zle_Qle.
  - intros k Hk. apply Qle_shift_div_r; [lra |].
    assert (Hz : (z < k * 100 + 1)%Z).
    { rewrite Zlt_Qlt, inject_Z_plus, inject_Z_mult.
      change (inject_Z 100) with 100%Q. change (inject_Z 1) with 1%Q. nra. }
    assert (Hz' : (z <= k * 100)%Z) by lia.
    rewrite Zle_Qle, inject_Z_mult in Hz'. exact Hz'.
Qed.
End NumFacts.

(** ** Sorting by a comparator *)

Module SortFacts.

Lemma In_slice0 {A : Type} (y : A) (n : nat) (l : list A) :
  In y (JsArray.slice0 n l) -> In y l.
Proof.
  unfold JsArray.slice0. revert n.
  induction l as [|x l IH]; intros [|n]; simpl; try tauto.
  intros [H | H]; [now left | right; now apply (IH n)].
Qed.

Lemma length_slice0 {A : Type} (n : nat) (l : list A) : length (JsArray.slice0 n l) <= n.
Proof.
  unfold JsArray.slice0. revert n.
  induction l as [|x l IH]; intros [|n]; simpl; try lia.
  specialize (IH n). lia.
Qed.

Section Sorting.

Context {A : Type}.
Variable gt : A -> A -> bool.

Lemma In_insert_by (x y : A) (l : list A) :
  In y (JsArray.insert_by gt x l) <-> y = x \/ In y l.
Proof.
  induction l as [|z l IH]; simpl.
  - intuition congruence.
  - destruct (gt x z); simpl; [rewrite IH |]; intuition congruence.
Qed.

Lemma In_sort_by (y : A) (l : list A) :
  In y (JsArray.sort_by gt l) <-> In y l.
Proof.
  induction l as [|x l IH]; simpl; [reflexivity |].
  rewrite In_insert_by, IH. intuition congruence.
Qed.

Lemma length_insert_by (x : A) (l : list A) :
  length (JsArray.insert_by gt x l) = S (length l).
Proof.
  induction l as [|z l IH]; simpl; [reflexivity |].
  destruct (gt x z); simpl; [now rewrite IH | reflexivity].
Qed.

Lemma length_sort_by (l : list A) : length (JsArray.sort_by gt l) = length l.
Proof.
  induction l as [|x l IH]; simpl; [reflexivity |].
  now rewrite length_insert_by, IH.
Qed.

Lemma Forall_sort_by (P : A -> Prop) (l : list A) :
  Forall P l -> Forall P (JsArray.sort_by gt l).
Proof.
  rewrite !List.Forall_forall. intros H y Hy. apply H. now apply In_sort_by.
Qed.

(** The sort is stable: a class of elements that the sort never moves one
    member of past another comes out in the order it went in. *)
Lemma filter_insert_by (p : A -> bool) (x : A) (l : list A) :
  (p x = true -> forall y, In y l -> gt x y = true -> p y = false) ->
  List.filter p (JsArray.insert_by gt x l)
  = if p x then x :: List.filter p l else List.filter p l.
Proof.
  induction l as [|y l IH]; intros Hpass; cbn [JsArray.insert_by List.filter].
  - reflexivity.
  - destruct (gt x y) eqn:E; cbn [List.filter].
    + rewrite IH by (intros Hx z Hz; apply Hpass; [exact Hx | now right]).
      destruct (p x) eqn:Ex; [| reflexivity].
      now rewrite (Hpass eq_refl y (or_introl eq_refl) E).
    + reflexivity.
Qed.

Lemma filter_sort_by (p : A -> bool) (l : list A) :
  (forall x y, In x l -> In y l -> p x = true -> gt x y = true -> p y = false) ->
  List.filter p (JsArray.sort_by gt l) = List.filter p l.
Proof.
  induction l as [|x l IH]; intros Hpass; cbn [JsArray.sort_by]; [reflexivity |].
  assert (Hrest : List.filter p (JsArray.sort_by gt l) = List.filter p l).
  { apply IH. intros a b Ha Hb. apply (Hpass a b); right; assumption. }
  rewrite filter_insert_by.
  - now rewrite Hrest.
  - intros Hx y Hy. apply (proj1 (In_sort_by y l)) in Hy.
    apply (Hpass x y); [now left | now right | exact Hx].
Qed.

(** The elements that are sorted all satisfy [P]; on such elements the
    comparator decides a transitive relation [R]. *)
Variable P : A -> Prop.
Variable R : A -> A -> Prop.
Hypothesis gt_true : forall a b, P a -> P b -> gt a b = true -> R b a.
Hypothesis gt_false : forall a b, P a -> P b -> gt a b = false -> R a b.
Hypothesis R_trans : forall a b c, R a b -> R b c -> R a c.

Lemma insert_by_sorted (x : A) (l : list A) :
  P x -> Forall P l -> StronglySorted R l ->
  StronglySorted R (JsArray.insert_by gt x l).
Proof.
  intros Hx. induction l as [|y l IH]; intros HP Hs; simpl.
  - repeat constructor.
  - inversion HP as [|? ? Hy HPl]; subst.
    inversion Hs as [|? ? Hsl Hyl]; subst.
    destruct (gt x y) eqn:E.
    + constructor; [now apply IH |].
      apply List.Forall_forall. intros z Hz. apply In_insert_by in Hz as [-> | Hz].
      * now apply gt_true.
      * rewrite List.Forall_forall in Hyl. now apply Hyl.
    + constructor; [assumption |].
      assert (Hxy : R x y) by now apply gt_false.
      constructor; [assumption |].
      eapply List.Forall_impl; [| exact Hyl]. intros z Hz. now apply R_trans with y.
Qed.

Lemma sort_by_sorted (l : list A) :
  Forall P l -> StronglySorted R (JsArray.sort_by gt l).
Proof.
  induction l as [|x l IH]; intros HP; simpl; [constructor |].
  inversion HP; subst.
  apply insert_by_sorted; [assumption | now apply Forall_sort_by | now apply IH].
Qed.

End Sorting.

Lemma firstn_sorted {A : Type} (R : A -> A -> Prop) (n : nat) (l : list A) :
  StronglySorted R l -> StronglySorted R (firstn n l).
Proof.
  revert n. induction l as [|x l IH]; intros n Hs; destruct n; simpl; try constructor.
  - inversion Hs; subst. now apply IH.
  - inversion Hs as [|? ? _ Hx]; subst.
    rewrite List.Forall_forall in *. intros y Hy. apply Hx.
    now apply (In_slice0 _ n).
Qed.

Lemma map_sorted {A B : Type} (f : A -> B) (R : A -> A -> Prop) (R' : B -> B -> Prop)
    (l : list A) :
  (forall a b, R a b -> R' (f a) (f b)) ->
  StronglySorted R l -> StronglySorted R' (List.map f l).
Proof.
  intros Hf. induction 1 as [|x l Hs IH Hx]; simpl; constructor; [assumption |].
  apply List.Forall_forall. intros y Hy. apply List.in_map_iff in Hy as (z & <- & Hz).
  rewrite List.Forall_forall in Hx. now apply Hf, Hx.
Qed.

End SortFacts.

(** ** More on sorting: the sorted list is a rearrangement *)

Module SortPerm.

Lemma insert_by_perm {A : Type} (gt : A -> A -> bool) (x : A) (l : list A) :
  Permutation (x :: l) (JsArray.insert_by gt x l).
Proof.
  induction l as [|y l IH]; simpl; [reflexivity |].
  destruct (gt x y); [| reflexivity].
  etransitivity; [apply perm_swap |]. now apply perm_skip.
Qed.

Lemma sort_by_perm {A : Type} (gt : A -> A -> bool) (l : list A) :
  Permutation l (JsArray.sort_by gt l).
Proof.
  induction l as [|x l IH]; simpl; [reflexivity |].
  etransitivity; [apply perm_skip, IH | apply insert_by_perm].
Qed.

Lemma slice0_skipn {A : Type} (n : nat) (l : list A) :
  l = (JsArray.slice0 n l ++ skipn n l)%list.
Proof. unfold JsArray.slice0. symmetry. apply List.firstn_skipn. Qed.

Lemma length_slice0_min {A : Type} (n : nat) (l : list A) :
  length (JsArray.slice0 n l) = Nat.min n (length l).
Proof. unfold JsArray.slice0. apply List.length_firstn. Qed.

Lemma sorted_app_cross {A : Type} (R : A -> A -> Prop) (l1 l2 : list A) :
  StronglySorted R (l1 ++ l2)%list ->
  forall a b, In a l1 -> In b l2 -> R a b.
Proof.
  induction l1 as [|x l1 IH]; simpl; [tauto |].
  intros Hs a b [-> | Ha] Hb.
  - inversion Hs as [|? ? _ Hx]; subst. rewrite List.Forall_forall in Hx.
    apply Hx. apply List.in_or_app. now right.
  - inversion Hs; subst. now apply IH.
Qed.

Lemma filter_length_le {A : Type} (p q : A -> bool) (l : list A) :
  (forall x, p x = true -> q x = true) ->
  length (List.filter p l) <= length (List.filter q l).
Proof.
  intros Hpq. induction l as [|x l IH]; simpl; [lia |].
  destruct (p x) eqn:Ep.
  - rewrite (Hpq x Ep). simpl. lia.
  - destruct (q x); simpl; lia.
Qed.

Lemma filter_none {A : Type} (p : A -> bool) (l : list A) :
  (forall x, p x = false) -> List.filter p l = [].
Proof.
  intros Hp. induction l as [|x l IH]; simpl; [reflexivity |]. now rewrite Hp.
Qed.

End SortPerm.

(** ** The school aggregator: one test sheet *)

Module Tallying.

Import JsString JsNum Sheets StringFacts ListFacts NumFacts Vocabulary Workbooks.

Section Tally.

Variable ro : Roster.
Variable studentIds : list string.
Variable col : nat + nat.
Variable indices : list nat.

#[local] Abbreviation matched := (rowMatched ro studentIds col).
#[local] Abbreviation scores := (rowScores ro studentIds col indices).
#[local] Abbreviation entry := (rowEntry ro studentIds col indices).
#[local] Abbreviation unscoredOut := (withoutUnscored ro studentIds col indices).

Lemma tallyRow_spec (t : Tally) (r : row) :
  tallyRow ro studentIds col indices t r
  = {| tallyAttended := tallyAttended t + (if matched r then 1 else 0);
       totalScore :=
         if scores r then add (totalScore t) (rowScore indices r)
         else totalScore t;
       scoreCount := scoreCount t + (if scores r then 1 else 0);
       studentScores :=
         (studentScores t ++ (if scores r then [entry r] else []))%list |}.
Proof.
  unfold tallyRow, rowScores, rowMatched, rowEntry.
  destruct (rowMembership ro studentIds col r) as [[m u] i]. simpl.
  destruct t as [a ts sc ss]. simpl.
  destruct m; simpl.
  - destruct (gtb (rowScore indices r) zero); simpl; f_equal; try lia.
    now rewrite List.app_nil_r.
  - f_equal; try lia. now rewrite List.app_nil_r.
Qed.

(** The loop over the rows, in one equation: the attended rows are
    counted, the rows that score are counted, summed and listed in order. *)
Lemma tally_fold (data : list row) (t : Tally) :
  fold_left (tallyRow ro studentIds col indices) data t
  = {| tallyAttended := tallyAttended t + length (List.filter matched data);
       totalScore :=
         fold_left (fun s r => add s (rowScore indices r))
           (List.filter scores data) (totalScore t);
       scoreCount := scoreCount t + length (List.filter scores data);
       studentScores :=
         (studentScores t ++ List.map entry (List.filter scores data))%list |}.
Proof.
  revert t. induction data as [|r data IH]; intros t; simpl.
  - destruct t; simpl. f_equal; try lia. now rewrite List.app_nil_r.
  - rewrite IH, tallyRow_spec. simpl.
    destruct (matched r), (scores r); simpl; f_equal; try lia.
    all: rewrite <- ?List.app_assoc, ?List.app_nil_r; reflexivity.
Qed.

Lemma filter_rowScores_withoutUnscored (data : list row) :
  List.filter scores (unscoredOut data) = List.filter scores data.
Proof.
  unfold withoutUnscored, rowScores. induction data as [|r data IH]; simpl; [reflexivity |].
  destruct (matched r) eqn:Em, (gtb (rowScore indices r) zero) eqn:Eg; simpl;
    rewrite ?Em, ?Eg; simpl; now rewrite IH.
Qed.

Lemma positive_rowEntry (data : list row) :
  Forall (fun e => positive_num (score e)) (List.map entry (List.filter scores data)).
Proof.
  apply List.Forall_forall. intros e He.
  apply List.in_map_iff in He as (r & <- & Hr).
  apply List.filter_In in Hr as (_ & Hr). unfold rowScores in Hr.
  apply andb_true_iff in Hr as (_ & Hr). exact Hr.
Qed.

End Tally.

(** The tally of a sheet in closed form. *)
Lemma tallySheet_spec (ro : Roster) (ids : list string) (col : nat + nat)
    (header : row) (data : list row) :
  let idx := scoreIndices header in
  tallySheet ro ids col header data
  = {| tallyAttended := length (List.filter (rowMatched ro ids col) data);
       totalScore :=
         fold_left (fun s r => add s (rowScore idx r))
           (List.filter (rowScores ro ids col idx) data) zero;
       scoreCount := length (List.filter (rowScores ro ids col idx) data);
       studentScores :=
         List.map (rowEntry ro ids col idx) (List.filter (rowScores ro ids col idx) data) |}.
Proof. intros idx. unfold tallySheet. now rewrite tally_fold. Qed.

(** The comparator of the leaderboard sort orders positive scores. *)
Lemma leaderboard_sorted (l : list ScoreEntry) :
  Forall (fun e => positive_num (score e)) l ->
  StronglySorted (fun a b => geb (score a) (score b) = true)
    (JsArray.sort_by byScoreDesc l).
Proof.
  apply SortFacts.sort_by_sorted.
  - intros a b Ha Hb H. now apply comparator_positive.
  - intros a b Ha Hb H. now apply comparator_not_positive.
  - intros a b c. apply geb_trans.
Qed.

(** The leaderboard sort leaves entries of one score in the order in which
    they were pushed. *)
Lemma leaderboard_stable (l : list ScoreEntry) :
  Forall (fun e => positive_num (score e)) l ->
  stablyRanked l (JsArray.sort_by byScoreDesc l).
Proof.
  intros Hpos. split; [symmetry; apply SortPerm.sort_by_perm |].
  split; [now apply leaderboard_sorted |].
  intros v Hv. apply SortFacts.filter_sort_by.
  rewrite List.Forall_forall in Hpos.
  intros x y Hx Hy Hpx Hgt. unfold byScoreDesc in Hgt.
  now apply (tied_above v (score x) (score y)); auto.
Qed.

Lemma score_resolveEntry (students : list Student) (s : ScoreEntry) :
  score (resolveEntry students s) = score s.
Proof. reflexivity. Qed.

(** The leaderboard of a tally whose entries are all positive: at most
    five entries, in descending order of score, all positive. *)
Lemma topPerformers_spec (students : list Student) (n : string) (t : Tally) :
  Forall (fun e => positive_num (score e)) (studentScores t) ->
  let top := topPerformers (testStatOfTally students n t) in
  length top <= 5
  /\ StronglySorted (fun a b => geb (score a) (score b) = true) top
  /\ Forall (fun e => positive_num (score e)) top.
Proof.
  intros Hpos top. subst top. unfold testStatOfTally. cbn [topPerformers].
  split; [| split].
  - rewrite List.length_map. apply SortFacts.length_slice0.
  - apply SortFacts.map_sorted with (R := fun a b => geb (score a) (score b) = true).
    + intros a b H. exact H.
    + apply SortFacts.firstn_sorted. now apply leaderboard_sorted.
  - apply List.Forall_forall. intros e He.
    apply List.in_map_iff in He as (s & <- & Hs). rewrite score_resolveEntry.
    apply SortFacts.In_slice0, SortFacts.In_sort_by in Hs.
    rewrite List.Forall_forall in Hpos. now apply Hpos.
Qed.

End Tallying.

(** ** The school aggregator: the statistics of a school *)

Module Aggregator.

Import JsString JsNum Sheets StringFacts ListFacts NumFacts Tallying Vocabulary Workbooks.

Lemma testStatOf_sheetStat (acc : Accessor) (sch sheet : string) (t : TestStat) :
  testStatOf acc (getStudentsBySchool acc sch) (rosterOf acc sch) sheet = Some t ->
  sheetStat acc sch t.
Proof.
  unfold testStatOf, tallyOf, sheetStat.
  destruct (readSheet acc sheet) as [|header data] eqn:Hread; [discriminate |].
  destruct (testIdColumn header) as [col|] eqn:Hcol; [| discriminate].
  intros [= <-]. now exists sheet, header, data, col.
Qed.

Lemma Forall_omap {A B : Type} (f : A -> option B) (Q : B -> Prop) (l : list A) :
  (forall x y, f x = Some y -> Q y) -> Forall Q (omap f l).
Proof.
  intros Hf. induction l as [|x l IH]; simpl; [constructor |].
  destruct (f x) as [y|] eqn:E; [constructor; [now apply (Hf x) | exact IH] | exact IH].
Qed.

(** What a successful answer of [getSchoolStats] is made of. *)
Lemma getSchoolStats_inv (acc : Accessor) (sch school : string) (total : nat)
    (a b : num) (stats : list TestStat) :
  getSchoolStats acc sch = Stats school total a b stats ->
  school = sch
  /\ total = length (getStudentsBySchool acc sch)
  /\ 0 < length (getStudentsBySchool acc sch)
  /\ Forall (sheetStat acc sch) stats.
Proof.
  unfold getSchoolStats.
  destruct (negb (acc_ready acc)); [discriminate |].
  destruct (negb (truthy sch)); [discriminate |].
  destruct (getStudentsBySchool acc sch) as [|s0 ss] eqn:Hst; [discriminate |].
  destruct (getSheetNames acc) as [msg|allSheets]; [discriminate |].
  intros [= <- <- _ _ <-]. repeat split; [simpl; lia |].
  apply Forall_omap. intros sheet t Ht. apply (testStatOf_sheetStat acc sch sheet).
  now rewrite Hst.
Qed.

(** The percentage of [a] out of [n] students. *)
Lemma percent_bounds (a n : nat) :
  0 < n ->
  exists q,
    round2 (mul (div (of_nat a) (of_nat n)) (of_nat 100)) = Fin q
    /\ (0 <= q)%Q
    /\ (a <= n -> (q <= 100)%Q)
    /\ (inject_Z (Z.of_nat a) / inject_Z (Z.of_nat n) * 100 - (1 # 200) < q)%Q
    /\ (q <= inject_Z (Z.of_nat a) / inject_Z (Z.of_nat n) * 100 + (1 # 200))%Q.
Proof.
  intros Hn. unfold of_nat at 1. rewrite div_of_nat by assumption.
  set (x := (inject_Z (Z.of_nat a) / inject_Z (Z.of_nat n))%Q).
  change (mul (Fin x) (of_nat 100)) with (Fin (x * 100)).
  destruct (round2_Fin (x * 100)) as (q & z & Hq & _ & Hlo & Hhi & Hnn & Hub).
  assert (Hn' : (0 < inject_Z (Z.of_nat n))%Q).
  { change 0%Q with (inject_Z 0). rewrite <- Zlt_Qlt. lia. }
  assert (Ha' : (0 <= inject_Z (Z.of_nat a))%Q).
  { change 0%Q with (inject_Z 0). rewrite <- Zle_Qle. lia. }
  assert (Hx0 : (0 <= x)%Q).
  { unfold x. apply Qle_shift_div_l; [assumption |]. now rewrite Qmult_0_l. }
  exists q. split; [exact Hq |]. split; [apply Hnn; nra |].
  split; [| split; assumption].
  intros Han. apply (Hub 100%Z). change (inject_Z 100) with 100%Q.
  assert (Hx1 : (x <= 1)%Q).
  { unfold x. apply Qle_shift_div_r; [assumption |]. rewrite Qmult_1_l.
    rewrite <- Zle_Qle. lia. }
  nra.
Qed.







(** *** The leaderboard *)

(** C4, as stated, fails on equal scores: both students are listed, and the
    list is not strictly descending. *)
Lemma topPerformers_tie :
  exists school total a b t e1 e2,
    getSchoolStats tiedBook "S1" = Stats school total a b [t]
    /\ topPerformers t = [e1; e2]
    /\ score e1 = score e2
    /\ ~ strictlyDescending (topPerformers t).
Proof.
  do 7 eexists. split; [vm_compute; reflexivity |].
  cbn [topPerformers]. split; [reflexivity |]. split; [reflexivity |].
  intros H. inversion H as [|? ? _ Hx]; subst.
  inversion Hx as [|? ? Hgt _]; subst. vm_compute in Hgt. discriminate.
Qed.

Lemma positive_not_zero (x : num) : positive_num x -> x <> zero /\ geb zero x = false.
Proof.
  intros H. apply positive_num_cases in H as [-> | (q & -> & Hq)].
  - split; [discriminate | reflexivity].
  - split.
    + intros [= ->]. now apply Qlt_irrefl in Hq.
    + simpl. destruct (Qle_bool q 0) eqn:E; [| reflexivity].
      apply Qle_bool_iff in E. lra.
Qed.

(** C4 (amended): every per-test [topPerformers] of [getSchoolStats] has
    at most 5 entries and is descending by score, equal scores allowed;
    every entry has a score above 0, so a row score of exactly 0 never
    appears in it; and [scoreCount], the denominator of [avgScore], counts
    exactly the attended rows whose score is above 0, so that a row score of
    exactly 0 never adds to it. The list is the first 5 entries of the
    ranking of all the rows that score: their entries in descending order
    of the score entered, those of one score in the order of their rows in
    the sheet. *)
Theorem topPerformers_spec_of_stats (acc : Accessor) (sch school : string) (total : nat)
    (a b : num) (stats : list TestStat) (t : TestStat) :
  getSchoolStats acc sch = Stats school total a b stats ->
  In t stats ->
  length (topPerformers t) <= 5
  /\ descending (topPerformers t)
  /\ Forall (fun e => positive_num (score e) /\ score e <> zero) (topPerformers t)
  /\ exists sheet header data col,
       readSheet acc sheet = header :: data
       /\ testIdColumn header = Some col
       /\ let tally :=
            tallySheet (rosterOf acc sch) (rosterIds acc sch) col header data in
          t = testStatOfTally (getStudentsBySchool acc sch) sheet tally
          /\ scoreCount tally = length (scoringRows acc sch col header data)
          /\ length (studentScores tally) = scoreCount tally
          /\ Forall (fun r => rowScore (scoreIndices header) r <> zero)
               (scoringRows acc sch col header data)
          /\ exists ranked,
               stablyRanked (scoringEntries acc sch col header data) ranked
               /\ topPerformers t
                  = List.map (resolveEntry (getStudentsBySchool acc sch)) (firstn 5 ranked)
               /\ List.map score (topPerformers t) = firstn 5 (List.map score ranked).
Proof.
  intros Hstats Hin.
  destruct (getSchoolStats_inv _ _ _ _ _ _ _ Hstats) as (_ & _ & _ & Hall).
  rewrite List.Forall_forall in Hall.
  destruct (Hall t Hin) as (sheet & header & data & col & Hread & Hcol & ->).
  pose proof (tallySheet_spec (rosterOf acc sch) (rosterIds acc sch) col header data) as Hspec.
  cbv zeta in Hspec.
  assert (Hpos : Forall (fun e => positive_num (score e))
                   (studentScores (tallySheet (rosterOf acc sch) (rosterIds acc sch)
                                     col header data))).
  { rewrite Hspec. cbn [studentScores]. apply positive_rowEntry. }
  destruct (topPerformers_spec (getStudentsBySchool acc sch) sheet _ Hpos)
    as (Hlen & Hsorted & Htop).
  split; [exact Hlen |]. split; [exact Hsorted |]. split.
  - eapply List.Forall_impl; [| exact Htop]. intros e He.
    split; [exact He | now apply positive_not_zero].
  - exists sheet, header, data, col. split; [exact Hread |]. split; [exact Hcol |].
    cbv zeta. split; [reflexivity |].
    pose proof (leaderboard_stable _ Hpos) as Hstable.
    unfold testStatOfTally. cbn [topPerformers].
    rewrite Hspec in Hstable |- *. cbn [scoreCount studentScores] in Hstable |- *.
    unfold scoringRows. split; [reflexivity |]. split; [now rewrite List.length_map |].
    split.
    + apply List.Forall_forall. intros r Hr. apply List.filter_In in Hr as (_ & Hr).
      unfold rowScores in Hr. apply andb_true_iff in Hr as (_ & Hr).
      now apply positive_not_zero.
    + eexists. split; [exact Hstable |]. split; [reflexivity |].
      unfold JsArray.slice0. rewrite List.map_map, <- List.firstn_map.
      reflexivity.
Qed.

(** [topPerformers_spec_of_stats] on a sheet in which two students score
    50: both are listed, the student of the first row first. *)
Lemma topPerformers_ties_in_row_order :
  match getSchoolStats tiedBook "S1" with
  | Stats _ _ _ _ [t] =>
      length (topPerformers t) <= 5
      /\ descending (topPerformers t)
      /\ List.map scoreStudentId (topPerformers t) = [Some "u1"; Some "u2"]
      /\ List.map score (topPerformers t) = [Fin (50 # 1); Fin (50 # 1)]
  | _ => False
  end.
Proof.
  destruct (getSchoolStats tiedBook "S1") as [m d|school total x y stats] eqn:E;
    [vm_compute in E; discriminate E |].
  assert (Hstats : exists t, stats = [t]
                             /\ List.map scoreStudentId (topPerformers t)
                                = [Some "u1"; Some "u2"]
                             /\ List.map score (topPerformers t)
                                = [Fin (50 # 1); Fin (50 # 1)]).
  { vm_compute in E. injection E as _ _ _ _ <-. eexists. repeat split. }
  destruct Hstats as (t & -> & Hids & Hscores).
  destruct (topPerformers_spec_of_stats tiedBook "S1" school total x y [t] t E
              (or_introl eq_refl)) as (H1 & H2 & _).
  repeat split; assumption.
Defined.

(** *** Scores that are not above zero *)

Lemma nonneg_geb (x : num) : nonneg_num x -> geb x zero = true.
Proof.
  intros [-> | (q & -> & Hq)]; [reflexivity |]. simpl. now apply Qle_bool_iff.
Qed.

Lemma add_nonneg_positive (x y : num) :
  nonneg_num x -> positive_num y -> nonneg_num (add x y).
Proof.
  intros Hx Hy. apply positive_num_cases in Hy.
  destruct Hx as [-> | (p & -> & Hp)], Hy as [-> | (q & -> & Hq)]; simpl;
    try (now left).
  right. eexists. split; [reflexivity | lra].
Qed.

Lemma sum_nonneg (f : row -> num) (rows : list row) (x : num) :
  nonneg_num x -> Forall (fun r => positive_num (f r)) rows ->
  nonneg_num (fold_left (fun s r => add s (f r)) rows x).
Proof.
  revert x. induction rows as [|r rows IH]; intros x Hx Hall; simpl; [exact Hx |].
  inversion Hall; subst. apply IH; [now apply add_nonneg_positive | assumption].
Qed.

Lemma div_nonneg (x : num) (n : nat) :
  0 < n -> nonneg_num x -> nonneg_num (div x (of_nat n)).
Proof.
  intros Hn [-> | (q & -> & Hq)].
  - left. unfold div, of_nat. rewrite of_nat_nonzero by assumption. simpl.
    destruct (Z.of_nat n ?= 0)%Z eqn:E; try reflexivity.
    + apply Z.compare_eq in E. lia.
    + rewrite Z.compare_lt_iff in E. lia.
  - right. rewrite div_of_nat by assumption. eexists. split; [reflexivity |].
    apply Qle_shift_div_l.
    + change 0%Q with (inject_Z 0). rewrite <- Zlt_Qlt. lia.
    + now rewrite Qmult_0_l.
Qed.

Lemma round2_nonneg (x : num) : nonneg_num x -> nonneg_num (round2 x).
Proof.
  intros [-> | (q & -> & Hq)]; [now left |].
  destruct (round2_Fin q) as (q' & z & H & _ & _ & _ & Hnn & _).
  right. exists q'. split; [exact H | now apply Hnn].
Qed.

(** C10: a matched row enters the average and the leaderboard only when its
    score is above 0. Every [topPerformers] entry of [getSchoolStats] has a
    score above 0, none at or below 0; [avgScore] is never below 0; a
    matched row whose score is not above 0 is counted as attended and
    changes neither the sum, nor [scoreCount], nor the list of scores; and
    [avgScore] and [topPerformers] are what they would be if every such row
    were taken out of the sheet. *)
Theorem nonpositive_scores_excluded (acc : Accessor) (sch school : string) (total : nat)
    (a b : num) (stats : list TestStat) (t : TestStat) :
  getSchoolStats acc sch = Stats school total a b stats ->
  In t stats ->
  Forall (fun e => gtb (score e) zero = true /\ geb zero (score e) = false)
    (topPerformers t)
  /\ geb (avgScore t) zero = true
  /\ exists sheet header data col,
       readSheet acc sheet = header :: data
       /\ testIdColumn header = Some col
       /\ let ro := rosterOf acc sch in
          let ids := rosterIds acc sch in
          let idx := scoreIndices header in
          let students := getStudentsBySchool acc sch in
          t = testStatOfTally students sheet (tallySheet ro ids col header data)
          /\ (forall tl r,
                rowMatched ro ids col r = true ->
                gtb (rowScore idx r) zero = false ->
                tallyRow ro ids col idx tl r
                = {| tallyAttended := S (tallyAttended tl);
                     totalScore := totalScore tl;
                     scoreCount := scoreCount tl;
                     studentScores := studentScores tl |})
          /\ let t' :=
               testStatOfTally students sheet
                 (tallySheet ro ids col header (withoutUnscored ro ids col idx data)) in
             avgScore t' = avgScore t /\ topPerformers t' = topPerformers t.
Proof.
  intros Hstats Hin.
  destruct (getSchoolStats_inv _ _ _ _ _ _ _ Hstats) as (_ & _ & _ & Hall).
  rewrite List.Forall_forall in Hall.
  destruct (Hall t Hin) as (sheet & header & data & col & Hread & Hcol & ->).
  set (ro := rosterOf acc sch). set (ids := rosterIds acc sch).
  set (idx := scoreIndices header). set (students := getStudentsBySchool acc sch).
  pose proof (tallySheet_spec ro ids col header data) as Hspec.
  pose proof (tallySheet_spec ro ids col header (withoutUnscored ro ids col idx data))
    as Hspec'.
  cbv zeta in Hspec, Hspec'. fold idx in Hspec, Hspec'.
  rewrite filter_rowScores_withoutUnscored in Hspec'.
  split; [| split].
  - assert (Hpos : Forall (fun e => positive_num (score e))
                     (studentScores (tallySheet ro ids col header data))).
    { rewrite Hspec. cbn [studentScores]. apply positive_rowEntry. }
    destruct (topPerformers_spec students sheet _ Hpos) as (_ & _ & Htop).
    eapply List.Forall_impl; [| exact Htop]. intros e He.
    split; [exact He | now apply positive_not_zero].
  - apply nonneg_geb. unfold testStatOfTally. cbn [avgScore].
    apply round2_nonneg. rewrite Hspec. cbn [scoreCount totalScore].
    destruct (Nat.ltb 0 _) eqn:E.
    + apply Nat.ltb_lt in E. apply div_nonneg; [exact E |].
      apply sum_nonneg.
      * right. exists 0%Q. split; [reflexivity | lra].
      * apply List.Forall_forall. intros r Hr. apply List.filter_In in Hr as (_ & Hr).
        unfold rowScores in Hr. now apply andb_true_iff in Hr as (_ & Hr).
    + right. exists 0%Q. split; [reflexivity | lra].
  - exists sheet, header, data, col. split; [exact Hread |]. split; [exact Hcol |].
    cbv zeta. split; [reflexivity |]. split.
    + intros tl r Hm Hs. rewrite tallyRow_spec. unfold rowScores. rewrite Hm, Hs.
      simpl. f_equal; [lia | lia | apply List.app_nil_r].
    + unfold testStatOfTally. cbn [avgScore topPerformers]. fold idx.
      rewrite Hspec, Hspec'. cbn [scoreCount totalScore studentScores].
      split; reflexivity.
Qed.

(** [nonpositive_scores_excluded] on a sheet with scores 10, -5 and 0:
    three rows attended, one score counted, an average of 10. *)
Lemma nonpositive_scores_example :
  exists school total a b t,
    getSchoolStats negativeBook "S1" = Stats school total a b [t]
    /\ attendedCount t = 3
    /\ (exists q, avgScore t = Fin q /\ (q == 10)%Q)
    /\ length (topPerformers t) = 1
    /\ Forall (fun e => gtb (score e) zero = true /\ geb zero (score e) = false)
         (topPerformers t).
Proof.
  do 5 eexists. split; [vm_compute; reflexivity |].
  destruct (nonpositive_scores_excluded negativeBook "S1"
              _ _ _ _ _ _ eq_refl (or_introl eq_refl)) as (H1 & _).
  split; [reflexivity |]. split; [eexists; split; reflexivity |].
  split; [reflexivity | exact H1].
Defined.

End Aggregator.

(** ** The score of a row *)

Module RowScore.

Import JsString JsNum Sheets StringFacts ListFacts Tallying Vocabulary Workbooks.

Lemma isScoreBearing_spec (colName : string) :
  isScoreBearing colName = true <-> hasScoreKeyword colName.
Proof.
  unfold isScoreBearing, hasScoreKeyword.
  rewrite !orb_true_iff, !includes_spec. tauto.
Qed.

Lemma In_combine_seq (header : row) (k : nat) (colName : string) (idx : nat) :
  In (colName, idx) (combine header (seq k (length header)))
  <-> k <= idx /\ header !! (idx - k) = Some colName.
Proof.
  revert k. induction header as [|h hs IH]; intros k; simpl.
  - split; [tauto | intros (_ & H); discriminate].
  - rewrite IH. split.
    + intros [[= <- <-] | (Hle & H)].
      * split; [lia |]. now rewrite Nat.sub_diag.
      * split; [lia |]. replace (idx - k) with (S (idx - S k)) by lia. exact H.
    + intros (Hle & H). destruct (idx - k) as [|j] eqn:E.
      * left. injection H as ->. f_equal. lia.
      * right. split; [lia |]. replace (idx - S k) with j by lia. exact H.
Qed.

Lemma scoreIndices_spec (header : row) (idx : nat) :
  In idx (scoreIndices header)
  <-> exists colName, header !! idx = Some colName /\ hasScoreKeyword colName.
Proof.
  unfold scoreIndices. rewrite List.in_map_iff. split.
  - intros ([colName i] & Hi & Hin). simpl in Hi. subst i.
    apply List.filter_In in Hin as (Hin & Hp). simpl in Hp.
    apply In_combine_seq in Hin as (_ & Hin). rewrite Nat.sub_0_r in Hin.
    exists colName. split; [exact Hin | now apply isScoreBearing_spec].
  - intros (colName & Hh & Hk). exists (colName, idx). split; [reflexivity |].
    apply List.filter_In. split; [| now apply isScoreBearing_spec].
    apply In_combine_seq. split; [lia |]. now rewrite Nat.sub_0_r.
Qed.





(** *** What a cell counts for *)

#[local] Arguments String.append : simpl nomatch.













End RowScore.

(** ** The school aggregator: a school without students *)

Module SchoolNotFound.

Import JsString JsNum Sheets StringFacts ListFacts Vocabulary Workbooks.

Lemma or_default_self (s : string) : or_default (Some s) "" = s.
Proof.
  simpl. destruct (truthy s) eqn:E; [reflexivity |].
  symmetry. now apply truthy_false.
Qed.

Lemma fold_left_unchanged {A B : Type} (f : A -> B -> A) (l : list B) (a : A) :
  Forall (fun x => forall a', f a' x = a') l -> fold_left f l a = a.
Proof.
  revert a. induction l as [|x l IH]; intros a Hall; simpl; [reflexivity |].
  inversion Hall as [|? ? Hx Hl]; subst. rewrite Hx. now apply IH.
Qed.

Lemma getStudentsBySchool_none (acc : Accessor) (sch : string) :
  noRowOfSchool acc sch -> getStudentsBySchool acc sch = [].
Proof.
  intros Hno. unfold getStudentsBySchool.
  destruct (readSheet acc "Mapping") as [|header data] eqn:Hread; [reflexivity |].
  unfold masterColumns.
  destruct (schoolIdIndexOf header) as [si|] eqn:Hsi; [| reflexivity].
  destruct (studentIdIndexOf header) as [ti|]; [| reflexivity].
  apply fold_left_unchanged.
  eapply List.Forall_impl; [| exact (Hno header data si Hread Hsi)].
  intros r Hr students. destruct r as [|c0 r0]; [reflexivity |].
  unfold schoolOfRow in Hr. apply String.eqb_neq in Hr. now rewrite Hr.
Qed.

Lemma In_set_add (x y : string) (l : list string) :
  In y (JsArray.set_add x l) <-> y = x \/ In y l.
Proof.
  unfold JsArray.set_add. destruct (JsArray.includes l x) eqn:E.
  - split; [tauto |]. intros [-> | H]; [| exact H].
    unfold JsArray.includes in E. apply List.existsb_exists in E as (z & Hz & Heq).
    apply String.eqb_eq in Heq. now subst.
  - rewrite List.in_app_iff. simpl. intuition congruence.
Qed.

(** Every identifier collected from the rows [rows] is the trimmed,
    non-empty school cell of one of them. *)
Lemma collected_ids (si : nat) (rows : list row) (set : list string) (id : string) :
  In id
    (fold_left
       (fun (set : list string) (r : row) =>
          match r !! si with
          | Some c =>
              if truthy c then
                let id := trim c in
                if truthy id then JsArray.set_add id set else set
              else set
          | None => set
          end)
       rows set) ->
  In id set \/ exists r c, In r rows /\ r !! si = Some c /\ id = trim c /\ id <> "".
Proof.
  revert set. induction rows as [|r rows IH]; intros set; simpl; [now left |].
  intros H. apply IH in H as [H | (r' & c & Hin & Hc & Hid & Hne)].
  - destruct (r !! si) as [c|] eqn:Hc; [| now left].
    destruct (truthy c); [| now left]. cbv zeta in H.
    destruct (truthy (trim c)) eqn:Ht; [| now left].
    apply In_set_add in H as [-> | H]; [| now left].
    right. exists r, c. repeat split; try assumption; [now left |].
    now apply truthy_true.
  - right. exists r', c. repeat split; try assumption. now right.
Qed.

Lemma availableSchoolIds_known (acc : Accessor) (id : string) :
  In id (availableSchoolIds acc) -> knownSchool acc id.
Proof.
  unfold availableSchoolIds, knownSchool.
  destruct (readSheet acc "Mapping") as [|header data] eqn:Hread; [intros [] |].
  destruct (schoolIdIndexOf header) as [si|] eqn:Hsi; [| intros []].
  intros H. apply SortFacts.In_slice0, SortFacts.In_sort_by in H.
  apply collected_ids in H as [[] | (r & c & Hin & Hc & Hid & Hne)].
  now exists header, data, si, r, c.
Qed.

(** C8, as stated, fails on the text of the error: the answer names the
    school and the mapping sheet. *)
Lemma schoolNotFound_text :
  getSchoolStats readmeBook unknownSchool
  = StatsError (notFoundMessage unknownSchool)
      (Some (notFoundDetails ["SCHOOL001"; "SCHOOL002"]))
  /\ notFoundMessage unknownSchool <> "School not found or has no students".
Proof. split; [vm_compute; reflexivity | discriminate]. Qed.

(** C8 (amended): when the accessor is ready, a school id is given and no
    row of the mapping sheet is a row of that school, [getSchoolStats]
    returns (it does not throw) an error whose text is the school id in
    double quotes between "School " and " not found or has no students in
    the Mapping sheet", with details that list at most 10 school
    identifiers; each of them is the trimmed, non-empty school cell of a
    mapping row, and none is the requested school. *)
Theorem schoolNotFound_spec (acc : Accessor) (sch : string) :
  acc_ready acc = true ->
  sch <> "" ->
  noRowOfSchool acc sch ->
  getSchoolStats acc sch
  = StatsError (notFoundMessage sch) (Some (notFoundDetails (availableSchoolIds acc)))
  /\ notFoundMessage sch
     = "School " ++ String dquote sch ++ String dquote ""
       ++ " not found or has no students in the Mapping sheet"
  /\ length (availableSchoolIds acc) <= 10
  /\ forall id, In id (availableSchoolIds acc) ->
       knownSchool acc id /\ toUpperCase id <> toUpperCase (trim sch).
Proof.
  intros Hready Hsch Hno. split; [| split; [| split]].
  - unfold getSchoolStats. rewrite Hready. apply truthy_true in Hsch. rewrite Hsch.
    simpl. now rewrite getStudentsBySchool_none.
  - reflexivity.
  - unfold availableSchoolIds.
    destruct (readSheet acc "Mapping") as [|header data]; [simpl; lia |].
    destruct (schoolIdIndexOf header); [apply SortFacts.length_slice0 | simpl; lia].
  - intros id Hid. pose proof (availableSchoolIds_known acc id Hid) as Hk.
    split; [exact Hk |].
    destruct Hk as (header & data & si & r & c & Hread & Hsi & Hin & Hc & -> & _).
    specialize (Hno header data si Hread Hsi).
    rewrite List.Forall_forall in Hno. specialize (Hno r Hin).
    unfold schoolOfRow, cell_trim in Hno. rewrite Hc in Hno.
    cbn [fmap option_fmap option_map] in Hno. now rewrite or_default_self in Hno.
Qed.

(** [schoolNotFound_spec] for a school that the README sheet does not have. *)
Lemma schoolNotFound_readme :
  getSchoolStats readmeBook unknownSchool
  = StatsError (notFoundMessage unknownSchool)
      (Some (notFoundDetails (availableSchoolIds readmeBook)))
  /\ length (availableSchoolIds readmeBook) <= 10.
Proof.
  assert (Hno : noRowOfSchool readmeBook unknownSchool).
  { intros header data si [= <- <-] [= <-].
    repeat constructor; discriminate. }
  destruct (schoolNotFound_spec readmeBook unknownSchool eq_refl
              ltac:(discriminate) Hno) as (H1 & _ & H3 & _).
  split; assumption.
Defined.

End SchoolNotFound.

(** ** More on strings: trimming twice *)

Module TrimFacts.

Import JsString StringFacts Vocabulary.

#[local] Arguments String.append : simpl nomatch.

Lemma trimStart_headed (s : string) : headed (trimStart s).
Proof.
  induction s as [|c s IH]; simpl; [exact I |].
  destruct (is_space c) eqn:E; [exact IH | exact E].
Qed.

Lemma trimStart_of_headed (s : string) : headed s -> trimStart s = s.
Proof. destruct s as [|c s]; simpl; [reflexivity | now intros ->]. Qed.

Lemma trimEnd_headed (s : string) : headed s -> headed (trimEnd s).
Proof.
  destruct s as [|c s]; simpl; [exact id |]. intros Hc.
  destruct (trimEnd s); [now rewrite Hc | exact Hc].
Qed.

Lemma trimEnd_idem (s : string) : trimEnd (trimEnd s) = trimEnd s.
Proof.
  induction s as [|c s IH]; simpl; [reflexivity |].
  destruct (trimEnd s) as [|d t] eqn:Et.
  - destruct (is_space c) eqn:Ec; simpl; [reflexivity | now rewrite Ec].
  - change (trimEnd (String c (String d t))
            = String c (String d t)).
    simpl. simpl in IH. rewrite IH. reflexivity.
Qed.

(** Trimming a trimmed text changes nothing. *)
Lemma trim_idem (s : string) : trim (trim s) = trim s.
Proof.
  unfold trim.
  rewrite (trimStart_of_headed (trimEnd (trimStart s))).
  - apply trimEnd_idem.
  - apply trimEnd_headed, trimStart_headed.
Qed.

Lemma or_default_same (s : string) : or_default (Some s) "" = s.
Proof.
  simpl. destruct (truthy s) eqn:E; [reflexivity |].
  symmetry. now apply truthy_false.
Qed.

End TrimFacts.

(** ** The identity resolver: the lookup table *)

Module LookupMap.

Import JsString Sheets StringFacts ListFacts Vocabulary Workbooks.

Section Fold.

Variable header : row.
Variable userNameIndex : nat.

(** One turn of the loop of [buildStudentLookupMap]. *)
#[local] Abbreviation step :=
  (fun (lookupMap : gmap string Identity) (r : row) =>
     match r with
     | [] => lookupMap
     | _ =>
         match cell_trim r userNameIndex with
         | Some u =>
             if truthy u then
               <[u := {| userName := u;
                         schoolName := cell_or_empty r (JsArray.findIndex isSchoolName header);
                         schoolCode :=
                           cell_or_empty r (JsArray.findIndex isOpengradSchoolCode header);
                         udsieCode := cell_or_empty r (JsArray.findIndex isUdsieCode header);
                         emisId := cell_or_empty r (JsArray.findIndex isEmisId header) |}]>
                 lookupMap
             else lookupMap
         | None => lookupMap
         end
     end).

Lemma step_lookup (m : gmap string Identity) (r : row) (u : string) :
  u <> "" ->
  step m r !! u
  = if opt_eqb (cell_trim r userNameIndex) u then Some (identityOfRow header r u)
    else m !! u.
Proof.
  intros Hu. destruct r as [|c r]; [reflexivity |].
  destruct (cell_trim (c :: r) userNameIndex) as [v|] eqn:Hv; [| reflexivity].
  cbn [opt_eqb]. destruct (String.eqb v u) eqn:E.
  - apply String.eqb_eq in E. subst v.
    apply truthy_true in Hu. rewrite Hu. apply lookup_insert_eq.
  - apply String.eqb_neq in E. destruct (truthy v); [| reflexivity].
    now apply lookup_insert_ne.
Qed.

Lemma step_lookup_empty (m : gmap string Identity) (r : row) :
  step m r !! "" = m !! "".
Proof.
  destruct r as [|c r]; [reflexivity |].
  destruct (cell_trim (c :: r) userNameIndex) as [v|]; [| reflexivity].
  destruct (truthy v) eqn:E; [| reflexivity].
  apply lookup_insert_ne. intros ->. discriminate.
Qed.

(** After the loop, a user name leads to the record of the last row that
    carries it, and to what the table held before when no row does. *)
Lemma fold_lookup (data : list row) (m : gmap string Identity) (u : string) :
  u <> "" ->
  (exists pre r post,
      data = (pre ++ r :: post)%list
      /\ cell_trim r userNameIndex = Some u
      /\ Forall (fun r' => cell_trim r' userNameIndex <> Some u) post
      /\ fold_left step data m !! u = Some (identityOfRow header r u))
  \/ (Forall (fun r' => cell_trim r' userNameIndex <> Some u) data
      /\ fold_left step data m !! u = m !! u).
Proof.
  intros Hu. revert m. induction data as [|r data IH]; intros m.
  - right. split; [constructor | reflexivity].
  - cbn [fold_left]. destruct (IH (step m r)) as [(pre & r' & post & -> & H1 & H2 & H3) | (Hall & Hm)].
    + left. exists (r :: pre), r', post. repeat split; assumption.
    + rewrite step_lookup in Hm by assumption.
      destruct (opt_eqb (cell_trim r userNameIndex) u) eqn:E.
      * left. exists [], r, data. repeat split; try assumption.
        now apply TestSheetMatcher.opt_eqb_Some.
      * right. split; [| assumption]. constructor; [| assumption].
        intros H. apply TestSheetMatcher.opt_eqb_Some in H. congruence.
Qed.

Lemma fold_lookup_empty (data : list row) (m : gmap string Identity) :
  fold_left step data m !! "" = m !! "".
Proof.
  revert m. induction data as [|r data IH]; intros m; [reflexivity |].
  cbn [fold_left]. rewrite IH. apply step_lookup_empty.
Qed.

End Fold.

(** X1: in the table built by [buildStudentLookupMap], a non-empty user
    name leads to the record read from the LAST data row of the mapping
    sheet whose trimmed user-name cell is that name, and to nothing when no
    row carries it. *)
Theorem lookup_last_row_wins (acc : Accessor) (header : row) (data : list row)
    (ui : nat) (u : string) :
  readSheet acc "Mapping" = header :: data ->
  JsArray.findIndex isUserName header = Some ui ->
  u <> "" ->
  (exists pre r post,
      data = (pre ++ r :: post)%list
      /\ cell_trim r ui = Some u
      /\ Forall (fun r' => cell_trim r' ui <> Some u) post
      /\ buildStudentLookupMap acc !! u = Some (identityOfRow header r u))
  \/ (Forall (fun r' => cell_trim r' ui <> Some u) data
      /\ buildStudentLookupMap acc !! u = None).
Proof.
  intros Hread Hui Hu. unfold buildStudentLookupMap. rewrite Hread, Hui.
  destruct (fold_lookup header ui data ∅ u Hu) as [H | (Hall & Hm)]; [now left |].
  right. split; [exact Hall |]. now rewrite Hm.
Qed.

(** A mapping sheet in which a user name occurs twice. *)
Lemma lookup_last_row_wins_example :
  exists m,
    buildStudentLookupMap twiceBook !! "u1" = Some m
    /\ schoolName m = "Second School".
Proof.
  destruct (lookup_last_row_wins twiceBook ["UserName"; "School Name"]
              [ ["u1"; "First School"]; [" u1 "; "Second School"] ] 0 "u1"
              eq_refl eq_refl ltac:(discriminate))
    as [(pre & r & post & Hd & Hc & Hpost & Hm) | (Hall & _)].
  - exists (identityOfRow ["UserName"; "School Name"] r "u1"). split; [exact Hm |].
    destruct pre as [|p0 [|p1 pre]].
    + injection Hd as <- <-. inversion Hpost as [|? ? Hbad _]. now contradiction Hbad.
    + injection Hd as _ <- _. reflexivity.
    + exfalso. injection Hd as _ _ Hd. now destruct pre.
  - exfalso. inversion Hall as [|? ? Hbad _]. now apply Hbad.
Defined.

(** X2: the table is empty when the mapping sheet cannot be read, has no
    rows or has no column named "username" (in any letter case); and it
    never has an entry for the empty user name, whatever the sheet. *)
Theorem lookup_empty_cases (acc : Accessor) :
  (readSheet acc "Mapping" = [] -> buildStudentLookupMap acc = ∅)
  /\ (forall header data,
        readSheet acc "Mapping" = header :: data ->
        Forall (fun h => toLowerCase h <> "username") header ->
        buildStudentLookupMap acc = ∅)
  /\ buildStudentLookupMap acc !! "" = None.
Proof.
  unfold buildStudentLookupMap. split; [now intros -> |]. split.
  - intros header data -> Hno.
    assert (Hn : JsArray.findIndex isUserName header = None).
    { apply findIndex_None. eapply List.Forall_impl; [| exact Hno].
      intros h Hh. now apply String.eqb_neq. }
    now rewrite Hn.
  - destruct (readSheet acc "Mapping") as [|header data]; [reflexivity |].
    destruct (JsArray.findIndex isUserName header) as [ui|]; [| reflexivity].
    now rewrite fold_lookup_empty.
Qed.

End LookupMap.

(** ** The students of a school *)

Module SchoolRoster.

Import JsString JsNum Sheets StringFacts ListFacts TrimFacts Vocabulary Workbooks.

Lemma In_omap {A B : Type} (f : A -> option B) (l : list A) (x : A) (y : B) :
  In x l -> f x = Some y -> In y (omap f l).
Proof.
  induction l as [|a l IH]; simpl; [tauto |].
  intros [-> | Hin] Hf.
  - rewrite Hf. now left.
  - destruct (f a); [right |]; now apply IH.
Qed.

Lemma rowOfSchool_studentOfRow (si ti : nat) (search : string) (r : row) :
  rowOfSchool si ti search r = true ->
  exists c, r !! ti = Some c /\ trim c <> ""
            /\ studentOfRow si ti r = Some {| studentId := c; schoolId := r !! si |}.
Proof.
  unfold rowOfSchool, studentOfRow, cell_trim. intros H.
  apply andb_true_iff in H as (_ & H).
  destruct (r !! ti) as [c|]; [| discriminate].
  exists c. repeat split. cbn [fmap option_fmap option_map] in H.
  rewrite or_default_same in H. now apply truthy_true.
Qed.

Lemma fold_students (si ti : nat) (search : string) (data : list row)
    (students : list Student) :
  fold_left
    (fun (students : list Student) (r : row) =>
       match r with
       | [] => students
       | _ =>
           let rowSchoolId := or_default (toUpperCase <$> cell_trim r si) "" in
           let rowStudentId := or_default (cell_trim r ti) "" in
           if String.eqb rowSchoolId search && truthy rowStudentId then
             match studentOfRow si ti r with
             | Some st => (students ++ [st])%list
             | None => students
             end
           else students
       end)
    data students
  = (students ++ omap (studentOfRow si ti) (List.filter (rowOfSchool si ti search) data))%list.
Proof.
  revert students. induction data as [|r data IH]; intros students; simpl.
  - now rewrite List.app_nil_r.
  - rewrite IH. unfold rowOfSchool at 2, schoolOfRow.
    destruct r as [|c r]; [simpl; now rewrite andb_false_r |].
    destruct (String.eqb _ _ && truthy _); simpl; [| reflexivity].
    destruct (studentOfRow si ti (c :: r)); [| reflexivity].
    now rewrite <- List.app_assoc.
Qed.

(** The loop of [getStudentsBySchool] as a filter followed by a map. *)
Lemma getStudentsBySchool_closed (acc : Accessor) (sch : string) (header : row)
    (data : list row) (si ti : nat) :
  readSheet acc "Mapping" = header :: data ->
  masterColumns header = Some (si, ti) ->
  getStudentsBySchool acc sch
  = omap (studentOfRow si ti)
      (List.filter (rowOfSchool si ti (toUpperCase (trim sch))) data).
Proof.
  intros Hread Hcols. unfold getStudentsBySchool. rewrite Hread, Hcols.
  apply (fold_students si ti (toUpperCase (trim sch)) data []).
Qed.

(** X3: [getStudentsBySchool] lists, in row order and without removing
    repeats, one student per data row of the mapping sheet whose school
    cell, trimmed and upper-cased, is the requested school id trimmed and
    upper-cased and whose trimmed student cell is not empty; each student
    carries the two cells of its row as they stand in the sheet. *)
Theorem students_of_school (acc : Accessor) (sch : string) (header : row)
    (data : list row) (si ti : nat) :
  readSheet acc "Mapping" = header :: data ->
  masterColumns header = Some (si, ti) ->
  Forall2 (fun r st => r !! ti = Some (studentId st) /\ schoolId st = r !! si)
    (List.filter (rowOfSchool si ti (toUpperCase (trim sch))) data)
    (getStudentsBySchool acc sch)
  /\ (forall r, rowOfSchool si ti (toUpperCase (trim sch)) r = true <->
                schoolOfRow si r = toUpperCase (trim sch)
                /\ exists c, r !! ti = Some c /\ trim c <> "").
Proof.
  intros Hread Hcols. split.
  - rewrite (getStudentsBySchool_closed acc sch header data si ti Hread Hcols).
    clear Hread. induction data as [|r data IH]; simpl; [constructor |].
    destruct (rowOfSchool si ti (toUpperCase (trim sch)) r) eqn:E; [| exact IH].
    destruct (rowOfSchool_studentOfRow _ _ _ _ E) as (c & Hc & _ & Hst).
    simpl. rewrite Hst. constructor; [| exact IH]. now split.
  - intros r. unfold rowOfSchool. rewrite andb_true_iff, String.eqb_eq.
    unfold cell_trim. destruct (r !! ti) as [c|]; cbn [fmap option_fmap option_map].
    + rewrite or_default_same, truthy_true. split.
      * intros (H1 & H2). split; [exact H1 | now exists c].
      * intros (H1 & c' & [= <-] & H2). now split.
    + simpl. split; [intros (_ & H); discriminate | intros (_ & c & H & _); discriminate].
Qed.

(** [students_of_school] on the README mapping sheet. *)
Lemma students_of_school_readme :
  Forall2 (fun r st => r !! 1 = Some (studentId st) /\ schoolId st = r !! 0)
    [ ["SCHOOL001"; "STU001"]; ["SCHOOL001"; "STU002"] ]
    (getStudentsBySchool readmeBook " school001").
Proof.
  exact (proj1 (students_of_school readmeBook " school001"
                  ["School ID"; "Student ID"] (tail readmeMapping) 0 1 eq_refl eq_refl)).
Defined.

Lemma rosterOf_normalised (acc : Accessor) (a b : string) :
  toUpperCase (trim a) = toUpperCase (trim b) -> rosterOf acc a = rosterOf acc b.
Proof. intros H. unfold rosterOf. now rewrite H. Qed.

Lemma getStudentsBySchool_normalised (acc : Accessor) (a b : string) :
  toUpperCase (trim a) = toUpperCase (trim b) ->
  getStudentsBySchool acc a = getStudentsBySchool acc b.
Proof. intros H. unfold getStudentsBySchool. now rewrite H. Qed.

(** X4: the school id of a request is compared after trimming and
    upper-casing: two non-empty ids that agree up to letter case and
    surrounding blanks get the same students, the same totals and the same
    per-test statistics; only the school id echoed in the answer differs. *)
Theorem stats_ignore_case_and_blanks (acc : Accessor) (a b : string) :
  toUpperCase (trim a) = toUpperCase (trim b) ->
  a <> "" -> b <> "" ->
  getStudentsBySchool acc a = getStudentsBySchool acc b
  /\ (forall school total x y stats,
        getSchoolStats acc a = Stats school total x y stats ->
        school = a /\ getSchoolStats acc b = Stats b total x y stats).
Proof.
  intros H Ha Hb. split; [now apply getStudentsBySchool_normalised |].
  intros school total x y stats. unfold getSchoolStats.
  rewrite (getStudentsBySchool_normalised acc a b H), (rosterOf_normalised acc a b H).
  apply truthy_true in Ha, Hb. rewrite Ha, Hb.
  destruct (negb (acc_ready acc)); [discriminate |]. simpl.
  destruct (getStudentsBySchool acc b); [discriminate |].
  destruct (getSheetNames acc); [discriminate |].
  intros [= <- <- <- <- <-]. split; reflexivity.
Qed.

(** [stats_ignore_case_and_blanks] on the README sheets. *)
Lemma stats_ignore_case_example :
  exists total x y stats,
    getSchoolStats aptitudeBook "school001 " = Stats "school001 " total x y stats
    /\ getSchoolStats aptitudeBook "SCHOOL001" = Stats "SCHOOL001" total x y stats.
Proof.
  do 4 eexists. split; [vm_compute; reflexivity |].
  refine (proj2 (proj2 (stats_ignore_case_and_blanks aptitudeBook "school001 " "SCHOOL001"
                   eq_refl _ _) _ _ _ _ _ eq_refl)); discriminate.
Defined.

(** X5: a student that [findStudentInMaster] accepts for a school is one
    of the students that [getStudentsBySchool] lists for that school,
    provided the student id is not empty. *)
Theorem verified_student_in_roster (acc : Accessor) (sid sch : string) (st : Student) :
  sid <> "" ->
  findStudentInMaster acc sid sch = Some st ->
  In st (getStudentsBySchool acc sch).
Proof.
  intros Hsid. unfold findStudentInMaster.
  destruct (readSheet acc "Mapping") as [|header data] eqn:Hread; [discriminate |].
  destruct (masterColumns header) as [[si ti]|] eqn:Hcols; [| discriminate].
  rewrite (getStudentsBySchool_closed acc sch header data si ti Hread Hcols).
  pose proof (find_first
    (fun r => opt_eqb (cell_trim r ti) sid && opt_eqb (cell_trim r si) sch) data) as Hf.
  destruct (List.find _ data) as [r|]; [| discriminate].
  destruct Hf as (pre & post & -> & _ & Hr). intros Hst.
  apply andb_true_iff in Hr as (H1 & H2).
  apply TestSheetMatcher.opt_eqb_Some in H1, H2.
  apply In_omap with (x := r); [| exact Hst].
  apply List.filter_In. split; [apply List.in_elt |].
  unfold rowOfSchool, schoolOfRow. rewrite H1, H2.
  cbn [fmap option_fmap option_map]. rewrite !or_default_same.
  apply andb_true_iff. split; [| now apply truthy_true].
  apply String.eqb_eq. unfold cell_trim in H2.
  destruct (r !! si) as [c|]; [| discriminate].
  injection H2 as <-. now rewrite trim_idem.
Qed.

(** [verified_student_in_roster] on the README mapping sheet. *)
Lemma verified_student_readme :
  In {| studentId := "STU002"; schoolId := Some "SCHOOL001" |}
    (getStudentsBySchool readmeBook "SCHOOL001").
Proof.
  apply (verified_student_in_roster readmeBook "STU002" "SCHOOL001");
    [discriminate | reflexivity].
Defined.

End SchoolRoster.

(** ** Refusals and outcomes *)

Module Outcomes.

Import JsString JsNum Sheets StringFacts ListFacts Vocabulary Workbooks.

(** X6: [getStudentTests] has three outcomes. A student who is not
    resolved gets an error answer without tests, "Student not found" or,
    when a school id was given, "Student not found or school ID mismatch",
    and the sheet names are not even listed. A resolved student whose sheet
    names cannot be listed makes the call throw that error. Every answer
    that is returned has either an error and no tests, or a student. *)
Theorem getStudentTests_outcomes (acc : Accessor) (sid : string) (sch : option string) :
  (fst (findInMaster acc sid sch) = None ->
     getStudentTests acc sid sch
     = inr {| error := Some (if truthy_opt sch
                             then "Student not found or school ID mismatch"
                             else "Student not found");
              student := None;
              tests := [] |})
  /\ (forall st msg,
        fst (findInMaster acc sid sch) = Some st ->
        getSheetNames acc = inl msg ->
        getStudentTests acc sid sch = inl msg)
  /\ (forall res,
        getStudentTests acc sid sch = inr res ->
        (error res <> None /\ student res = None /\ tests res = [])
        \/ (error res = None /\ student res = fst (findInMaster acc sid sch)
            /\ student res <> None)).
Proof.
  unfold getStudentTests. split; [| split].
  - intros H. rewrite H. f_equal. f_equal. f_equal.
    unfold findInMaster. destruct sch as [sc|]; [| reflexivity].
    cbn [truthy_opt]. now destruct (truthy sc).
  - intros st msg H Hn. now rewrite H, Hn.
  - intros res. destruct (fst (findInMaster acc sid sch)) as [st|].
    + destruct (getSheetNames acc); [discriminate |]. intros [= <-]. right.
      cbn [error student]. destruct st. repeat split; discriminate.
    + intros [= <-]. left. cbn. repeat split. discriminate.
Qed.

(** X7: without a client nothing is read and nothing throws:
    [getStudentTests] answers "Student not found" (with the school
    variant when a school id is given), [getTestDetails] answers "Student
    not found in this test", [enrichTestSheet] returns the empty sheet, the
    lookup table is empty and [getSchoolStats] answers "Google Sheets API
    not initialized". *)
Theorem offline_answers (acc : Accessor) (sid tn school : string) (sch : option string) :
  acc_ready acc = false ->
  getStudentTests acc sid sch
  = inr {| error := Some (if truthy_opt sch
                          then "Student not found or school ID mismatch"
                          else "Student not found");
           student := None;
           tests := [] |}
  /\ getTestDetails acc sid tn
     = {| detailsError := Some "Student not found in this test";
          detailsTestName := None;
          detailsData := None |}
  /\ enrichTestSheet acc tn = []
  /\ buildStudentLookupMap acc = ∅
  /\ getStudentsBySchool acc school = []
  /\ getSchoolStats acc school
     = StatsError "Google Sheets API not initialized"
         (Some "The server may not be properly configured with Google Sheets credentials.").
Proof.
  intros Hoff.
  assert (Hread : forall n, readSheet acc n = []).
  { intros n. unfold readSheet. now rewrite Hoff. }
  repeat split.
  - unfold getStudentTests, findInMaster, findStudentInMaster, findStudentById.
    rewrite Hread. destruct sch as [sc|]; [| reflexivity].
    cbn [truthy_opt]. now destruct (truthy sc).
  - unfold getTestDetails, findStudentInTestSheet. now rewrite Hread.
  - unfold enrichTestSheet. now rewrite Hread.
  - unfold buildStudentLookupMap. now rewrite Hread.
  - unfold getStudentsBySchool. now rewrite Hread.
  - unfold getSchoolStats. now rewrite Hoff.
Qed.

(** [offline_answers] for the README sheets behind a missing client. *)
Lemma offline_answers_readme :
  getStudentTests (offline [("Mapping", readmeMapping)]) "STU001" (Some "SCHOOL001")
  = inr {| error := Some "Student not found or school ID mismatch";
           student := None;
           tests := [] |}.
Proof.
  exact (proj1 (offline_answers (offline [("Mapping", readmeMapping)])
                  "STU001" "T1" "SCHOOL001" (Some "SCHOOL001") eq_refl)).
Defined.

(** X8: [getSchoolStats] refuses in this order: no client ("Google Sheets
    API not initialized"), no school id ("School ID is required"), no
    student of the school, sheet names that cannot be listed ("Failed to
    fetch sheet names: " followed by the message); it answers statistics
    exactly when none of the four applies. *)
Theorem getSchoolStats_outcomes (acc : Accessor) (sch : string) :
  (acc_ready acc = false ->
     getSchoolStats acc sch
     = StatsError "Google Sheets API not initialized"
         (Some "The server may not be properly configured with Google Sheets credentials."))
  /\ (acc_ready acc = true -> sch = "" ->
        getSchoolStats acc sch = StatsError "School ID is required" None)
  /\ (forall msg,
        acc_ready acc = true -> sch <> "" -> getStudentsBySchool acc sch <> [] ->
        getSheetNames acc = inl msg ->
        getSchoolStats acc sch
        = StatsError ("Failed to fetch sheet names: " ++ msg)
            (Some "This could be due to permission issues or the spreadsheet not being accessible."))
  /\ ((exists school total x y stats, getSchoolStats acc sch = Stats school total x y stats)
      <-> acc_ready acc = true
          /\ sch <> ""
          /\ getStudentsBySchool acc sch <> []
          /\ exists names, getSheetNames acc = inr names).
Proof.
  unfold getSchoolStats. split; [now intros -> |]. split; [now intros -> -> |]. split.
  - intros msg -> Hs Hst Hn. apply truthy_true in Hs. rewrite Hs, Hn. simpl.
    now destruct (getStudentsBySchool acc sch).
  - split.
    + intros (school & total & x & y & stats & H).
      destruct (acc_ready acc); [| discriminate]. simpl in H.
      destruct (truthy sch) eqn:Hs; [| discriminate]. simpl in H.
      destruct (getStudentsBySchool acc sch) as [|s0 ss]; [discriminate |].
      destruct (getSheetNames acc) as [msg|names]; [discriminate |].
      repeat split; [now apply truthy_true | discriminate | now exists names].
    + intros (-> & Hs & Hst & names & ->). apply truthy_true in Hs. rewrite Hs. simpl.
      destruct (getStudentsBySchool acc sch) as [|s0 ss]; [contradiction |].
      now do 5 eexists.
Qed.

Lemma testName_testStatOf (acc : Accessor) (students : list Student) (ro : Roster)
    (sheet : string) (t : TestStat) :
  testStatOf acc students ro sheet = Some t ->
  testName t = sheet /\ totalStudents t = length students /\ processable acc sheet = true.
Proof.
  unfold testStatOf, tallyOf, processable.
  destruct (readSheet acc sheet) as [|header data]; [discriminate |].
  destruct (testIdColumn header); [| discriminate].
  intros [= <-]. repeat split.
Qed.

Lemma testStatOf_None (acc : Accessor) (students : list Student) (ro : Roster)
    (sheet : string) :
  testStatOf acc students ro sheet = None -> processable acc sheet = false.
Proof.
  unfold testStatOf, tallyOf, processable.
  destruct (readSheet acc sheet) as [|header data]; [reflexivity |].
  destruct (testIdColumn header); [discriminate | reflexivity].
Qed.

(** X9: the per-test statistics of [getSchoolStats] follow the order of the
    sheet list: one statistic, named after its sheet, for each sheet that
    is not named "mapping" or "config", has at least one row and has a
    learner-details or student column; the other sheets are skipped. Each
    statistic repeats the number of students of the school. *)
Theorem testStats_follow_sheet_order (acc : Accessor) (sch school : string) (total : nat)
    (x y : num) (stats : list TestStat) (names : list string) :
  getSchoolStats acc sch = Stats school total x y stats ->
  getSheetNames acc = inr names ->
  List.map testName stats
  = List.filter (fun n => isTestSheet n && processable acc n) names
  /\ Forall (fun t => totalStudents t = total) stats.
Proof.
  unfold getSchoolStats. intros H Hn. rewrite Hn in H.
  destruct (negb (acc_ready acc)); [discriminate |].
  destruct (negb (truthy sch)); [discriminate |].
  destruct (getStudentsBySchool acc sch) as [|s0 ss]; [discriminate |].
  injection H as _ <- _ _ <-.
  set (students := s0 :: ss). set (ro := rosterOf acc sch). clear Hn.
  induction names as [|n names IH]; [split; constructor |].
  destruct IH as (IH1 & IH2). cbn [List.filter].
  destruct (isTestSheet n); [| now split]. cbn [andb].
  change (omap (testStatOf acc students ro) (n :: List.filter isTestSheet names))
    with (match testStatOf acc students ro n with
          | Some t => t :: omap (testStatOf acc students ro) (List.filter isTestSheet names)
          | None => omap (testStatOf acc students ro) (List.filter isTestSheet names)
          end).
  destruct (testStatOf acc students ro n) as [t|] eqn:Ht.
  - destruct (testName_testStatOf _ _ _ _ _ Ht) as (H1 & H2 & ->).
    cbn [List.map]. rewrite H1, IH1. split; [reflexivity |].
    constructor; assumption.
  - rewrite (testStatOf_None _ _ _ _ Ht). now split.
Qed.

(** [testStats_follow_sheet_order] on the README sheets. *)
Lemma testStats_order_readme :
  exists school total x y stats,
    getSchoolStats aptitudeBook "SCHOOL001" = Stats school total x y stats
    /\ List.map testName stats = ["Aptitude Test"].
Proof.
  do 5 eexists. split; [vm_compute; reflexivity |].
  exact (proj1 (testStats_follow_sheet_order aptitudeBook "SCHOOL001" _ _ _ _ _
                  ["Mapping"; "Aptitude Test"] eq_refl eq_refl)).
Defined.

End Outcomes.


(** ** The leaderboard and the counts of a test sheet *)

Module Leaderboard.

Import JsString JsNum Sheets StringFacts ListFacts NumFacts Tallying Vocabulary Workbooks.

(** The statistic of a sheet, with the sheet it was computed from. *)
Lemma stat_of_named_sheet (acc : Accessor) (sch school : string) (total : nat)
    (x y : num) (stats : list TestStat) (t : TestStat) :
  getSchoolStats acc sch = Stats school total x y stats ->
  In t stats ->
  exists header data col,
    readSheet acc (testName t) = header :: data
    /\ testIdColumn header = Some col
    /\ t = testStatOfTally (getStudentsBySchool acc sch) (testName t)
             (tallySheet (rosterOf acc sch) (rosterIds acc sch) col header data).
Proof.
  intros Hstats Hin.
  destruct (Aggregator.getSchoolStats_inv _ _ _ _ _ _ _ Hstats) as (_ & _ & _ & Hall).
  rewrite List.Forall_forall in Hall.
  destruct (Hall t Hin) as (sheet & header & data & col & Hread & Hcol & Ht).
  assert (Hn : testName t = sheet) by now rewrite Ht.
  rewrite Hn. now exists header, data, col.
Qed.

(** X10: in every per-test statistic of [getSchoolStats], the leaderboard
    is no longer than the number of rows counted as attended, which is no
    more than the number of data rows of the test sheet; the leaderboard
    has 5 entries as soon as 5 rows score above 0, and one entry per such
    row otherwise. *)
Theorem counts_are_nested (acc : Accessor) (sch school : string) (total : nat)
    (x y : num) (stats : list TestStat) (t : TestStat) :
  getSchoolStats acc sch = Stats school total x y stats ->
  In t stats ->
  exists header data col,
    readSheet acc (testName t) = header :: data
    /\ testIdColumn header = Some col
    /\ length (topPerformers t) <= attendedCount t
    /\ attendedCount t <= length data
    /\ attendedCount t
       = length (List.filter (rowMatched (rosterOf acc sch) (rosterIds acc sch) col) data)
    /\ length (topPerformers t)
       = Nat.min 5 (length (scoringRows acc sch col header data)).
Proof.
  intros Hstats Hin.
  destruct (stat_of_named_sheet _ _ _ _ _ _ _ _ Hstats Hin)
    as (header & data & col & Hread & Hcol & Ht).
  exists header, data, col. split; [exact Hread |]. split; [exact Hcol |].
  rewrite Ht. unfold testStatOfTally. cbn [topPerformers attendedCount].
  rewrite tallySheet_spec. cbn [tallyAttended studentScores].
  rewrite List.length_map, SortPerm.length_slice0_min, SortFacts.length_sort_by,
    List.length_map.
  fold (scoringRows acc sch col header data).
  assert (Hle : length (scoringRows acc sch col header data)
                <= length (List.filter (rowMatched (rosterOf acc sch) (rosterIds acc sch) col)
                             data)).
  { apply SortPerm.filter_length_le. intros r Hr. unfold rowScores in Hr.
    now apply andb_true_iff in Hr as (Hr & _). }
  repeat split; try lia. apply List.filter_length_le.
Qed.

(** [counts_are_nested] on the README sheets. *)
Lemma counts_are_nested_readme :
  exists school total x y t header data col,
    getSchoolStats aptitudeBook "SCHOOL001" = Stats school total x y [t]
    /\ readSheet aptitudeBook (testName t) = header :: data
    /\ testIdColumn header = Some col
    /\ length (topPerformers t) <= attendedCount t
    /\ attendedCount t <= length data.
Proof.
  do 5 eexists.
  destruct (counts_are_nested aptitudeBook "SCHOOL001" _ _ _ _ _ _ eq_refl
              (or_introl eq_refl))
    as (header & data & col & H1 & H2 & H3 & H4 & _).
  exists header, data, col. split; [vm_compute; reflexivity |].
  repeat split; assumption.
Defined.

(** X11: the leaderboard holds the highest scores of the sheet: the scores
    of the rows that score above 0 are the listed scores together with some
    unlisted ones, and no unlisted score is above a listed one. *)
Theorem topPerformers_are_highest (acc : Accessor) (sch school : string) (total : nat)
    (x y : num) (stats : list TestStat) (t : TestStat) :
  getSchoolStats acc sch = Stats school total x y stats ->
  In t stats ->
  exists header data col unlisted,
    readSheet acc (testName t) = header :: data
    /\ testIdColumn header = Some col
    /\ Permutation
         (List.map (rowScore (scoreIndices header)) (scoringRows acc sch col header data))
         (List.map score (topPerformers t) ++ unlisted)%list
    /\ (forall a b, In a (List.map score (topPerformers t)) -> In b unlisted ->
                    geb a b = true)
    /\ (length (scoringRows acc sch col header data) <= 5 -> unlisted = []).
Proof.
  intros Hstats Hin.
  destruct (stat_of_named_sheet _ _ _ _ _ _ _ _ Hstats Hin)
    as (header & data & col & Hread & Hcol & Ht).
  set (ro := rosterOf acc sch) in *. set (ids := rosterIds acc sch) in *.
  set (idx := scoreIndices header).
  set (entries := List.map (rowEntry ro ids col idx) (scoringRows acc sch col header data)).
  set (sorted := JsArray.sort_by byScoreDesc entries).
  assert (Htop : List.map score (topPerformers t)
                 = List.map score (JsArray.slice0 5 sorted)).
  { rewrite Ht. unfold testStatOfTally. cbn [topPerformers].
    rewrite tallySheet_spec. cbn [studentScores]. rewrite List.map_map.
    reflexivity. }
  assert (Hsorted : StronglySorted (fun a b => geb (score a) (score b) = true) sorted).
  { apply leaderboard_sorted. apply positive_rowEntry. }
  exists header, data, col, (List.map score (skipn 5 sorted)).
  split; [exact Hread |]. split; [exact Hcol |]. rewrite Htop. fold idx.
  split; [| split].
  - rewrite <- List.map_app, <- SortPerm.slice0_skipn.
    replace (List.map (rowScore idx) (scoringRows acc sch col header data))
      with (List.map score entries)
      by (unfold entries; rewrite List.map_map; reflexivity).
    apply Permutation_map, SortPerm.sort_by_perm.
  - intros a b Ha Hb.
    apply List.in_map_iff in Ha as (ea & <- & Ha).
    apply List.in_map_iff in Hb as (eb & <- & Hb).
    rewrite (SortPerm.slice0_skipn 5 sorted) in Hsorted.
    exact (SortPerm.sorted_app_cross _ _ _ Hsorted ea eb Ha Hb).
  - intros Hlen. rewrite List.skipn_all2; [reflexivity |].
    unfold sorted, entries. rewrite SortFacts.length_sort_by, List.length_map. exact Hlen.
Qed.

(** [topPerformers_are_highest] on the README sheets. *)
Lemma topPerformers_are_highest_readme :
  exists school total x y t,
    getSchoolStats aptitudeBook "SCHOOL001" = Stats school total x y [t]
    /\ exists unlisted,
         Permutation [Fin (185 # 1); Fin (172 # 1)]
           (List.map score (topPerformers t) ++ unlisted)%list.
Proof.
  do 5 eexists. split; [vm_compute; reflexivity |].
  destruct (topPerformers_are_highest aptitudeBook "SCHOOL001" _ _ _ _ _ _ eq_refl
              (or_introl eq_refl))
    as (header & data & col & unlisted & H1 & H2 & H3 & _).
  exists unlisted.
  injection H1 as <- <-. injection H2 as <-. exact H3.
Defined.

End Leaderboard.

(** ** The ids on the leaderboard *)

Module LeaderboardIds.

Import JsString JsNum Sheets StringFacts ListFacts NumFacts Tallying TrimFacts.
Import Vocabulary Workbooks.

(** The id of an entry pushed for a matched row is a text, never
    [undefined]; it is not empty when the roster ids are not. *)
Lemma rowEntry_id (ro : Roster) (ids : list string) (col : nat + nat)
    (indices : list nat) (r : row) :
  rowMatched ro ids col r = true ->
  exists id, scoreStudentId (rowEntry ro ids col indices r) = Some id
             /\ (Forall (fun i => i <> "") ids -> id <> "").
Proof.
  unfold rowMatched, rowEntry, rowMembership. destruct col as [li|si].
  - cbn [fst snd scoreStudentId].
    destruct (extractUsernameFromLearnerDetails _) as [u|]; [| discriminate].
    cbn [truthy_opt]. intros H. apply andb_true_iff in H as (Hu & _).
    exists u. unfold or_opt. cbn [truthy_opt]. rewrite Hu.
    split; [reflexivity | intros _; now apply truthy_true].
  - destruct (cell_trim r si) as [rid|]; cbn [negb andb truthy_opt default].
    2: { intros H. cbn in H. discriminate H. }
    destruct (JsArray.includes ids rid) eqn:Hinc; cbn [negb andb].
    + cbn [fst snd scoreStudentId]. intros _. exists rid. split; [reflexivity |].
      intros Hids. unfold JsArray.includes in Hinc.
      apply List.existsb_exists in Hinc as (z & Hz & Heq).
      apply String.eqb_eq in Heq. subst z.
      rewrite List.Forall_forall in Hids. now apply Hids.
    + destruct (truthy rid).
      2: { intros H. cbn in H. discriminate H. }
      destruct (studentNameToUserName ro !! _) as [u|].
      2: { intros H. cbn in H. discriminate H. }
      destruct (truthy u && hasUserName ro u) eqn:Hu.
      2: { intros H. cbn in H. discriminate H. }
      cbn [fst snd scoreStudentId]. intros _. exists u.
      apply andb_true_iff in Hu as (Hu & _). unfold or_opt. cbn [truthy_opt].
      rewrite Hu. split; [reflexivity | intros _; now apply truthy_true].
Qed.

(** Every entry of the list of scores of a sheet has an id. *)
Lemma tallyRow_ids (ro : Roster) (ids : list string) (col : nat + nat)
    (header : row) (data : list row) :
  Forall (fun e => exists id, scoreStudentId e = Some id
                              /\ (Forall (fun i => i <> "") ids -> id <> ""))
    (studentScores (tallySheet ro ids col header data)).
Proof.
  rewrite tallySheet_spec. cbn [studentScores].
  apply List.Forall_forall. intros e He.
  apply List.in_map_iff in He as (r & <- & Hr).
  apply List.filter_In in Hr as (_ & Hr). unfold rowScores in Hr.
  apply andb_true_iff in Hr as (Hr & _). now apply rowEntry_id.
Qed.

Lemma rosterIds_not_empty (acc : Accessor) (sch : string) :
  Forall (fun i => i <> "") (rosterIds acc sch).
Proof.
  unfold rosterIds.
  destruct (readSheet acc "Mapping") as [|header data] eqn:Hread.
  { unfold getStudentsBySchool. rewrite Hread. constructor. }
  destruct (masterColumns header) as [[si ti]|] eqn:Hcols.
  2: { unfold getStudentsBySchool. rewrite Hread, Hcols. constructor. }
  rewrite (SchoolRoster.getStudentsBySchool_closed acc sch header data si ti Hread Hcols).
  clear Hread. induction data as [|r data IH]; simpl; [constructor |].
  destruct (rowOfSchool si ti (toUpperCase (trim sch)) r) eqn:E; [| exact IH].
  destruct (SchoolRoster.rowOfSchool_studentOfRow _ _ _ _ E) as (c & Hc & Hne & Hst).
  simpl. rewrite Hst. simpl. constructor; assumption.
Qed.

(** X12: every entry of a leaderboard of [getSchoolStats] carries a student
    id that is a non-empty text: the id pushed for a row is never
    [undefined], so resolving it against the roster cannot throw. *)
Theorem topPerformers_have_ids (acc : Accessor) (sch school : string) (total : nat)
    (x y : num) (stats : list TestStat) (t : TestStat) :
  getSchoolStats acc sch = Stats school total x y stats ->
  In t stats ->
  Forall (fun e => exists id, scoreStudentId e = Some id /\ id <> "") (topPerformers t).
Proof.
  intros Hstats Hin.
  destruct (Leaderboard.stat_of_named_sheet _ _ _ _ _ _ _ _ Hstats Hin)
    as (header & data & col & _ & _ & ->).
  unfold testStatOfTally. cbn [topPerformers].
  apply List.Forall_forall. intros e He.
  apply List.in_map_iff in He as (s & <- & Hs).
  apply SortFacts.In_slice0, SortFacts.In_sort_by in Hs.
  pose proof (tallyRow_ids (rosterOf acc sch) (rosterIds acc sch) col header data) as Hids.
  rewrite List.Forall_forall in Hids.
  destruct (Hids s Hs) as (id & Hid & Hne).
  specialize (Hne (rosterIds_not_empty acc sch)).
  unfold resolveEntry. cbn [scoreStudentId]. rewrite Hid.
  destruct (List.find _ _) as [st|]; [| now exists id].
  destruct (truthy (studentId st)) eqn:E; [| now exists id].
  exists (studentId st). split; [reflexivity | now apply truthy_true].
Qed.

(** [topPerformers_have_ids] on the README sheets. *)
Lemma topPerformers_have_ids_readme :
  exists school total x y t,
    getSchoolStats aptitudeBook "SCHOOL001" = Stats school total x y [t]
    /\ Forall (fun e => exists id, scoreStudentId e = Some id /\ id <> "")
         (topPerformers t).
Proof.
  do 5 eexists. split; [vm_compute; reflexivity |].
  exact (topPerformers_have_ids aptitudeBook "SCHOOL001" _ _ _ _ _ _ eq_refl
           (or_introl eq_refl)).
Defined.

End LeaderboardIds.

(** ** Sheets without score columns, mapping sheets without roster columns *)

Module Degraded.

Import JsString JsNum Sheets StringFacts ListFacts NumFacts Tallying Vocabulary Workbooks.

Lemma scoreIndices_none (header : row) :
  Forall (fun h => ~ hasScoreKeyword h) header -> scoreIndices header = [].
Proof.
  intros Hno. destruct (scoreIndices header) as [|i l] eqn:E; [reflexivity |].
  assert (Hin : In i (scoreIndices header)) by (rewrite E; now left).
  apply RowScore.scoreIndices_spec in Hin as (h & Hh & Hk).
  rewrite List.Forall_forall in Hno. exfalso. apply (Hno h); [| exact Hk].
  apply list_elem_of_In. now apply list_elem_of_lookup_2 with i.
Qed.

(** X13: a test sheet none of whose headers contains "score", "mark" or
    "total" still counts attendance, but every row scores 0: its statistic
    has an empty leaderboard and an average score of 0. *)
Theorem no_score_column (acc : Accessor) (sch school : string) (total : nat)
    (x y : num) (stats : list TestStat) (t : TestStat) (header : row) (data : list row) :
  getSchoolStats acc sch = Stats school total x y stats ->
  In t stats ->
  readSheet acc (testName t) = header :: data ->
  Forall (fun h => ~ hasScoreKeyword h) header ->
  topPerformers t = []
  /\ (exists q, avgScore t = Fin q /\ (q == 0)%Q)
  /\ exists col,
       testIdColumn header = Some col
       /\ attendedCount t
          = length (List.filter (rowMatched (rosterOf acc sch) (rosterIds acc sch) col) data).
Proof.
  intros Hstats Hin Hread Hno.
  destruct (Leaderboard.stat_of_named_sheet _ _ _ _ _ _ _ _ Hstats Hin)
    as (header' & data' & col & Hread' & Hcol & Ht).
  rewrite Hread in Hread'. injection Hread' as <- <-.
  assert (Hnone : List.filter
                    (rowScores (rosterOf acc sch) (rosterIds acc sch) col (scoreIndices header))
                    data = []).
  { apply SortPerm.filter_none. intros r. unfold rowScores.
    rewrite (scoreIndices_none header Hno). cbn [rowScore].
    now rewrite andb_false_r. }
  rewrite Ht. unfold testStatOfTally. cbn [topPerformers avgScore attendedCount].
  rewrite tallySheet_spec. cbn [studentScores scoreCount totalScore tallyAttended].
  rewrite Hnone. cbn. split; [reflexivity |]. split.
  - eexists. split; reflexivity.
  - exists col. now split.
Qed.

(** [no_score_column] on a sheet with the columns Student ID and Grade. *)
Lemma no_score_column_example :
  exists school total x y t,
    getSchoolStats scorelessBook "SCHOOL001" = Stats school total x y [t]
    /\ attendedCount t = 1
    /\ topPerformers t = []
    /\ exists q, avgScore t = Fin q /\ (q == 0)%Q.
Proof.
  do 5 eexists. split; [vm_compute; reflexivity |]. split; [reflexivity |].
  destruct (no_score_column scorelessBook "SCHOOL001" _ _ _ _ _ _
              ["Student ID"; "Grade"] [ ["STU001"; "85"] ] eq_refl (or_introl eq_refl) eq_refl)
    as (H1 & H2 & _).
  - repeat constructor; intros [H | [H | H]]; apply includes_spec in H; discriminate.
  - split; assumption.
Defined.

Lemma rosterOf_empty (acc : Accessor) (sch : string) (mheader : row) (mdata : list row) :
  readSheet acc "Mapping" = mheader :: mdata ->
  Forall (fun h => isUserName h = false) mheader
  \/ Forall (fun h => isStudentName h = false) mheader
  \/ Forall (fun h => isOpengradSchoolCode h = false) mheader ->
  rosterOf acc sch = emptyRoster.
Proof.
  intros Hread Hmiss. unfold rosterOf. rewrite Hread.
  destruct Hmiss as [H | [H | H]]; apply findIndex_None in H; rewrite H.
  - reflexivity.
  - now destruct (JsArray.findIndex isUserName mheader).
  - now destruct (JsArray.findIndex isUserName mheader),
                 (JsArray.findIndex isStudentName mheader).
Qed.

(** X14: the user names of a school are collected only when the mapping
    sheet has a user-name column, a student-name column and an OpenGrad
    school-code column. When one of the three is missing, no row of a test
    sheet that identifies students by learner details is counted:
    attendance is 0 and the leaderboard is empty, whoever sat the test. *)
Theorem learner_details_need_roster_columns (acc : Accessor) (sch school : string)
    (total : nat) (x y : num) (stats : list TestStat) (t : TestStat)
    (mheader header : row) (mdata data : list row) :
  getSchoolStats acc sch = Stats school total x y stats ->
  In t stats ->
  readSheet acc "Mapping" = mheader :: mdata ->
  Forall (fun h => isUserName h = false) mheader
  \/ Forall (fun h => isStudentName h = false) mheader
  \/ Forall (fun h => isOpengradSchoolCode h = false) mheader ->
  readSheet acc (testName t) = header :: data ->
  Exists (fun h => isLearnerDetails h = true) header ->
  attendedCount t = 0 /\ topPerformers t = [].
Proof.
  intros Hstats Hin Hm Hmiss Hread Hld.
  destruct (Leaderboard.stat_of_named_sheet _ _ _ _ _ _ _ _ Hstats Hin)
    as (header' & data' & col & Hread' & Hcol & Ht).
  rewrite Hread in Hread'. injection Hread' as <- <-.
  rewrite (rosterOf_empty acc sch mheader mdata Hm Hmiss) in Ht.
  assert (Hli : exists li, col = inl li).
  { unfold testIdColumn in Hcol.
    destruct (JsArray.findIndex isLearnerDetails header) as [li|] eqn:E.
    - injection Hcol as <-. now exists li.
    - apply findIndex_None in E. apply List.Exists_exists in Hld as (h & Hh & Hp).
      rewrite List.Forall_forall in E. specialize (E h Hh). congruence. }
  destruct Hli as (li & ->).
  assert (Hnone : forall r, rowMatched emptyRoster (rosterIds acc sch) (inl li) r = false).
  { intros r. unfold rowMatched, rowMembership. cbn [fst].
    unfold hasUserName. cbn [studentUserNames emptyRoster].
    rewrite bool_decide_eq_false_2 by apply not_elem_of_empty.
    apply andb_false_r. }
  rewrite Ht. unfold testStatOfTally. cbn [topPerformers attendedCount].
  rewrite tallySheet_spec. cbn [studentScores tallyAttended].
  rewrite (SortPerm.filter_none _ data Hnone).
  rewrite (SortPerm.filter_none (rowScores _ _ _ _) data).
  - split; reflexivity.
  - intros r. unfold rowScores. now rewrite Hnone.
Qed.

(** [learner_details_need_roster_columns] on the README mapping sheet, which
    has none of the three columns: the student who sat the test is not
    counted. *)
Lemma learner_details_example :
  exists school total x y t,
    getSchoolStats learnerBook "SCHOOL001" = Stats school total x y [t]
    /\ total = 2
    /\ attendedCount t = 0
    /\ topPerformers t = [].
Proof.
  do 5 eexists. split; [vm_compute; reflexivity |]. split; [reflexivity |].
  apply (learner_details_need_roster_columns learnerBook "SCHOOL001" _ _ _ _ _ _
           ["School ID"; "Student ID"] ["Learner Details"; "Score"]
           (tail readmeMapping) [ ["STU001@x.com"; "85"] ]
           eq_refl (or_introl eq_refl) eq_refl).
  - left. repeat constructor.
  - reflexivity.
  - left. reflexivity.
Defined.

End Degraded.

(** ** The overall statistics of a school *)

Module Overall.

Import JsString JsNum Sheets StringFacts ListFacts NumFacts Tallying Vocabulary Workbooks.

Lemma add_nonneg (a b : num) : nonneg_num a -> nonneg_num b -> nonneg_num (add a b).
Proof.
  intros [-> | (p & -> & Hp)] [-> | (q & -> & Hq)]; simpl; try (now left).
  right. eexists. split; [reflexivity | lra].
Qed.

Lemma sum_of_nonneg (f : TestStat -> num) (stats : list TestStat) (a : num) :
  nonneg_num a -> Forall (fun t => nonneg_num (f t)) stats ->
  nonneg_num (fold_left (fun sum t => add sum (f t)) stats a).
Proof.
  revert a. induction stats as [|t stats IH]; intros a Ha Hall; simpl; [exact Ha |].
  inversion Hall; subst. apply IH; [now apply add_nonneg | assumption].
Qed.

Lemma or_else_nonneg (a : num) : a = NaN \/ nonneg_num a -> nonneg_num (or_else a zero).
Proof.
  assert (Hz : nonneg_num zero) by (right; exists 0%Q; split; [reflexivity | lra]).
  unfold or_else. intros [-> | Ha]; [exact Hz |].
  destruct (truthy_num a); [exact Ha | exact Hz].
Qed.

Lemma mean_nonneg (f : TestStat -> num) (stats : list TestStat) :
  Forall (fun t => nonneg_num (f t)) stats -> nonneg_num (meanOf f stats).
Proof.
  intros Hall. unfold meanOf. apply or_else_nonneg.
  destruct stats as [|t stats]; [left; reflexivity |]. right.
  apply Aggregator.div_nonneg; [simpl; lia |].
  apply sum_of_nonneg; [| exact Hall].
  right. exists 0%Q. split; [reflexivity | lra].
Qed.

(** The sum of finite values between 0 and [hi]. *)
Lemma sum_bounded (f : TestStat -> num) (hi : Q) (stats : list TestStat) (s0 : Q) :
  Forall (fun t => exists q, f t = Fin q /\ (0 <= q)%Q /\ (q <= hi)%Q) stats ->
  exists s,
    fold_left (fun sum t => add sum (f t)) stats (Fin s0) = Fin s
    /\ (s0 <= s)%Q
    /\ (s <= s0 + inject_Z (Z.of_nat (length stats)) * hi)%Q.
Proof.
  revert s0. induction stats as [|t stats IH]; intros s0 Hall.
  - exists s0. cbn [fold_left length]. split; [reflexivity |]. split; [lra |].
    change (inject_Z (Z.of_nat 0)) with 0%Q. lra.
  - inversion Hall as [|? ? (q & Hq & H0 & Hhi) Hrest]; subst.
    cbn [fold_left]. rewrite Hq. cbn [add].
    destruct (IH (s0 + q)%Q Hrest) as (s & Hs & Hlo & Hup).
    exists s. split; [exact Hs |]. split; [lra |].
    replace (Z.of_nat (length (t :: stats))) with (Z.of_nat (length stats) + 1)%Z
      by (simpl length; lia).
    rewrite inject_Z_plus. change (inject_Z 1) with 1%Q. nra.
Qed.

Lemma mean_bounded (f : TestStat -> num) (hi : Q) (stats : list TestStat) :
  (0 <= hi)%Q ->
  Forall (fun t => exists q, f t = Fin q /\ (0 <= q)%Q /\ (q <= hi)%Q) stats ->
  exists m, meanOf f stats = Fin m /\ (0 <= m)%Q /\ (m <= hi)%Q.
Proof.
  intros Hhi Hall. unfold meanOf.
  destruct stats as [|t stats].
  - exists 0%Q. split; [reflexivity | lra].
  - destruct (sum_bounded f hi (t :: stats) 0 Hall) as (s & Hs & Hlo & Hup).
    change (Fin 0) with zero in Hs. rewrite Hs.
    rewrite div_of_nat by (simpl; lia).
    set (n := inject_Z (Z.of_nat (length (t :: stats)))) in *.
    assert (Hn : (0 < n)%Q).
    { unfold n. change 0%Q with (inject_Z 0). rewrite <- Zlt_Qlt. simpl length. lia. }
    assert (Hm0 : (0 <= s / n)%Q).
    { apply Qle_shift_div_l; [exact Hn | lra]. }
    assert (Hm1 : (s / n <= hi)%Q).
    { apply Qle_shift_div_r; [exact Hn | lra]. }
    unfold or_else. cbn [truthy_num].
    destruct (Qeq_bool (s / n) 0) eqn:E; cbn [negb].
    + exists 0%Q. split; [reflexivity | lra].
    + exists (s / n)%Q. repeat split; assumption.
Qed.

Lemma avgScore_nonneg (students : list Student) (n : string) (ro : Roster)
    (ids : list string) (col : nat + nat) (header : row) (data : list row) :
  nonneg_num (avgScore (testStatOfTally students n (tallySheet ro ids col header data))).
Proof.
  unfold testStatOfTally. cbn [avgScore]. apply Aggregator.round2_nonneg.
  rewrite tallySheet_spec. cbn [scoreCount totalScore].
  destruct (Nat.ltb 0 _) eqn:E.
  - apply Nat.ltb_lt in E. apply Aggregator.div_nonneg; [exact E |].
    apply Aggregator.sum_nonneg.
    + right. exists 0%Q. split; [reflexivity | lra].
    + apply List.Forall_forall. intros r Hr. apply List.filter_In in Hr as (_ & Hr).
      unfold rowScores in Hr. now apply andb_true_iff in Hr as (_ & Hr).
  - right. exists 0%Q. split; [reflexivity | lra].
Qed.

(** X15: the overall statistics of [getSchoolStats] are never below 0: the
    average attendance is a finite number at least 0, and at most 100 when
    in every test the rows counted as attended do not outnumber the
    students; the average score is at least 0; both are 0 when no test
    sheet was processed. *)
Theorem overall_stats_bounds (acc : Accessor) (sch school : string) (total : nat)
    (x y : num) (stats : list TestStat) :
  getSchoolStats acc sch = Stats school total x y stats ->
  (exists q, x = Fin q /\ (0 <= q)%Q
             /\ (Forall (fun t => attendedCount t <= totalStudents t) stats ->
                 (q <= 100)%Q))
  /\ geb y zero = true
  /\ (stats = [] ->
      (exists q, x = Fin q /\ (q == 0)%Q) /\ (exists q, y = Fin q /\ (q == 0)%Q)).
Proof.
  intros Hstats.
  destruct (Aggregator.getSchoolStats_inv _ _ _ _ _ _ _ Hstats) as (_ & _ & Hpos & Hall).
  assert (Hx : x = round2 (meanOf attendancePercent stats)
               /\ y = round2 (meanOf avgScore stats)).
  { revert Hstats. unfold getSchoolStats.
    destruct (negb (acc_ready acc)); [discriminate |].
    destruct (negb (truthy sch)); [discriminate |].
    destruct (getStudentsBySchool acc sch); [discriminate |].
    destruct (getSheetNames acc); [discriminate |].
    intros [= _ _ <- <- <-]. split; reflexivity. }
  destruct Hx as (-> & ->).
  assert (Hpct : forall hi : Q,
             (0 <= hi)%Q ->
             Forall (fun t => exists q, attendancePercent t = Fin q /\ (0 <= q)%Q
                                        /\ (q <= hi)%Q) stats ->
             exists m, meanOf attendancePercent stats = Fin m /\ (0 <= m)%Q /\ (m <= hi)%Q).
  { intros hi Hhi. now apply mean_bounded. }
  split; [| split].
  - assert (Hfin : exists m, meanOf attendancePercent stats = Fin m /\ (0 <= m)%Q
                             /\ (Forall (fun t => attendedCount t <= totalStudents t) stats
                                 -> (m <= 100)%Q)).
    { assert (Hone : Forall (fun t => exists q, attendancePercent t = Fin q /\ (0 <= q)%Q
                                       /\ (attendedCount t <= totalStudents t -> (q <= 100)%Q))
                       stats).
      { eapply List.Forall_impl; [| exact Hall].
        intros t (sheet & header & data & col & _ & _ & ->).
        unfold testStatOfTally. cbn [attendancePercent attendedCount totalStudents].
        destruct (Aggregator.percent_bounds
                    (tallyAttended (tallySheet (rosterOf acc sch) (rosterIds acc sch)
                                      col header data))
                    (length (getStudentsBySchool acc sch)) Hpos)
          as (q & Hq & H0 & H100 & _).
        now exists q. }
      clear Hall Hpct Hstats.
      assert (Hmax : exists hi, (100 <= hi)%Q
                /\ Forall (fun t => exists q, attendancePercent t = Fin q /\ (0 <= q)%Q
                                            /\ (q <= hi)%Q) stats).
      { induction stats as [|t stats IH]; [exists 100%Q; split; [lra | constructor] |].
        inversion Hone as [|? ? (q & Hq & H0 & _) Hrest]; subst.
        destruct (IH Hrest) as (hi & Hhi & Hb).
        exists (hi + q)%Q. split; [lra |]. constructor.
        - exists q. repeat split; [assumption | assumption | lra].
        - eapply List.Forall_impl; [| exact Hb].
          intros t' (q' & Hq' & H0' & Hhi'). exists q'. repeat split; try assumption. lra. }
      destruct Hmax as (hi & Hhi & Hb).
      destruct (mean_bounded attendancePercent hi stats ltac:(lra) Hb) as (m & Hm & Hm0 & _).
      exists m. split; [exact Hm |]. split; [exact Hm0 |].
      intros Hle.
      assert (Hb100 : Forall (fun t => exists q, attendancePercent t = Fin q /\ (0 <= q)%Q
                                         /\ (q <= 100)%Q) stats).
      { rewrite List.Forall_forall in *. intros t Ht.
        destruct (Hone t Ht) as (q & Hq & H0 & H100).
        exists q. repeat split; try assumption. apply H100. now apply Hle. }
      destruct (mean_bounded attendancePercent 100 stats ltac:(lra) Hb100)
        as (m' & Hm' & _ & Hm100).
      rewrite Hm in Hm'. injection Hm' as <-. exact Hm100. }
    destruct Hfin as (m & Hm & Hm0 & Hm100). rewrite Hm.
    destruct (round2_Fin m) as (q & z & Hq & _ & _ & _ & Hnn & Hub).
    exists q. split; [exact Hq |]. split; [now apply Hnn |].
    intros Hle. apply (Hub 100%Z). now apply Hm100.
  - apply Aggregator.nonneg_geb, Aggregator.round2_nonneg, mean_nonneg.
    eapply List.Forall_impl; [| exact Hall].
    intros t (sheet & header & data & col & _ & _ & ->). apply avgScore_nonneg.
  - intros ->. split; eexists; split; reflexivity.
Qed.

(** [overall_stats_bounds] on the README sheets. *)
Lemma overall_stats_readme :
  match getSchoolStats aptitudeBook "SCHOOL001" with
  | Stats _ _ x y _ => (exists q, x = Fin q /\ (0 <= q)%Q) /\ geb y zero = true
  | StatsError _ _ => False
  end.
Proof.
  destruct (getSchoolStats aptitudeBook "SCHOOL001") as [m d|school total x y stats] eqn:E.
  - vm_compute in E. discriminate E.
  - destruct (overall_stats_bounds aptitudeBook "SCHOOL001" school total x y stats E)
      as ((q & Hq & H0 & _) & Hy & _).
    split; [exists q; split; assumption | exact Hy].
Defined.

End Overall.

(** ** The order of strings and the list of known schools *)

Module KnownSchools.

Import JsString JsNum Sheets StringFacts ListFacts Vocabulary Workbooks.

Lemma nat_of_ascii_inj (a b : ascii) : nat_of_ascii a = nat_of_ascii b -> a = b.
Proof.
  intros H. rewrite <- (ascii_nat_embedding a), <- (ascii_nat_embedding b). now rewrite H.
Qed.

Lemma ltb_irrefl (a : string) : ltb a a = false.
Proof.
  induction a as [|x a IH]; cbn [ltb]; [reflexivity |].
  now rewrite Nat.ltb_irrefl.
Qed.

Lemma ltb_asym (a b : string) : ltb a b = true -> ltb b a = false.
Proof.
  revert b. induction a as [|x a IH]; intros [|y b]; cbn [ltb]; try easy.
  destruct (Nat.ltb (nat_of_ascii x) (nat_of_ascii y)) eqn:E1.
  - intros _. apply Nat.ltb_lt in E1.
    assert (E2 : Nat.ltb (nat_of_ascii y) (nat_of_ascii x) = false)
      by (apply Nat.ltb_ge; lia).
    now rewrite E2.
  - destruct (Nat.ltb (nat_of_ascii y) (nat_of_ascii x)) eqn:E2; [discriminate |].
    apply IH.
Qed.

(** Two strings neither of which is before the other are equal. *)
Lemma ltb_total (a b : string) : ltb a b = false -> ltb b a = false -> a = b.
Proof.
  revert b. induction a as [|x a IH]; intros [|y b]; cbn [ltb]; try easy.
  destruct (Nat.ltb (nat_of_ascii x) (nat_of_ascii y)) eqn:E1; [discriminate |].
  destruct (Nat.ltb (nat_of_ascii y) (nat_of_ascii x)) eqn:E2; [discriminate |].
  intros H1 H2.
  apply Nat.ltb_ge in E1, E2.
  assert (Hxy : x = y) by (apply nat_of_ascii_inj; lia).
  subst y. f_equal. now apply IH.
Qed.

(** "Not after" is transitive. *)
Lemma not_after_trans (a b c : string) :
  ltb b a = false -> ltb c b = false -> ltb c a = false.
Proof.
  revert b c. induction a as [|x a IH]; intros [|y b] [|z c]; cbn [ltb]; try easy.
  destruct (Nat.ltb (nat_of_ascii y) (nat_of_ascii x)) eqn:E1; [discriminate |].
  destruct (Nat.ltb (nat_of_ascii x) (nat_of_ascii y)) eqn:E2.
  - intros _.
    destruct (Nat.ltb (nat_of_ascii z) (nat_of_ascii y)) eqn:E3; [discriminate |].
    apply Nat.ltb_lt in E2. apply Nat.ltb_ge in E3.
    intros _.
    assert (E4 : Nat.ltb (nat_of_ascii z) (nat_of_ascii x) = false)
      by (apply Nat.ltb_ge; lia).
    assert (E5 : Nat.ltb (nat_of_ascii x) (nat_of_ascii z) = true)
      by (apply Nat.ltb_lt; lia).
    now rewrite E4, E5.
  - intros Hba.
    destruct (Nat.ltb (nat_of_ascii z) (nat_of_ascii y)) eqn:E3; [discriminate |].
    apply Nat.ltb_ge in E1, E2, E3.
    assert (Hxy : nat_of_ascii x = nat_of_ascii y) by lia.
    rewrite Hxy.
    rewrite (proj2 (Nat.ltb_ge _ _) E3).
    destruct (Nat.ltb (nat_of_ascii y) (nat_of_ascii z)) eqn:E4; [reflexivity |].
    intros Hcb. now apply (IH b c).
Qed.

Lemma set_add_NoDup (x : string) (l : list string) :
  List.NoDup l -> List.NoDup (JsArray.set_add x l).
Proof.
  intros Hl. unfold JsArray.set_add.
  destruct (JsArray.includes l x) eqn:E; [exact Hl |].
  apply List.NoDup_app; [exact Hl | constructor; [intros [] | constructor] |].
  intros y Hy [Hxy | []]. subst y. unfold JsArray.includes in E.
  assert (Ht : existsb (String.eqb x) l = true).
  { apply List.existsb_exists. exists x. split; [exact Hy | apply String.eqb_refl]. }
  congruence.
Qed.

Lemma collected_NoDup (si : nat) (rows : list row) (set : list string) :
  List.NoDup set ->
  List.NoDup
    (fold_left
       (fun (set : list string) (r : row) =>
          match r !! si with
          | Some c =>
              if truthy c then
                let id := trim c in
                if truthy id then JsArray.set_add id set else set
              else set
          | None => set
          end)
       rows set).
Proof.
  revert set. induction rows as [|r rows IH]; intros set Hset; simpl; [exact Hset |].
  apply IH. destruct (r !! si) as [c|]; [| exact Hset].
  destruct (truthy c); [| exact Hset]. cbv zeta.
  destruct (truthy (trim c)); [now apply set_add_NoDup | exact Hset].
Qed.

Lemma firstn_NoDup {A : Type} (n : nat) (l : list A) :
  List.NoDup l -> List.NoDup (JsArray.slice0 n l).
Proof.
  unfold JsArray.slice0. revert n. induction l as [|x l IH]; intros [|n] Hl; simpl;
    try constructor.
  - inversion Hl as [|? ? Hx _]; subst. intros Hin. apply Hx.
    now apply (SortFacts.In_slice0 x n l).
  - inversion Hl; subst. now apply IH.
Qed.

Lemma strictly_sorted (l : list string) :
  StronglySorted (fun a b => ltb b a = false) l -> List.NoDup l ->
  StronglySorted (fun a b => ltb a b = true) l.
Proof.
  induction 1 as [|x l Hs IH Hx]; intros Hnd; constructor.
  - inversion Hnd; subst. now apply IH.
  - inversion Hnd as [|? ? Hnotin _]; subst.
    rewrite List.Forall_forall in *. intros y Hy.
    destruct (ltb x y) eqn:E; [reflexivity |]. exfalso.
    assert (Heq : x = y) by (apply ltb_total; [exact E | now apply Hx]).
    subst y. contradiction.
Qed.

(** X16: the school identifiers listed with the "not found" answer are in
    strictly ascending order of their characters, so no identifier is
    listed twice. *)
Theorem availableSchoolIds_sorted (acc : Accessor) :
  StronglySorted (fun a b => ltb a b = true) (availableSchoolIds acc)
  /\ List.NoDup (availableSchoolIds acc).
Proof.
  assert (H : StronglySorted (fun a b => ltb b a = false) (availableSchoolIds acc)
              /\ List.NoDup (availableSchoolIds acc)).
  { unfold availableSchoolIds.
    destruct (readSheet acc "Mapping") as [|header data]; [split; constructor |].
    destruct (schoolIdIndexOf header) as [si|]; [| split; constructor].
    split.
    - apply SortFacts.firstn_sorted.
      apply (SortFacts.sort_by_sorted (fun a b => ltb b a) (fun _ => True)
               (fun a b => ltb b a = false)).
      + intros a b _ _ Hgt. now apply ltb_asym.
      + intros a b _ _ Hgt. exact Hgt.
      + intros a b c. apply not_after_trans.
      + apply List.Forall_forall. now intros.
    - apply firstn_NoDup.
      eapply Permutation_NoDup; [apply SortPerm.sort_by_perm |].
      apply collected_NoDup. constructor. }
  destruct H as (Hs & Hnd). split; [now apply strictly_sorted | exact Hnd].
Qed.

End KnownSchools.

(** ** Test details *)

Module Details.

Import JsString Sheets StringFacts ListFacts Vocabulary Workbooks.

(** Every property of the object built from a row is a text. *)
Lemma fold_rowObject_str (r : row) (ics : list (nat * string)) (m : gmap string jsval) :
  (forall k v, m !! k = Some v -> exists s, v = VStr s) ->
  forall k v,
    fold_left
      (fun (studentData : gmap string jsval) (ic : nat * string) =>
         if String.eqb (snd ic) "__proto__" then studentData
         else <[snd ic := VStr (or_default (r !! fst ic) "")]> studentData)
      ics m !! k = Some v ->
    exists s, v = VStr s.
Proof.
  revert m. induction ics as [|ic ics IH]; intros m Hm k v; simpl; [apply Hm |].
  apply IH. intros k' v'. destruct (String.eqb (snd ic) "__proto__"); [apply Hm |].
  rewrite lookup_insert.
  destruct (decide (snd ic = k')); [intros [= <-]; eauto | apply Hm].
Qed.

Lemma rowObject_str (header r : row) (k : string) (v : jsval) :
  rowObject header r !! k = Some v -> exists s, v = VStr s.
Proof.
  unfold rowObject. apply fold_rowObject_str. intros k' v'.
  rewrite lookup_empty. discriminate.
Qed.

(** The only nested object of a matched row is its enrichment. *)
Lemma studentDataOf_nested (header : row) (col : nat + nat)
    (lk : gmap string Identity) (r : row) (k : string) (e : Enriched) :
  studentDataOf header col lk r !! k = Some (VEnriched e) -> k = "_enriched".
Proof.
  unfold studentDataOf.
  assert (Hrow : rowObject header r !! k = Some (VEnriched e) -> k = "_enriched").
  { intros H. apply rowObject_str in H as (s & Hs). discriminate Hs. }
  destruct (snd (testRowKeys col r)) as [u|]; [| exact Hrow].
  destruct (truthy u); [| exact Hrow].
  destruct (lk !! u) as [m|]; [| exact Hrow].
  rewrite lookup_insert. destruct (decide ("_enriched" = k)); [now intros _ | exact Hrow].
Qed.

Lemma findStudentInTestSheet_nested (acc : Accessor) (sid tn : string)
    (lk : option (gmap string Identity)) (sd : gmap string jsval)
    (k : string) (e : Enriched) :
  findStudentInTestSheet acc sid tn lk = Some sd ->
  sd !! k = Some (VEnriched e) -> k = "_enriched".
Proof.
  unfold findStudentInTestSheet.
  destruct (readSheet acc tn) as [|header data]; [discriminate |].
  destruct (testIdColumn header) as [col|]; [| discriminate].
  destruct (List.find _ data) as [r|]; [| discriminate].
  intros [= <-]. apply studentDataOf_nested.
Qed.

Lemma enrichedField_flat (f : Enriched -> string) (v : option jsval) (e : Enriched) :
  enrichedField f v <> Some (VEnriched e).
Proof. destruct v as [[s|e']|]; discriminate. Qed.

(** X17: [getTestDetails] answers with the error "Student not found in this
    test" and no data exactly for the tests that the test list shows as
    "Absent"; for the tests shown as "Attended" it answers with the test
    name and a data object that holds no nested object, its "_enriched"
    property being absent or, when the sheet has a column of that name with
    an empty cell, the empty text. *)
Theorem getTestDetails_outcomes (acc : Accessor) (sid tn : string) :
  (getTestDetails acc sid tn
   = {| detailsError := Some "Student not found in this test";
        detailsTestName := None;
        detailsData := None |}
   /\ status (testEntryOf acc sid tn) = "Absent")
  \/ (exists d,
        getTestDetails acc sid tn
        = {| detailsError := None; detailsTestName := Some tn; detailsData := Some d |}
        /\ status (testEntryOf acc sid tn) = "Attended"
        /\ (forall k e, d !! k <> Some (Some (VEnriched e)))
        /\ (d !! "_enriched" = None \/ d !! "_enriched" = Some (Some (VStr "")))).
Proof.
  unfold getTestDetails, testEntryOf.
  destruct (findStudentInTestSheet acc sid tn None) as [sd|] eqn:Hfind;
    [right | left; split; reflexivity].
  eexists. split; [reflexivity |]. split; [reflexivity |].
  pose proof (fun k e => findStudentInTestSheet_nested acc sid tn None sd k e Hfind)
    as Hnested.
  destruct (truthy_val (sd !! "_enriched")) eqn:Ht.
  - split; [| left; apply lookup_delete_eq].
    intros k e. rewrite lookup_delete.
    destruct (decide ("_enriched" = k)) as [|Hk]; [discriminate |].
    rewrite !lookup_insert.
    repeat (destruct (decide _);
            [intros [= H]; now apply enrichedField_flat in H |]).
    rewrite lookup_fmap. destruct (sd !! k) as [v|] eqn:Hv; [| discriminate].
    intros [= ->]. apply Hnested in Hv. congruence.
  - split.
    + intros k e. rewrite lookup_fmap.
      destruct (sd !! k) as [v|] eqn:Hv; [| discriminate].
      intros [= ->]. pose proof (Hnested _ _ Hv) as ->.
      rewrite Hv in Ht. discriminate Ht.
    + destruct (sd !! "_enriched") as [[s|e]|] eqn:Hv;
        [| discriminate Ht | left; now rewrite lookup_fmap, Hv].
      right. rewrite lookup_fmap, Hv. cbn in Ht.
      destruct s; [reflexivity | discriminate Ht].
Qed.

(** X18: when the user name of the matched row is in the lookup map, the
    details carry the school name, OpenGrad school code, UDSIE code and
    EMIS id of the mapping sheet under "School Name", "OpenGrad School
    Code", "UDSIE Code" and "EMIS ID", also when the test sheet has columns
    of these names; the "_enriched" property is removed, and every other
    property is the one built from the row. *)
Theorem details_carry_mapping (acc : Accessor) (sid tn : string) (header : row)
    (data : list row) (col : nat + nat) (r : row) (u : string) (m : Identity) :
  readSheet acc tn = header :: data ->
  testIdColumn header = Some col ->
  List.find (rowMatches col sid) data = Some r ->
  snd (testRowKeys col r) = Some u ->
  truthy u = true ->
  buildStudentLookupMap acc !! u = Some m ->
  exists d,
    detailsData (getTestDetails acc sid tn) = Some d
    /\ d !! "School Name" = Some (Some (VStr (schoolName m)))
    /\ d !! "OpenGrad School Code" = Some (Some (VStr (schoolCode m)))
    /\ d !! "UDSIE Code" = Some (Some (VStr (udsieCode m)))
    /\ d !! "EMIS ID" = Some (Some (VStr (emisId m)))
    /\ d !! "_enriched" = None
    /\ (forall k, k <> "_enriched" -> ~ In k enrichmentColumns ->
          d !! k = Some <$> (rowObject header r !! k)).
Proof.
  intros Hread Hcol Hfind Hu Htu Hm.
  unfold getTestDetails, findStudentInTestSheet.
  rewrite Hread, Hcol, Hfind. unfold studentDataOf. rewrite Hu, Htu, Hm.
  cbn [detailsData]. rewrite lookup_insert_eq. cbn [truthy_val enrichedField].
  eexists. split; [reflexivity |].
  repeat split.
  - rewrite lookup_delete_ne by discriminate.
    do 3 (rewrite lookup_insert_ne by discriminate). apply lookup_insert_eq.
  - rewrite lookup_delete_ne by discriminate.
    do 2 (rewrite lookup_insert_ne by discriminate). apply lookup_insert_eq.
  - rewrite lookup_delete_ne by discriminate.
    rewrite lookup_insert_ne by discriminate. apply lookup_insert_eq.
  - rewrite lookup_delete_ne by discriminate. apply lookup_insert_eq.
  - apply lookup_delete_eq.
  - intros k Hk Hin. rewrite lookup_delete_ne by congruence.
    unfold enrichmentColumns in Hin. cbn [In] in Hin.
    do 4 (rewrite lookup_insert_ne by (intros <-; tauto)).
    rewrite lookup_fmap. now rewrite lookup_insert_ne by congruence.
Qed.

(** [details_carry_mapping] on a test sheet that has a school-name column of
    its own: the school named by the mapping sheet is the one answered. *)
Lemma details_carry_mapping_example :
  exists d,
    detailsData (getTestDetails ownSchoolNameBook "u1" "T1") = Some d
    /\ d !! "School Name" = Some (Some (VStr "Mapped School"))
    /\ rowObject ["Learner Details"; "School Name"; "Score"]
         ["u1@x.com"; "Typed School"; "10"] !! "School Name"
       = Some (VStr "Typed School").
Proof.
  destruct (details_carry_mapping ownSchoolNameBook "u1" "T1"
              ["Learner Details"; "School Name"; "Score"]
              [ ["u1@x.com"; "Typed School"; "10"] ]
              (inl 0) ["u1@x.com"; "Typed School"; "10"] "u1"
              {| userName := "u1"; schoolName := "Mapped School"; schoolCode := "S1";
                 udsieCode := ""; emisId := "" |}
              eq_refl eq_refl eq_refl eq_refl eq_refl)
    as (d & Hd & Hname & _).
  - vm_compute. reflexivity.
  - exists d. split; [exact Hd |]. split; [exact Hname |]. vm_compute. reflexivity.
Defined.

End Details.

(** ** A mapping sheet without the columns it needs *)

Module MappingColumns.

Import JsString JsNum Sheets StringFacts ListFacts Vocabulary Workbooks.

(** A column that holds the OpenGrad school code mentions a school. *)
Lemma opengrad_is_school (h : string) :
  isOpengradSchoolCode h = true -> isSchool h = true.
Proof.
  unfold isOpengradSchoolCode, isSchool. cbv zeta. intros H.
  apply andb_prop in H as (H & _). now apply andb_prop in H as (_ & H).
Qed.

Lemma schoolIdIndexOf_None (header : row) :
  schoolIdIndexOf header = None <-> Forall (fun h => isSchool h = false) header.
Proof.
  unfold schoolIdIndexOf. split.
  - destruct (JsArray.findIndex isOpengradSchoolCode header); [discriminate |].
    apply findIndex_None.
  - intros Hno.
    destruct (JsArray.findIndex isOpengradSchoolCode header) as [i|] eqn:Hi.
    + apply findIndex_Some in Hi as (h & Hh & Hp & _).
      apply opengrad_is_school in Hp. rewrite List.Forall_forall in Hno.
      rewrite Hno in Hp; [discriminate |].
      apply list_elem_of_In. now apply list_elem_of_lookup_2 with i.
    + now apply findIndex_None.
Qed.

Lemma studentIdIndexOf_None (header : row) :
  Forall (fun h => isStudentIdColumn h = false /\ isStudentNotSchool h = false) header ->
  studentIdIndexOf header = None.
Proof.
  intros Hno. unfold studentIdIndexOf.
  assert (H1 : JsArray.findIndex isStudentIdColumn header = None).
  { apply findIndex_None. eapply List.Forall_impl; [| exact Hno]. now intros h (H & _). }
  rewrite H1. apply findIndex_None.
  eapply List.Forall_impl; [| exact Hno]. now intros h (_ & H).
Qed.

Lemma masterColumns_None (header : row) :
  Forall (fun h => isSchool h = false) header
  \/ Forall (fun h => isStudentIdColumn h = false /\ isStudentNotSchool h = false) header ->
  masterColumns header = None.
Proof.
  unfold masterColumns. intros [H | H].
  - apply schoolIdIndexOf_None in H. now rewrite H.
  - apply studentIdIndexOf_None in H. rewrite H.
    now destruct (schoolIdIndexOf header).
Qed.

(** X19: when no column of the mapping sheet mentions a school, or none is
    a student column, no student and no school is ever found: every school
    has no students, [getStudentTests] answers every request with an error
    and no tests, and [getSchoolStats] answers every school id with "not
    found"; in the first case the list of available schools is empty. *)
Theorem mapping_needs_columns (acc : Accessor) (mheader : row) (mdata : list row) :
  readSheet acc "Mapping" = mheader :: mdata ->
  Forall (fun h => isSchool h = false) mheader
  \/ Forall (fun h => isStudentIdColumn h = false /\ isStudentNotSchool h = false) mheader ->
  (forall sch, getStudentsBySchool acc sch = [])
  /\ (forall sid sc,
        exists msg,
          getStudentTests acc sid sc
          = inr {| error := Some msg; student := None; tests := [] |})
  /\ (forall sch, truthy sch = true ->
        getSchoolStats acc sch
        = StatsError (notFoundMessage sch)
            (Some (notFoundDetails (availableSchoolIds acc))))
  /\ (Forall (fun h => isSchool h = false) mheader -> availableSchoolIds acc = []).
Proof.
  intros Hread Hmiss. pose proof (masterColumns_None mheader Hmiss) as Hcols.
  assert (Hready : acc_ready acc = true).
  { unfold readSheet in Hread. destruct (acc_ready acc); [reflexivity | discriminate]. }
  assert (Hnone : forall sch, getStudentsBySchool acc sch = []).
  { intros sch. unfold getStudentsBySchool. now rewrite Hread, Hcols. }
  split; [exact Hnone |]. split; [| split].
  - intros sid sc. exists (snd (findInMaster acc sid sc)). unfold getStudentTests.
    assert (Hf : fst (findInMaster acc sid sc) = None).
    { unfold findInMaster, findStudentInMaster, findStudentById.
      rewrite Hread, Hcols. destruct sc as [s|]; [destruct (truthy s) |]; reflexivity. }
    now rewrite Hf.
  - intros sch Hsch. unfold getSchoolStats. now rewrite Hready, Hsch, Hnone.
  - intros Hno. unfold availableSchoolIds. rewrite Hread.
    apply schoolIdIndexOf_None in Hno. now rewrite Hno.
Qed.

(** [mapping_needs_columns] on a mapping sheet with the columns UserName
    and Student Name. *)
Lemma mapping_needs_columns_example :
  getStudentsBySchool noSchoolColumnBook "S1" = []
  /\ getSchoolStats noSchoolColumnBook "S1"
     = StatsError (notFoundMessage "S1") (Some (notFoundDetails [])).
Proof.
  assert (Hno : Forall (fun h => isSchool h = false) ["UserName"; "Student Name"])
    by (repeat constructor).
  destruct (mapping_needs_columns noSchoolColumnBook
              ["UserName"; "Student Name"] [ ["u1"; "Alice"] ] eq_refl (or_introl Hno))
    as (H1 & _ & H3 & H4).
  split; [apply H1 |]. rewrite <- (H4 Hno). now apply H3.
Defined.

End MappingColumns.

(** ** The HTTP endpoints *)

Module Endpoints.

Import JsString Sheets Server StringFacts ListFacts Vocabulary Workbooks.

(** [schoolId || null] is to [getStudentTests] what [schoolId] is. *)
Lemma findInMaster_or_null (acc : Accessor) (s : string) (sc : option string) :
  findInMaster acc s (if truthy_opt sc then sc else None) = findInMaster acc s sc.
Proof.
  destruct sc as [c|]; [| reflexivity]. cbn [truthy_opt].
  destruct (truthy c) eqn:E; [reflexivity |].
  unfold findInMaster. now rewrite E.
Qed.

Lemma getStudentTests_or_null (acc : Accessor) (s : string) (sc : option string) :
  getStudentTests acc s (if truthy_opt sc then sc else None) = getStudentTests acc s sc.
Proof. unfold getStudentTests. now rewrite findInMaster_or_null. Qed.

(** X20: [GET /api/student/tests] answers with status 200, 400 or 500. The
    status is 400 exactly when the client is initialised and the student id
    is missing or empty. On an initialised client it is 500 only when the
    sheet names cannot be listed, and the body then repeats the student id
    and carries the message of that failure after "Failed to fetch student
    tests: ". *)
Theorem studentTests_statuses (acc : Accessor) (sid sc : option string) :
  (statusOf (studentTestsEndpoint acc sid sc) = 200
   \/ statusOf (studentTestsEndpoint acc sid sc) = 400
   \/ statusOf (studentTestsEndpoint acc sid sc) = 500)
  /\ (statusOf (studentTestsEndpoint acc sid sc) = 400
      <-> acc_ready acc = true /\ truthy_opt sid = false)
  /\ (acc_ready acc = false -> statusOf (studentTestsEndpoint acc sid sc) = 500)
  /\ (acc_ready acc = true ->
      statusOf (studentTestsEndpoint acc sid sc) = 500 ->
      exists msg,
        acc_sheets acc = inl msg
        /\ studentTestsEndpoint acc sid sc
           = Refused
               {| httpStatus := 500;
                  failError := "Failed to fetch student tests: "
                               ++ (if truthy msg then msg else "Unknown error occurred");
                  failDetails := Some "Check server logs for more details";
                  echo := sid |}).
Proof.
  unfold studentTestsEndpoint.
  destruct (acc_ready acc) eqn:Hready; cbn [negb].
  2: { cbn. repeat split; try tauto; try discriminate. intros (H & _). discriminate H. }
  destruct sid as [s|]; cbn [truthy_opt].
  2: { cbn. repeat split; try tauto; discriminate. }
  destruct (truthy s) eqn:Hs.
  2: { cbn. repeat split; try tauto; discriminate. }
  rewrite getStudentTests_or_null. unfold getStudentTests.
  destruct (fst (findInMaster acc s sc)) as [st|].
  2: { cbn. repeat split; try tauto; try discriminate. intros (_ & H). discriminate H. }
  unfold getSheetNames. rewrite Hready.
  destruct (acc_sheets acc) as [msg|allSheets]; cbn.
  - repeat split; try tauto; try discriminate.
    + intros (_ & H). discriminate H.
    + intros _ _. exists msg. split; reflexivity.
  - repeat split; try tauto; try discriminate. intros (_ & H). discriminate H.
Qed.

(** X21: a student that the mapping sheet does not have, or has under
    another school than the one asked for, is answered with status 200: the
    body carries the error, no student and no tests. An empty school id
    counts as none. *)
Theorem unknown_student_status_200 (acc : Accessor) (s : string) (sc : option string) :
  acc_ready acc = true ->
  truthy s = true ->
  fst (findInMaster acc s sc) = None ->
  studentTestsEndpoint acc (Some s) sc
  = Sent {| error := Some (if truthy_opt sc
                           then "Student not found or school ID mismatch"
                           else "Student not found");
            student := None;
            tests := [] |}
  /\ statusOf (studentTestsEndpoint acc (Some s) sc) = 200.
Proof.
  intros Hready Hs Hnone.
  assert (H : studentTestsEndpoint acc (Some s) sc
              = Sent {| error := Some (if truthy_opt sc
                                       then "Student not found or school ID mismatch"
                                       else "Student not found");
                        student := None;
                        tests := [] |}).
  { unfold studentTestsEndpoint. rewrite Hready, Hs. cbn [negb].
    rewrite getStudentTests_or_null. unfold getStudentTests. rewrite Hnone.
    do 3 f_equal. unfold findInMaster.
    destruct sc as [c|]; [cbn [truthy_opt]; destruct (truthy c) |]; reflexivity. }
  split; [exact H | now rewrite H].
Qed.

(** [unknown_student_status_200] on the README mapping sheet: STU003 is a
    student of SCHOOL002, not of SCHOOL001. *)
Lemma unknown_student_readme :
  studentTestsEndpoint aptitudeBook (Some "STU003") (Some "SCHOOL001")
  = Sent {| error := Some "Student not found or school ID mismatch";
            student := None;
            tests := [] |}
  /\ statusOf (studentTestsEndpoint aptitudeBook (Some "STU003") (Some "SCHOOL001")) = 200.
Proof.
  apply (unknown_student_status_200 aptitudeBook "STU003" (Some "SCHOOL001"));
    reflexivity.
Defined.

Lemma enrichTestSheet_length (acc : Accessor) (sheet : string) :
  length (enrichTestSheet acc sheet) = length (readSheet acc sheet).
Proof.
  unfold enrichTestSheet.
  destruct (readSheet acc sheet) as [|header data]; [reflexivity |].
  destruct (JsArray.findIndex isLearnerDetails header); [| reflexivity].
  cbn [length]. now rewrite List.length_map.
Qed.

(** X22: on an initialised client and for a test name that is not empty,
    [GET /api/test/enriched] always answers with status 200; its row count
    is the number of data rows of the sheet read, and -1, with no data,
    when the sheet is empty or cannot be read. *)
Theorem enriched_rowCount (acc : Accessor) (tn : string) :
  acc_ready acc = true ->
  truthy tn = true ->
  exists body,
    enrichedEndpoint acc (Some tn) = Sent body
    /\ enrichedTestName body = tn
    /\ length (enrichedData body) = length (readSheet acc tn)
    /\ (forall header data, readSheet acc tn = header :: data ->
          rowCount body = Z.of_nat (length data))
    /\ (readSheet acc tn = [] ->
          rowCount body = (-1)%Z /\ enrichedData body = []).
Proof.
  intros Hready Htn. unfold enrichedEndpoint. rewrite Hready, Htn. cbn [negb].
  eexists. split; [reflexivity |]. cbn [enrichedTestName enrichedData rowCount].
  rewrite enrichTestSheet_length. repeat split.
  - intros header data ->. cbn [length]. lia.
  - now rewrite H.
  - unfold enrichTestSheet. now rewrite H.
Qed.

(** [enriched_rowCount] on a sheet that the spreadsheet does not have. *)
Lemma enriched_rowCount_missing_sheet :
  exists body,
    enrichedEndpoint plainBook (Some "T2") = Sent body
    /\ rowCount body = (-1)%Z
    /\ enrichedData body = [].
Proof.
  destruct (enriched_rowCount plainBook "T2" eq_refl eq_refl)
    as (body & Hb & _ & _ & _ & Hempty).
  exists body. split; [exact Hb |]. now apply Hempty.
Defined.

Lemma find_In {A : Type} (p : A -> bool) (l : list A) (x : A) :
  List.find p l = Some x -> In x l /\ p x = true.
Proof. apply List.find_some. Qed.

(** X23: the sheet that [GET /api/debug/master] reads is "Mapping" or one
    of the sheets of the spreadsheet, and its name in lower case contains
    "mapping" or "master". When a sheet is named "mapping" in some letter
    case, the sheet read is so named; otherwise, when a sheet is named
    "master" in some letter case, the sheet read is so named. *)
Theorem debugMasterSheetName_spec (allSheets : list string) :
  (debugMasterSheetName allSheets = "Mapping" \/ In (debugMasterSheetName allSheets) allSheets)
  /\ (includes (toLowerCase (debugMasterSheetName allSheets)) "mapping" = true
      \/ includes (toLowerCase (debugMasterSheetName allSheets)) "master" = true)
  /\ (Exists (fun n => toLowerCase n = "mapping") allSheets ->
      toLowerCase (debugMasterSheetName allSheets) = "mapping")
  /\ (Forall (fun n => toLowerCase n <> "mapping") allSheets ->
      Exists (fun n => toLowerCase n = "master") allSheets ->
      toLowerCase (debugMasterSheetName allSheets) = "master").
Proof.
  unfold debugMasterSheetName.
  destruct (List.find (fun n => String.eqb (toLowerCase n) "mapping") allSheets)
    as [m|] eqn:E1.
  { apply find_In in E1 as (Hin & Hm). apply String.eqb_eq in Hm.
    split; [| split; [| split]]; [now right | left; now rewrite Hm | now intros _ |].
    intros Hno _. rewrite List.Forall_forall in Hno. now apply Hno in Hin. }
  assert (Hno1 : Forall (fun n => toLowerCase n <> "mapping") allSheets).
  { apply List.Forall_forall. intros n Hn. apply String.eqb_neq.
    exact (List.find_none _ _ E1 n Hn). }
  assert (Hex1 : ~ Exists (fun n => toLowerCase n = "mapping") allSheets).
  { intros H. apply List.Exists_exists in H as (n & Hn & Hm).
    rewrite List.Forall_forall in Hno1. now apply (Hno1 n Hn). }
  destruct (List.find (fun n => String.eqb (toLowerCase n) "master") allSheets)
    as [m|] eqn:E2.
  { apply find_In in E2 as (Hin & Hm). apply String.eqb_eq in Hm.
    split; [| split; [| split]]; [now right | right; now rewrite Hm | tauto | now intros _ _]. }
  assert (Hex2 : ~ Exists (fun n => toLowerCase n = "master") allSheets).
  { intros H. apply List.Exists_exists in H as (n & Hn & Hm).
    apply String.eqb_eq in Hm. pose proof (List.find_none _ _ E2 n Hn) as Hf.
    cbv beta in Hf. congruence. }
  destruct (Nat.ltb 0 (length allSheets));
    [| split; [| split; [| split]]; [now left | now left | tauto | tauto]].
  destruct (List.find (fun n => includes (toLowerCase n) "mapping") allSheets)
    as [m|] eqn:E3.
  { apply find_In in E3 as (Hin & Hm).
    split; [| split; [| split]]; [now right | now left | tauto | tauto]. }
  destruct (List.find (fun n => includes (toLowerCase n) "master") allSheets)
    as [m|] eqn:E4.
  { apply find_In in E4 as (Hin & Hm).
    split; [| split; [| split]]; [now right | now right | tauto | tauto]. }
  split; [| split; [| split]]; [now left | now left | tauto | tauto].
Qed.

End Endpoints.
